(** * work-log: a shallow embedding of the time tracker and its reports

    The development follows the layering of the program:
    - [date], [time], [datetime], [timedelta]: the values of Python's
      [datetime] module that the program manipulates (proleptic Gregorian
      calendar, ordinals, week days, ISO-8601 text);
    - [Project], [WorkEntry]: app/models.py;
    - [Database]: app/db.py, two SQLite tables held in rowid order, the
      timestamps stored as ISO-8601 text and compared as text;
    - the commands of app/cli.py: [start_work], [stop_work], [add_project],
      [_show_day_report], [_show_week_report].

    Hours are Python floats in the program.  They are modelled by exact
    rationals ([Q]): rounding of binary floating point is outside the model,
    every other step of the computation is kept. *)

From Stdlib Require Import ZArith QArith List Bool Lia Ascii String Permutation.
Import ListNotations.

Local Open Scope Z_scope.

(* ================================================================= *)
(** ** Python's calendar arithmetic (datetime.py) *)

Module Calendar.

Definition MINYEAR : Z := 1.
Definition MAXYEAR : Z := 9999.
Definition _MAXORDINAL : Z := 3652059.

Definition _DI400Y : Z := 146097.
Definition _DI100Y : Z := 36524.
Definition _DI4Y : Z := 1461.

(** year % 4 == 0 and (year % 100 != 0 or year % 400 == 0) *)
Definition _is_leap (year : Z) : bool :=
  (year mod 4 =? 0) && (negb (year mod 100 =? 0) || (year mod 400 =? 0)).

(** y = year - 1; y*365 + y//4 - y//100 + y//400 *)
Definition _days_before_year (year : Z) : Z :=
  let y := year - 1 in
  y * 365 + y / 4 - y / 100 + y / 400.

(** _DAYS_IN_MONTH = [-1, 31, 28, 31, 30, 31, 30, 31, 31, 30, 31, 30, 31] *)
Definition _DAYS_IN_MONTH (month : Z) : Z :=
  match month with
  | 1 => 31 | 2 => 28 | 3 => 31 | 4 => 30 | 5 => 31 | 6 => 30
  | 7 => 31 | 8 => 31 | 9 => 30 | 10 => 31 | 11 => 30 | 12 => 31
  | _ => -1
  end.

(** _DAYS_BEFORE_MONTH: the running sum of the table above. *)
Definition _DAYS_BEFORE_MONTH (month : Z) : Z :=
  match month with
  | 1 => 0 | 2 => 31 | 3 => 59 | 4 => 90 | 5 => 120 | 6 => 151
  | 7 => 181 | 8 => 212 | 9 => 243 | 10 => 273 | 11 => 304 | 12 => 334
  | _ => -1
  end.

Definition _days_in_month (year month : Z) : Z :=
  if (month =? 2) && _is_leap year then 29 else _DAYS_IN_MONTH month.

Definition _days_before_month (year month : Z) : Z :=
  _DAYS_BEFORE_MONTH month + (if (2 <? month) && _is_leap year then 1 else 0).

Definition _ymd2ord (year month day : Z) : Z :=
  _days_before_year year + _days_before_month year month + day.

(** The month and day of the [n]-th day (from 0) of a year. *)
Definition _month_day (leapyear : bool) (n : Z) : Z * Z :=
  let month := Z.shiftr (n + 50) 5 in
  let preceding :=
    _DAYS_BEFORE_MONTH month + (if (2 <? month) && leapyear then 1 else 0) in
  if n <? preceding then
    let month' := month - 1 in
    let preceding' :=
      preceding
      - (_DAYS_IN_MONTH month' + (if (month' =? 2) && leapyear then 1 else 0)) in
    (month', n - preceding' + 1)
  else (month, n - preceding + 1).

Definition _ord2ymd (n0 : Z) : Z * Z * Z :=
  let n := n0 - 1 in
  let n400 := n / _DI400Y in
  let n := n mod _DI400Y in
  let year := n400 * 400 + 1 in
  let n100 := n / _DI100Y in
  let n := n mod _DI100Y in
  let n4 := n / _DI4Y in
  let n := n mod _DI4Y in
  let n1 := n / 365 in
  let n := n mod 365 in
  let year := year + n100 * 100 + n4 * 4 + n1 in
  if (n1 =? 4) || (n100 =? 4) then (year - 1, 12, 31)
  else
    let leapyear := (n1 =? 3) && (negb (n4 =? 24) || (n100 =? 3)) in
    let '(month, day) := _month_day leapyear n in
    (year, month, day).

End Calendar.
Import Calendar.

(** datetime.date *)
Record date : Type := mkdate { year : Z; month : Z; day : Z }.

Definition date_eqb (a b : date) : bool :=
  (year a =? year b) && (month a =? month b) && (day a =? day b).

(** The dates Python's constructor accepts. *)
Definition valid_date (d : date) : Prop :=
  MINYEAR <= year d <= MAXYEAR /\ 1 <= month d <= 12 /\
  1 <= day d <= _days_in_month (year d) (month d).

Definition valid_dateb (d : date) : bool :=
  (MINYEAR <=? year d) && (year d <=? MAXYEAR) &&
  (1 <=? month d) && (month d <=? 12) &&
  (1 <=? day d) && (day d <=? _days_in_month (year d) (month d)).

Definition toordinal (d : date) : Z := _ymd2ord (year d) (month d) (day d).

Definition fromordinal (n : Z) : date :=
  let '(y, m, d) := _ord2ymd n in mkdate y m d.

(** (self.toordinal() + 6) % 7: Monday is 0. *)
Definition weekday (d : date) : Z := (toordinal d + 6) mod 7.

(** Exceptions that reach the command line. *)
Inductive exn : Type :=
  | OverflowError
  | IntegrityError
  | AttributeError
  | TypeError
  | KeyError.

Inductive result (A : Type) : Type :=
  | Ok (a : A)
  | Raise (e : exn).
Arguments Ok {A} a.
Arguments Raise {A} e.

Definition bind {A B : Type} (r : result A) (k : A -> result B) : result B :=
  match r with
  | Ok a => k a
  | Raise e => Raise e
  end.

Notation "x <- r ;; k" := (bind r (fun x => k))
  (at level 61, r at next level, right associativity).

(** date.__add__(timedelta(days=n)):
    o = self.toordinal() + n; if 0 < o <= _MAXORDINAL: fromordinal(o);
    raise OverflowError("result out of range"). *)
Definition date_add_days (d : date) (n : Z) : result date :=
  let o := toordinal d + n in
  if (0 <? o) && (o <=? _MAXORDINAL) then Ok (fromordinal o)
  else Raise OverflowError.

(** date.__sub__(timedelta(days=n)) is self + timedelta(-n). *)
Definition date_sub_days (d : date) (n : Z) : result date :=
  date_add_days d (- n).

(* ================================================================= *)
(** ** datetime.time, datetime.datetime, datetime.timedelta *)

Record time : Type :=
  mktime { t_hour : Z; t_minute : Z; t_second : Z; t_microsecond : Z }.

(** datetime.min.time() and datetime.max.time() *)
Definition min_time : time := mktime 0 0 0 0.
Definition max_time : time := mktime 23 59 59 999999.

Record datetime : Type :=
  mkdatetime { dt_date : date; hour : Z; minute : Z; second : Z;
               microsecond : Z }.

Definition combine (d : date) (t : time) : datetime :=
  mkdatetime d (t_hour t) (t_minute t) (t_second t) (t_microsecond t).

Definition valid_datetime (t : datetime) : Prop :=
  valid_date (dt_date t) /\ 0 <= hour t <= 23 /\ 0 <= minute t <= 59 /\
  0 <= second t <= 59 /\ 0 <= microsecond t <= 999999.

Definition valid_datetimeb (t : datetime) : bool :=
  valid_dateb (dt_date t) &&
  (0 <=? hour t) && (hour t <=? 23) && (0 <=? minute t) && (minute t <=? 59) &&
  (0 <=? second t) && (second t <=? 59) &&
  (0 <=? microsecond t) && (microsecond t <=? 999999).

(** Lexicographic comparison of two lists of fields. *)
Fixpoint lex_compare (xs ys : list Z) : comparison :=
  match xs, ys with
  | [], [] => Eq
  | [], _ :: _ => Lt
  | _ :: _, [] => Gt
  | x :: xs', y :: ys' =>
      match x ?= y with
      | Eq => lex_compare xs' ys'
      | c => c
      end
  end.

Definition datetime_fields (t : datetime) : list Z :=
  [year (dt_date t); month (dt_date t); day (dt_date t);
   hour t; minute t; second t; microsecond t].

(** datetime._cmp: the fields are compared in order, year first. *)
Definition datetime_compare (a b : datetime) : comparison :=
  lex_compare (datetime_fields a) (datetime_fields b).

Definition datetime_le (a b : datetime) : Prop := datetime_compare a b <> Gt.
Definition datetime_lt (a b : datetime) : Prop := datetime_compare a b = Lt.

Definition datetime_leb (a b : datetime) : bool :=
  match datetime_compare a b with Gt => false | _ => true end.
Definition datetime_ltb (a b : datetime) : bool :=
  match datetime_compare a b with Lt => true | _ => false end.

Record timedelta : Type :=
  mktimedelta { days : Z; seconds : Z; microseconds : Z }.

(** timedelta(days, seconds, microseconds): the constructor carries the
    microseconds into seconds and the seconds into days, so that
    0 <= microseconds < 10**6 and 0 <= seconds < 86400. *)
Definition timedelta_new (d s us : Z) : timedelta :=
  let s1 := s + us / 1000000 in
  mktimedelta (d + s1 / 86400) (s1 mod 86400) (us mod 1000000).

(** timedelta.__bool__ *)
Definition timedelta_bool (td : timedelta) : bool :=
  negb (days td =? 0) || negb (seconds td =? 0) || negb (microseconds td =? 0).

(** Python floats, idealised. *)
Abbreviation float := Q (only parsing).

(** True division of two integers. *)
Definition truediv (a b : Z) : float := Qdiv (inject_Z a) (inject_Z b).

(** ((self.days * 86400 + self.seconds) * 10**6 + self.microseconds) / 10**6 *)
Definition total_seconds (td : timedelta) : float :=
  truediv ((days td * 86400 + seconds td) * 10 ^ 6 + microseconds td) (10 ^ 6).

(** Truth value of a float: non-zero. *)
Definition float_bool (x : float) : bool := negb (Qeq_bool x 0).

(** datetime.__sub__(datetime) *)
Definition datetime_sub (a b : datetime) : timedelta :=
  let days1 := toordinal (dt_date a) in
  let days2 := toordinal (dt_date b) in
  let secs1 := second a + minute a * 60 + hour a * 3600 in
  let secs2 := second b + minute b * 60 + hour b * 3600 in
  timedelta_new (days1 - days2) (secs1 - secs2) (microsecond a - microsecond b).

(* ================================================================= *)
(** ** ISO-8601 text, as stored in the TEXT columns *)

(** chr(ord('0') + k) for a decimal digit k *)
Definition digit (k : Z) : ascii := ascii_of_N (48 + Z.to_N k).

(** "%0wd" % n, most significant digit first. *)
Fixpoint zpad (w : nat) (n : Z) : string :=
  match w with
  | O => EmptyString
  | S w' => String (digit (n / 10 ^ Z.of_nat w')) (zpad w' (n mod 10 ^ Z.of_nat w'))
  end.

(** date.isoformat(): "%04d-%02d-%02d" *)
Definition date_isoformat (d : date) (rest : string) : string :=
  (zpad 4 (year d) ++ "-" ++ zpad 2 (month d) ++ "-" ++ zpad 2 (day d) ++ rest)%string.

(** _format_time with timespec='auto': the fraction is printed only when
    the microsecond is not 0. *)
Definition time_isoformat (hh mm ss us : Z) : string :=
  (zpad 2 hh ++ ":" ++ zpad 2 mm ++ ":" ++ zpad 2 ss ++
   (if (us =? 0)%Z then "" else "." ++ zpad 6 us))%string.

(** datetime.isoformat() with the default separator 'T' *)
Definition isoformat (t : datetime) : string :=
  date_isoformat (dt_date t)
    ("T" ++ time_isoformat (hour t) (minute t) (second t) (microsecond t))%string.

(* ================================================================= *)
(** ** decimal.Decimal, idealised like floats *)

Record Decimal : Type := mkDecimal { dec_value : Q }.

(** Decimal(str(x)) for a float x *)
Definition Decimal_of_float (x : float) : Decimal := mkDecimal x.

(** float(d) *)
Definition float_of_Decimal (d : Decimal) : float := dec_value d.

(** Decimal.__mul__ *)
Definition Decimal_mul (a b : Decimal) : Decimal :=
  mkDecimal (dec_value a * dec_value b)%Q.

(** Decimal.__bool__: non-zero *)
Definition Decimal_bool (d : Decimal) : bool := negb (Qeq_bool (dec_value d) 0).

(* ================================================================= *)
(** ** app/models.py *)

Record Project : Type :=
  mkProject { p_id : option Z; name : string; is_billed_hourly : bool;
              hour_rate : option Decimal }.

Record WorkEntry : Type :=
  mkWorkEntry { e_id : option Z; project_id : Z; description : string;
                start_time : option datetime; end_time : option datetime }.

(** WorkEntry.duration *)
Definition duration (e : WorkEntry) : option timedelta :=
  match start_time e, end_time e with
  | Some s, Some t => Some (datetime_sub t s)
  | _, _ => None
  end.

(** WorkEntry.duration_hours: [if self.duration:] tests the truth value of
    the timedelta, not its presence. *)
Definition duration_hours (e : WorkEntry) : option float :=
  match duration e with
  | Some td =>
      if timedelta_bool td then Some (total_seconds td / 3600)%Q else None
  | None => None
  end.

(** The truth value of an Optional[float]. *)
Definition opt_float_bool (x : option float) : bool :=
  match x with
  | Some h => float_bool h
  | None => false
  end.

(** Pieces of formatted output.  [CHours h] stands for f"{h:.2f}" and
    [CClock hh mm] for strftime("%H:%M"). *)
Inductive cell : Type :=
  | CText (s : string)
  | CHours (h : float)
  | CClock (hh mm : Z).


(* ================================================================= *)
(** ** SQL values and three-valued logic *)

Module Sql.

(** A nullable TEXT value; [None] is NULL. *)
Definition text : Type := option string.

(** The truth value of a condition; [None] is NULL (unknown). *)
Definition tri : Type := option bool.

Definition and3 (a b : tri) : tri :=
  match a, b with
  | Some false, _ | _, Some false => Some false
  | Some true, Some true => Some true
  | _, _ => None
  end.

Definition or3 (a b : tri) : tri :=
  match a, b with
  | Some true, _ | _, Some true => Some true
  | Some false, Some false => Some false
  | _, _ => None
  end.

(** Comparison of TEXT under the BINARY collation: byte by byte, a proper
    prefix first. *)
Definition cmp3 (test : comparison -> bool) (a b : text) : tri :=
  match a, b with
  | Some x, Some y => Some (test (String.compare x y))
  | _, _ => None
  end.

Definition lt3 : text -> text -> tri :=
  cmp3 (fun c => match c with Lt => true | _ => false end).
Definition gt3 : text -> text -> tri :=
  cmp3 (fun c => match c with Gt => true | _ => false end).
Definition le3 : text -> text -> tri :=
  cmp3 (fun c => match c with Gt => false | _ => true end).
Definition ge3 : text -> text -> tri :=
  cmp3 (fun c => match c with Lt => false | _ => true end).

(** x BETWEEN lo AND hi  is  x >= lo AND x <= hi *)
Definition between3 (x lo hi : text) : tri := and3 (ge3 x lo) (le3 x hi).

(** x IS NULL never yields NULL. *)
Definition is_null (x : text) : tri :=
  match x with None => Some true | Some _ => Some false end.

(** A row is selected when its WHERE condition is true. *)
Definition holds (c : tri) : bool :=
  match c with Some true => true | _ => false end.

End Sql.

(* ================================================================= *)
(** ** app/db.py *)

(** A row of table projects(id, name UNIQUE, is_billed_hourly, hour_rate). *)
Record project_row : Type :=
  mk_project_row { r_id : Z; r_name : string; r_is_billed_hourly : Z;
                   r_hour_rate : option float }.

(** A row of table work_entries(id, project_id, description, start_time,
    end_time).  The two TEXT columns hold [isoformat] of the datetime kept
    here (start_time is NOT NULL); every SQL comparison is made on that
    text, and reading a row back is datetime.fromisoformat of it. *)
Record entry_row : Type :=
  mk_entry_row { w_id : Z; w_project_id : Z; w_description : string;
                 w_start_time : datetime; w_end_time : option datetime }.

(** The database file: both tables in rowid order, and for each the last
    rowid that AUTOINCREMENT handed out. *)
Record Database : Type :=
  mkDatabase { projects : list project_row; work_entries : list entry_row;
               projects_seq : Z; work_entries_seq : Z }.

(** _init_db on a new file *)
Definition empty_db : Database := mkDatabase [] [] 0 0.

Definition _create_project_from_row (row : project_row) : Project :=
  mkProject (Some (r_id row)) (r_name row)
            (negb (r_is_billed_hourly row =? 0))
            (option_map Decimal_of_float (r_hour_rate row)).

Definition entry_of_row (row : entry_row) : WorkEntry :=
  mkWorkEntry (Some (w_id row)) (w_project_id row) (w_description row)
              (Some (w_start_time row)) (w_end_time row).

(** INSERT INTO projects: the UNIQUE constraint on name makes sqlite3 raise
    IntegrityError, and the statement changes nothing. *)
Definition create_project (db : Database) (project : Project)
  : result (Database * Z) :=
  if existsb (fun r => String.eqb (r_name r) (name project)) (projects db)
  then Raise IntegrityError
  else
    let lastrowid := projects_seq db + 1 in
    let row := mk_project_row lastrowid (name project)
                 (if is_billed_hourly project then 1 else 0)
                 (option_map float_of_Decimal (hour_rate project)) in
    Ok (mkDatabase (projects db ++ [row]) (work_entries db)
                   lastrowid (work_entries_seq db), lastrowid).

(** The ints that sqlite3 binds to a parameter: those of a 64-bit INTEGER.
    For any other one the execute call raises OverflowError. *)
Definition sqlite_int (n : Z) : bool := (- 2 ^ 63 <=? n) && (n <? 2 ^ 63).

(** SELECT * FROM projects WHERE id = ?, for an id that [sqlite_int]
    admits.  start, which passes on whatever int() read from the command
    line, makes the test before it calls; the ids of project-update and
    project-delete are taken to be in range. *)
Definition get_project (db : Database) (project_id : Z) : option Project :=
  option_map _create_project_from_row
    (find (fun r => r_id r =? project_id) (projects db)).

Definition get_project_by_name (db : Database) (nm : string) : option Project :=
  option_map _create_project_from_row
    (find (fun r => String.eqb (r_name r) nm) (projects db)).

(** DELETE FROM projects WHERE id = ?; returns rowcount > 0.  Work entries
    of the project stay. *)
Definition delete_project (db : Database) (project_id : Z) : Database * bool :=
  (mkDatabase (filter (fun r => negb (r_id r =? project_id)) (projects db))
              (work_entries db) (projects_seq db) (work_entries_seq db),
   existsb (fun r => r_id r =? project_id) (projects db)).

(** INSERT INTO work_entries; start_time is NOT NULL. *)
Definition create_work_entry (db : Database) (entry : WorkEntry)
  : result (Database * Z) :=
  match start_time entry with
  | None => Raise IntegrityError
  | Some st =>
      let lastrowid := work_entries_seq db + 1 in
      let row := mk_entry_row lastrowid (project_id entry) (description entry)
                   st (end_time entry) in
      Ok (mkDatabase (projects db) (work_entries db ++ [row])
                     (projects_seq db) lastrowid, lastrowid)
  end.

Definition get_work_entry (db : Database) (entry_id : Z) : option WorkEntry :=
  option_map entry_of_row (find (fun r => w_id r =? entry_id) (work_entries db)).

(** SELECT * FROM work_entries WHERE end_time IS NULL; fetchone() *)
Definition get_active_work_entry (db : Database) : option WorkEntry :=
  option_map entry_of_row
    (find (fun r => Sql.holds (Sql.is_null (option_map isoformat (w_end_time r))))
          (work_entries db)).

(** UPDATE work_entries SET ... WHERE id = ?; returns rowcount > 0. *)
Definition update_work_entry (db : Database) (entry : WorkEntry)
  : result (Database * bool) :=
  let hit (r : entry_row) : bool :=
    match e_id entry with Some i => w_id r =? i | None => false end in
  if existsb hit (work_entries db) then
    match start_time entry with
    | None => Raise IntegrityError
    | Some st =>
        let upd (r : entry_row) : entry_row :=
          if hit r
          then mk_entry_row (w_id r) (project_id entry) (description entry)
                            st (end_time entry)
          else r in
        Ok (mkDatabase (projects db) (map upd (work_entries db))
                       (projects_seq db) (work_entries_seq db), true)
    end
  else Ok (db, false).

Definition delete_work_entry (db : Database) (entry_id : Z) : Database * bool :=
  (mkDatabase (projects db)
              (filter (fun r => negb (w_id r =? entry_id)) (work_entries db))
              (projects_seq db) (work_entries_seq db),
   existsb (fun r => w_id r =? entry_id) (work_entries db)).

(** FROM work_entries e JOIN projects p ON e.project_id = p.id *)
Definition join_entries_projects (db : Database)
  : list (entry_row * project_row) :=
  flat_map
    (fun e => map (fun p => (e, p))
                  (filter (fun p => w_project_id e =? r_id p) (projects db)))
    (work_entries db).

(** WHERE (e.start_time BETWEEN ? AND ?) OR (e.end_time BETWEEN ? AND ?) OR
          (e.start_time < ? AND (e.end_time > ? OR e.end_time IS NULL))
    with the six parameters lo, hi, lo, hi, lo, hi. *)
Definition overlap_where (lo hi : string) (e : entry_row) : Sql.tri :=
  let e_start_time : Sql.text := Some (isoformat (w_start_time e)) in
  let e_end_time : Sql.text := option_map isoformat (w_end_time e) in
  Sql.or3
    (Sql.or3 (Sql.between3 e_start_time (Some lo) (Some hi))
             (Sql.between3 e_end_time (Some lo) (Some hi)))
    (Sql.and3 (Sql.lt3 e_start_time (Some lo))
              (Sql.or3 (Sql.gt3 e_end_time (Some hi)) (Sql.is_null e_end_time))).

(** ORDER BY e.start_time: a stable sort on the text of the column. *)
Fixpoint insert_by_start (x : entry_row * project_row)
    (l : list (entry_row * project_row)) : list (entry_row * project_row) :=
  match l with
  | [] => [x]
  | y :: l' =>
      if String.ltb (isoformat (w_start_time (fst x)))
                    (isoformat (w_start_time (fst y)))
      then x :: y :: l'
      else y :: insert_by_start x l'
  end.

Definition order_by_start_time (l : list (entry_row * project_row))
  : list (entry_row * project_row) :=
  fold_left (fun acc x => insert_by_start x acc) l [].

(** The SELECT of get_entries_for_day and get_entries_for_week. *)
Definition select_overlapping (db : Database) (lo hi : string)
  : list (entry_row * project_row) :=
  order_by_start_time
    (filter (fun ep => Sql.holds (overlap_where lo hi (fst ep)))
            (join_entries_projects db)).

(** _create_project_from_row on a row of the SELECT above.  Its columns
    are those of e.* - id, project_id, description, start_time, end_time -
    and then p_id, p_name, is_billed_hourly, hour_rate.  row["id"] finds a
    column of that name, the first one, work_entries.id, so that the except
    branch that reads p_id is not taken; row["name"] finds none, raises
    IndexError, and p_name is read. *)
Definition _create_project_from_join_row (row : entry_row * project_row)
  : Project :=
  mkProject (Some (w_id (fst row))) (r_name (snd row))
            (negb (r_is_billed_hourly (snd row) =? 0))
            (option_map Decimal_of_float (r_hour_rate (snd row))).

(** for row in rows: results.append((entry, project)) *)
Definition rows_to_results (rows : list (entry_row * project_row))
  : list (WorkEntry * Project) :=
  map (fun row => (entry_of_row (fst row), _create_project_from_join_row row))
      rows.

Definition get_entries_for_day (db : Database) (d : date)
  : list (WorkEntry * Project) :=
  let start_of_day := combine d min_time in
  let end_of_day := combine d max_time in
  rows_to_results
    (select_overlapping db (isoformat start_of_day) (isoformat end_of_day)).

(** The Monday and the Sunday of the week of [date_in_week]. *)
Definition week_of (date_in_week : date) : result (date * date) :=
  start_of_week <- date_sub_days date_in_week (weekday date_in_week) ;;
  end_of_week <- date_add_days start_of_week 6 ;;
  Ok (start_of_week, end_of_week).

Definition get_entries_for_week (db : Database) (date_in_week : date)
  : result (list (WorkEntry * Project)) :=
  w <- week_of date_in_week ;;
  let start_datetime := combine (fst w) min_time in
  let end_datetime := combine (snd w) max_time in
  Ok (rows_to_results
        (select_overlapping db (isoformat start_datetime)
                            (isoformat end_datetime))).

(* ================================================================= *)
(** ** app/cli.py: projects and work sessions *)

(** int(s) for a str of ASCII characters: blanks around, an optional sign,
    decimal digits with single underscores between them.  [None] is
    ValueError. *)
Module PyInt.

(** Py_ISSPACE, which PyLong_FromString skips at both ends: blank, \t, \n,
    \v, \f and \r.  (A str of ASCII characters reaches it as it is; the
    separators 28 to 31 are blanks for str.isspace only.) *)
Definition is_space (c : ascii) : bool :=
  let n := N_of_ascii c in
  ((9 <=? n) && (n <=? 13) || (n =? 32))%N.

Definition digit_val (c : ascii) : option Z :=
  let n := N_of_ascii c in
  if ((48 <=? n) && (n <=? 57))%N then Some (Z.of_N n - 48) else None.

Fixpoint lstrip (s : string) : string :=
  match s with
  | String c s' => if is_space c then lstrip s' else s
  | EmptyString => EmptyString
  end.

Fixpoint rstrip (s : string) : string :=
  match s with
  | EmptyString => EmptyString
  | String c s' =>
      match rstrip s' with
      | EmptyString => if is_space c then EmptyString else String c EmptyString
      | r => String c r
      end
  end.

Fixpoint digits (s : string) (acc : Z) (after_digit : bool) : option Z :=
  match s with
  | EmptyString => if after_digit then Some acc else None
  | String c s' =>
      match digit_val c with
      | Some d => digits s' (10 * acc + d) true
      | None =>
          if Ascii.eqb c "_" && after_digit then digits s' acc false else None
      end
  end.

Definition int (s : string) : option Z :=
  match rstrip (lstrip s) with
  | String "+" r => digits r 0 false
  | String "-" r => option_map Z.opp (digits r 0 false)
  | t => digits t 0 false
  end.

(** The texts on which [int] is int(): ASCII characters only (a digit or a
    blank of another script is read by int() through tables that are not
    modelled), and no more than 4300 of them (beyond that many digits,
    Python 3.11 raises ValueError where earlier versions convert). *)
Definition is_ascii (s : string) : bool :=
  forallb (fun c => (N_of_ascii c <? 128)%N) (list_ascii_of_string s).

Definition plain (s : string) : bool :=
  is_ascii s && (Z.of_nat (String.length s) <=? 4300).

End PyInt.

(** What a command printed before it returned. *)
Inductive add_project_outcome : Type :=
  | ProjectAlreadyExists
  | ProjectAdded (project_id : Z).

Inductive start_outcome : Type :=
  | OperationCancelled
  | ProjectNotFound
  | StartedWork (entry_id : Z).

Inductive stop_outcome : Type :=
  | NoActiveWorkToStop
  | StoppedWork (hours : float).

(** project-add NAME [--hourly] [--rate RATE] *)
Definition add_project (db : Database) (nm : string) (hourly : bool)
    (rate : option float) : Database * result add_project_outcome :=
  match get_project_by_name db nm with
  | Some existing => (db, Ok ProjectAlreadyExists)
  | None =>
      let decimal_rate := option_map Decimal_of_float rate in
      let project := mkProject None nm hourly decimal_rate in
      match create_project db project with
      | Ok (db', project_id) => (db', Ok (ProjectAdded project_id))
      | Raise e => (db, Raise e)
      end
  end.

Definition set_end_time (e : WorkEntry) (t : datetime) : WorkEntry :=
  mkWorkEntry (e_id e) (project_id e) (description e) (start_time e) (Some t).

(** The second half of start_work: find the project, create the entry. *)
Definition start_work_on (db : Database) (project description : string)
    (now : datetime) : Database * result start_outcome :=
  let target_project : result (option Project) :=
    match PyInt.int project with
    | Some project_id =>
        if sqlite_int project_id then Ok (get_project db project_id)
        else Raise OverflowError
    | None => Ok (get_project_by_name db project)
    end in
  match target_project with
  | Raise e => (db, Raise e)
  | Ok None => (db, Ok ProjectNotFound)
  | Ok (Some target) =>
      match p_id target with
      | None => (db, Raise IntegrityError)
      | Some target_id =>
          let entry := mkWorkEntry None target_id description (Some now) None in
          match create_work_entry db entry with
          | Ok (db', entry_id) => (db', Ok (StartedWork entry_id))
          | Raise e => (db, Raise e)
          end
      end
  end.

(** start PROJECT DESCRIPTION.  [stop_current] is the answer to the
    confirmation prompt, [now_stop] and [now_start] are the two readings of
    datetime.now(). *)
Definition start_work (db : Database) (project description : string)
    (stop_current : bool) (now_stop now_start : datetime)
  : Database * result start_outcome :=
  match get_active_work_entry db with
  | Some active_entry =>
      match get_project db (project_id active_entry) with
      | None => (db, Raise AttributeError)
      | Some active_entry_project =>
          if stop_current then
            match update_work_entry db (set_end_time active_entry now_stop) with
            | Ok (db', _) => start_work_on db' project description now_start
            | Raise e => (db, Raise e)
            end
          else (db, Ok OperationCancelled)
      end
  | None => start_work_on db project description now_start
  end.

(** stop *)
Definition stop_work (db : Database) (now : datetime)
  : Database * result stop_outcome :=
  match get_active_work_entry db with
  | None => (db, Ok NoActiveWorkToStop)
  | Some active_entry0 =>
      let active_entry := set_end_time active_entry0 now in
      match update_work_entry db active_entry with
      | Raise e => (db, Raise e)
      | Ok (db', _) =>
          match get_project db' (project_id active_entry) with
          | None => (db', Raise AttributeError)
          | Some active_project =>
              match start_time active_entry with
              | None => (db', Raise TypeError)
              | Some st =>
                  let dur := datetime_sub now st in
                  (db', Ok (StoppedWork (total_seconds dur / 3600)%Q))
              end
          end
      end
  end.

(* ================================================================= *)
(** ** Python dicts: association lists in insertion order *)

Section Dict.
Context {K V : Type} (keq : K -> K -> bool).

Fixpoint dict_get (k : K) (d : list (K * V)) : option V :=
  match d with
  | [] => None
  | (k', v) :: d' => if keq k k' then Some v else dict_get k d'
  end.

(** d[k] = f(d.get(k)): an existing key keeps its place, a new key goes
    last. *)
Fixpoint dict_upd (k : K) (f : option V -> V) (d : list (K * V))
  : list (K * V) :=
  match d with
  | [] => [(k, f None)]
  | (k', v) :: d' =>
      if keq k k' then (k', f (Some v)) :: d'
      else (k', v) :: dict_upd k f d'
  end.

Definition dict_set (k : K) (v : V) : list (K * V) -> list (K * V) :=
  dict_upd k (fun _ => v).

Definition dict_mem (k : K) (d : list (K * V)) : bool :=
  match dict_get k d with Some _ => true | None => false end.
End Dict.

Definition id_eqb (a b : option Z) : bool :=
  match a, b with
  | Some x, Some y => x =? y
  | None, None => true
  | _, _ => false
  end.

(** defaultdict(list)[k].append(x) *)
Definition dict_append {K A : Type} (keq : K -> K -> bool) (k : K) (x : A)
    (d : list (K * list A)) : list (K * list A) :=
  dict_upd keq k (fun o => match o with Some l => l ++ [x] | None => [x] end) d.

(** defaultdict(float)[k] += x *)
Definition dict_add {K : Type} (keq : K -> K -> bool) (k : K) (x : float)
    (d : list (K * float)) : list (K * float) :=
  dict_upd keq k (fun o => match o with Some y => (y + x)%Q | None => (0 + x)%Q end) d.

(** defaultdict(float)[k] on reading *)
Definition dict_float {K : Type} (keq : K -> K -> bool) (k : K)
    (d : list (K * float)) : float :=
  match dict_get keq k d with Some y => y | None => 0%Q end.

Fixpoint mapM {A B : Type} (f : A -> result B) (l : list A) : result (list B) :=
  match l with
  | [] => Ok []
  | a :: l' => b <- f a ;; bs <- mapM f l' ;; Ok (b :: bs)
  end.

(* ================================================================= *)
(** ** app/cli.py: reports *)

(** A report is modelled by its content: the figures and texts that the
    command hands to console.print and Table.add_row, in their order.  The
    rendering is rich's and is left out: it reads project names and
    descriptions as console markup, and raises MarkupError on a text with
    a closing tag that matches no open one.  [Ok report] is what the
    command shows when every text renders; [Raise e] is an exception of
    the computation. *)

(** total = 0; for entry in entries: if entry.duration_hours: total +=
    entry.duration_hours *)
Definition sum_duration_hours (entries : list WorkEntry) : float :=
  fold_left
    (fun total entry =>
       match duration_hours entry with
       | Some h => if float_bool h then (total + h)%Q else total
       | None => total
       end)
    entries 0%Q.

(** x > 0 on floats *)
Definition float_pos (x : float) : bool := negb (Qle_bool x 0).

(** The billing line of a project, from its hours. *)
Definition day_billing (project : Project) (hours : float) : option Decimal :=
  match hour_rate project with
  | Some rate =>
      if is_billed_hourly project && Decimal_bool rate
      then Some (Decimal_mul (Decimal_of_float hours) rate)
      else None
  | None => None
  end.

Definition week_billing (project : Project) (hours : float) : option Decimal :=
  match hour_rate project with
  | Some rate =>
      if is_billed_hourly project && Decimal_bool rate && float_pos hours
      then Some (Decimal_mul (Decimal_of_float hours) rate)
      else None
  | None => None
  end.

(** One table row of the day report: Task, Start, End, Hours. *)
Definition day_row (entry : WorkEntry) : list cell :=
  let start_cell :=
    match start_time entry with
    | Some t => CClock (hour t) (minute t)
    | None => CText "N/A"
    end in
  let end_cell :=
    match end_time entry with
    | Some t => CClock (hour t) (minute t)
    | None => CText "In progress"
    end in
  let duration_cell :=
    match duration_hours entry with
    | Some h => if float_bool h then CHours h else CText "N/A"
    | None => CText "N/A"
    end in
  [CText (description entry); start_cell; end_cell; duration_cell].

Record day_section : Type :=
  mk_day_section { ds_project : Project; ds_rows : list (list cell);
                   ds_total : float; ds_billing : option Decimal }.

Inductive day_report : Type :=
  | NoEntriesForDay
  | DayReport (sections : list day_section) (total_hours : float).

(** The two grouping dicts of both reports' first loop. *)
Definition group_projects (entries : list (WorkEntry * Project))
  : list (option Z * Project) :=
  fold_left (fun d ep => dict_set id_eqb (p_id (snd ep)) (snd ep) d) entries [].

Definition group_entries (entries : list (WorkEntry * Project))
  : list (option Z * list WorkEntry) :=
  fold_left (fun d ep => dict_append id_eqb (p_id (snd ep)) (fst ep) d) entries [].

Definition day_report_of (entries : list (WorkEntry * Project))
  : result day_report :=
  match entries with
  | [] => Ok NoEntriesForDay
  | _ =>
      let projects_dict := group_projects entries in
      let entries_by_project := group_entries entries in
      (* Calculate totals *)
      let project_hours :=
        fold_left
          (fun d kv => dict_set id_eqb (fst kv) (sum_duration_hours (snd kv)) d)
          entries_by_project [] in
      let total_hours :=
        fold_left (fun t kv => (t + sum_duration_hours (snd kv))%Q)
                  entries_by_project 0%Q in
      (* Create table per project *)
      sections <-
        mapM (fun kv : option Z * list WorkEntry =>
                let project_id := fst kv in
                match dict_get id_eqb project_id projects_dict,
                      dict_get id_eqb project_id project_hours with
                | Some project, Some hours =>
                    Ok (mk_day_section project (map day_row (snd kv)) hours
                                       (day_billing project hours))
                | _, _ => Raise KeyError
                end)
             entries_by_project ;;
      Ok (DayReport sections total_hours)
  end.

Definition _show_day_report (db : Database) (d : date) : result day_report :=
  day_report_of (get_entries_for_day db d).

(** entries_by_project[project.id][entry_date].append(entry) *)
Definition week_group_step
    (d : list (option Z * list (date * list WorkEntry)))
    (pid : option Z) (entry_date : date) (entry : WorkEntry)
  : list (option Z * list (date * list WorkEntry)) :=
  dict_upd id_eqb pid
    (fun o => dict_append date_eqb entry_date entry
                (match o with Some by_date => by_date | None => [] end))
    d.

Fixpoint week_group_entries (entries : list (WorkEntry * Project))
    (d : list (option Z * list (date * list WorkEntry)))
  : result (list (option Z * list (date * list WorkEntry))) :=
  match entries with
  | [] => Ok d
  | (entry, project) :: rest =>
      match start_time entry with
      | None => Raise AttributeError
      | Some st =>
          week_group_entries rest
            (week_group_step d (p_id project) (dt_date st) entry)
      end
  end.

(** The accumulators of the totals loop. *)
Record week_totals : Type :=
  mk_week_totals { total_hours : float;
                   project_hours : list (option Z * float);
                   day_hours : list (date * float) }.

Definition week_totals_step (project_id : option Z) (acc : week_totals)
    (bucket : date * list WorkEntry) : week_totals :=
  let day_total := sum_duration_hours (snd bucket) in
  mk_week_totals (total_hours acc + day_total)%Q
                 (dict_add id_eqb project_id day_total (project_hours acc))
                 (dict_add date_eqb (fst bucket) day_total (day_hours acc)).

Definition week_totals_of
    (entries_by_project : list (option Z * list (date * list WorkEntry)))
  : week_totals :=
  fold_left
    (fun acc kv => fold_left (week_totals_step (fst kv)) (snd kv) acc)
    entries_by_project (mk_week_totals 0%Q [] []).

Record week_row : Type :=
  mk_week_row { wr_project : Project;
                wr_days : list (option float);   (* None is the "-" cell *)
                wr_total : float }.

Record week_table : Type :=
  mk_week_table { wt_start_of_week : date; wt_end_of_week : date;
                  wt_rows : list week_row;
                  wt_day_totals : list (option float);
                  wt_total_hours : float;
                  wt_billing : list (Project * Decimal) }.

Inductive week_report : Type :=
  | NoEntriesForWeek (start_of_week end_of_week : date)
  | WeekReport (table : week_table).

(** The day cells of one project row. *)
Definition week_day_cells (days_in_week : list date)
    (by_date : list (date * list WorkEntry)) : list (option float) :=
  map (fun day_date =>
         match dict_get date_eqb day_date by_date with
         | Some day_entries => Some (sum_duration_hours day_entries)
         | None => None
         end)
      days_in_week.

Definition week_table_of (start_of_week end_of_week : date)
    (days_in_week : list date) (entries : list (WorkEntry * Project))
  : result week_table :=
  let projects_dict := group_projects entries in
  entries_by_project <- week_group_entries entries [] ;;
  let totals := week_totals_of entries_by_project in
  let rows :=
    map (fun kv : option Z * Project =>
           let by_date :=
             match dict_get id_eqb (fst kv) entries_by_project with
             | Some by_date => by_date
             | None => []
             end in
           mk_week_row (snd kv) (week_day_cells days_in_week by_date)
                       (dict_float id_eqb (fst kv) (project_hours totals)))
        projects_dict in
  let day_totals :=
    map (fun day_date =>
           let h := dict_float date_eqb day_date (day_hours totals) in
           if float_pos h then Some h else None)
        days_in_week in
  let billing :=
    flat_map (fun kv : option Z * Project =>
                match week_billing (snd kv)
                        (dict_float id_eqb (fst kv) (project_hours totals)) with
                | Some amount => [(snd kv, amount)]
                | None => []
                end)
             projects_dict in
  Ok (mk_week_table start_of_week end_of_week rows day_totals
                    (total_hours totals) billing).

Definition _show_week_report (db : Database) (day_in_week : date)
  : result week_report :=
  start_of_week <- date_sub_days day_in_week (weekday day_in_week) ;;
  end_of_week <- date_add_days start_of_week 6 ;;
  entries <- get_entries_for_week db day_in_week ;;
  match entries with
  | [] => Ok (NoEntriesForWeek start_of_week end_of_week)
  | _ =>
      days_in_week <-
        mapM (fun i => date_add_days start_of_week i) [0; 1; 2; 3; 4; 5; 6] ;;
      table <- week_table_of start_of_week end_of_week days_in_week entries ;;
      Ok (WeekReport table)
  end.

(* ================================================================= *)
(** ** Notions used by the statements *)

(** A work entry is active when its end_time is NULL. *)
Definition is_active (r : entry_row) : bool :=
  match w_end_time r with None => true | Some _ => false end.

Definition active_count (db : Database) : nat :=
  List.length (filter is_active (work_entries db)).

(** The stores that start and stop lead to, from a store in which no entry
    is open. *)
Inductive reachable : Database -> Prop :=
  | reach_idle db :
      active_count db = 0%nat -> reachable db
  | reach_start db project description stop_current now_stop now_start :
      reachable db ->
      reachable (fst (start_work db project description stop_current
                                 now_stop now_start))
  | reach_stop db now :
      reachable db -> reachable (fst (stop_work db now)).

(** A project row named [nm] is stored. *)
Definition name_taken (db : Database) (nm : string) : Prop :=
  exists r, In r (projects db) /\ r_name r = nm.

(* ================================================================= *)
(** ** start: which project a reference names *)

(** The resolution in the words of the specification: by id when the text
    is an integer and that id is stored, otherwise by name. *)
Definition find_project_spec (db : Database) (project : string)
  : option Project :=
  match PyInt.int project with
  | Some project_id =>
      match get_project db project_id with
      | Some p => Some p
      | None => get_project_by_name db project
      end
  | None => get_project_by_name db project
  end.

(** What the command matches a reference against: the id when the text is
    an integer, the name when it is not. *)
Definition project_matches (project : string) (row : project_row) : Prop :=
  match PyInt.int project with
  | Some project_id => r_id row = project_id
  | None => r_name row = project
  end.

(** The store with one more work entry, open, for the project [pid]. *)
Definition started (db : Database) (pid : Z) (description : string)
    (now : datetime) : Database :=
  mkDatabase (projects db)
             (work_entries db ++
              [mk_entry_row (work_entries_seq db + 1) pid description now None])
             (projects_seq db) (work_entries_seq db + 1).

(* ================================================================= *)
(** ** The calendar: ordinals and dates *)

(** The test that [_month_day] maps day [n] of a year to its month and day. *)
Definition month_day_ok (leapyear : bool) (n : Z) : bool :=
  let '(m, d) := _month_day leapyear n in
  (1 <=? m) && (m <=? 12) && (1 <=? d) &&
  (d <=? (if (m =? 2) && leapyear then 29 else _DAYS_IN_MONTH m)) &&
  (_DAYS_BEFORE_MONTH m + (if (2 <? m) && leapyear then 1 else 0) + d =? n + 1).

(* ================================================================= *)
(** ** Durations *)

(** The microseconds from 0001-01-01T00:00:00 (ordinal 1 is day 1). *)
Definition to_microseconds (t : datetime) : Z :=
  ((toordinal (dt_date t) * 86400
    + (second t + minute t * 60 + hour t * 3600)) * 10 ^ 6) + microsecond t.

(** The microseconds a timedelta stands for. *)
Definition td_microseconds (td : timedelta) : Z :=
  (days td * 86400 + seconds td) * 10 ^ 6 + microseconds td.

(* ================================================================= *)
(** ** The range queries *)

(** [t] lies in the closed interval from [lo] to [hi]. *)
Definition within (lo hi t : datetime) : Prop :=
  datetime_le lo t /\ datetime_le t hi.

(** The three ways an entry belongs to the period from [lo] to [hi]. *)
Definition overlaps_period (lo hi : datetime) (e : WorkEntry) : Prop :=
  (exists s, start_time e = Some s /\ within lo hi s) \/
  (exists t, end_time e = Some t /\ within lo hi t) \/
  (exists s, start_time e = Some s /\ datetime_lt s lo /\
             ((exists t, end_time e = Some t /\ datetime_lt hi t) \/
              end_time e = None)).

(** The timestamps of a stored row are datetimes. *)
Definition valid_row (r : entry_row) : Prop :=
  valid_datetime (w_start_time r) /\
  match w_end_time r with
  | Some t => valid_datetime t
  | None => True
  end.

(** The project the row points to is stored. *)
Definition has_project (db : Database) (r : entry_row) : Prop :=
  exists p, In p (projects db) /\ r_id p = w_project_id r.

(* ================================================================= *)
(** ** Totals of the weekly report *)

Definition Qsum (l : list Q) : Q := fold_right Qplus 0%Q l.

(** The hours a day cell stands for; "-" counts for nothing. *)
Definition cell_hours (c : option float) : float :=
  match c with Some h => h | None => 0%Q end.

(** The sum of the day cells of a weekly row. *)
Definition sum_cells (cells : list (option float)) : float :=
  Qsum (map cell_hours cells).

(** The hours of all the start-date buckets of a project. *)
Definition buckets_total (by_date : list (date * list WorkEntry)) : float :=
  Qsum (map (fun b => sum_duration_hours (snd b)) by_date).

(** list(d.keys()) *)
Definition keys {K V : Type} (d : list (K * V)) : list K := map fst d.

(* ================================================================= *)
(** ** app/db.py: the remaining project methods *)

(** SELECT * FROM projects ORDER BY name, under the BINARY collation; the
    names are UNIQUE, so the order of the rows is determined. *)
Fixpoint insert_by_name (x : project_row) (l : list project_row)
  : list project_row :=
  match l with
  | [] => [x]
  | y :: l' =>
      if String.ltb (r_name x) (r_name y) then x :: y :: l'
      else y :: insert_by_name x l'
  end.

Definition order_by_name (l : list project_row) : list project_row :=
  fold_left (fun acc x => insert_by_name x acc) l [].

Definition get_all_projects (db : Database) : list Project :=
  map _create_project_from_row (order_by_name (projects db)).

(** UPDATE projects SET name = ?, is_billed_hourly = ?, hour_rate = ?
    WHERE id = ?; returns rowcount > 0.  A name that another row holds
    violates the UNIQUE constraint: sqlite3 raises IntegrityError and
    nothing is changed. *)
Definition update_project (db : Database) (project : Project)
  : result (Database * bool) :=
  let hit (r : project_row) : bool :=
    match p_id project with Some i => r_id r =? i | None => false end in
  if existsb hit (projects db) then
    if existsb (fun r => negb (hit r) && String.eqb (r_name r) (name project))
               (projects db)
    then Raise IntegrityError
    else
      let upd (r : project_row) : project_row :=
        if hit r
        then mk_project_row (r_id r) (name project)
                            (if is_billed_hourly project then 1 else 0)
                            (option_map float_of_Decimal (hour_rate project))
        else r in
      Ok (mkDatabase (map upd (projects db)) (work_entries db)
                     (projects_seq db) (work_entries_seq db), true)
  else Ok (db, false).

(* ================================================================= *)
(** ** app/cli.py: the remaining commands *)

(** The commands that share a name with a method of Database live in
    [Cli]; inside a body the name still means the method. *)
Module Cli.

Inductive update_project_outcome : Type :=
  | UpdateProjectNotFound
  | ProjectUpdated
  | FailedToUpdateProject.

Inductive delete_project_outcome : Type :=
  | DeleteProjectNotFound
  | DeleteCancelled
  | ProjectDeleted
  | FailedToDeleteProject.

Inductive status_outcome : Type :=
  | NoActiveWork
  | CurrentlyWorkingOn (entry : WorkEntry) (project : Project) (hours : float).

(** The truth value of a str: not empty. *)
Definition str_bool (s : string) : bool :=
  match s with EmptyString => false | String _ _ => true end.

(** project-update ID [--name NAME] [--hourly/--no-hourly] [--rate RATE] *)
Definition update_project (db : Database) (id : Z) (nm : option string)
    (hourly : option bool) (rate : option float)
  : Database * result update_project_outcome :=
  match get_project db id with
  | None => (db, Ok UpdateProjectNotFound)
  | Some project =>
      let name1 :=
        match nm with
        | Some n => if str_bool n then n else name project
        | None => name project
        end in
      let hourly1 :=
        match hourly with
        | Some h => h
        | None => is_billed_hourly project
        end in
      let rate1 :=
        match rate with
        | Some r => Some (Decimal_of_float r)
        | None => hour_rate project
        end in
      match update_project db (mkProject (p_id project) name1 hourly1 rate1) with
      | Ok (db', true) => (db', Ok ProjectUpdated)
      | Ok (db', false) => (db', Ok FailedToUpdateProject)
      | Raise e => (db, Raise e)
      end
  end.

(** project-delete ID [--force]; [confirm] is the answer to the prompt,
    asked only without --force. *)
Definition delete_project (db : Database) (id : Z) (force confirm : bool)
  : Database * result delete_project_outcome :=
  match get_project db id with
  | None => (db, Ok DeleteProjectNotFound)
  | Some project =>
      if negb force && negb confirm then (db, Ok DeleteCancelled)
      else
        let '(db', deleted) := delete_project db id in
        if deleted then (db', Ok ProjectDeleted)
        else (db', Ok FailedToDeleteProject)
  end.

(** status; [now] is datetime.now(). *)
Definition status (db : Database) (now : datetime) : result status_outcome :=
  match get_active_work_entry db with
  | None => Ok NoActiveWork
  | Some active_entry =>
      let active_project := get_project db (project_id active_entry) in
      match start_time active_entry with
      | None => Raise TypeError
      | Some st =>
          let hours := (total_seconds (datetime_sub now st) / 3600)%Q in
          match active_project with
          | None => Raise AttributeError
          | Some active_project =>
              Ok (CurrentlyWorkingOn active_entry active_project hours)
          end
      end
  end.

(** today and yesterday; [today] is date.today(). *)
Definition today_report (db : Database) (today : date) : result day_report :=
  _show_day_report db today.

Definition yesterday_report (db : Database) (today : date)
  : result day_report :=
  yesterday <- date_sub_days today 1 ;;
  _show_day_report db yesterday.

(** One command line, with what the user and the clock supply. *)
Inductive command : Type :=
  | ProjectAdd (nm : string) (hourly : bool) (rate : option float)
  | ProjectUpdate (id : Z) (nm : option string) (hourly : option bool)
                  (rate : option float)
  | ProjectDelete (id : Z) (force confirm : bool)
  | Start (project description : string) (stop_current : bool)
          (now_stop now_start : datetime)
  | Stop (now : datetime).

(** The store after a command. *)
Definition run (db : Database) (c : command) : Database :=
  match c with
  | ProjectAdd nm hourly rate => fst (add_project db nm hourly rate)
  | ProjectUpdate id nm hourly rate => fst (update_project db id nm hourly rate)
  | ProjectDelete id force confirm => fst (delete_project db id force confirm)
  | Start project description stop_current now_stop now_start =>
      fst (start_work db project description stop_current now_stop now_start)
  | Stop now => fst (stop_work db now)
  end.

Definition run_all (db : Database) (cs : list command) : Database :=
  fold_left run cs db.

End Cli.

(* ================================================================= *)
(** ** What the schema guarantees *)

(** PRIMARY KEY AUTOINCREMENT on both id columns, UNIQUE on projects.name:
    ids and names are not repeated, and no id is above the last one handed
    out. *)
Record db_wf (db : Database) : Prop :=
  mk_db_wf {
    wf_project_ids : NoDup (map r_id (projects db));
    wf_project_names : NoDup (map r_name (projects db));
    wf_project_seq :
      forall r, In r (projects db) -> 0 < r_id r <= projects_seq db;
    wf_projects_seq0 : 0 <= projects_seq db;
    wf_entry_ids : NoDup (map w_id (work_entries db));
    wf_entry_seq :
      forall r, In r (work_entries db) -> 0 < w_id r <= work_entries_seq db;
    wf_entries_seq0 : 0 <= work_entries_seq db
  }.

(** Every element is below all the later ones. *)
Fixpoint ascending {A : Type} (le : A -> A -> Prop) (l : list A) : Prop :=
  match l with
  | [] => True
  | x :: l' => (forall y, In y l' -> le x y) /\ ascending le l'
  end.

(** The order of two results by start_time. *)
Definition starts_le (a b : WorkEntry * Project) : Prop :=
  match start_time (fst a), start_time (fst b) with
  | Some s, Some t => datetime_le s t
  | _, _ => False
  end.

(** The order of two projects by name, byte by byte. *)
Definition name_le (p q : Project) : Prop :=
  String.leb (name p) (name q) = true.

(** Every stored timestamp is a datetime. *)
Definition db_valid (db : Database) : Prop :=
  forall r, In r (work_entries db) -> valid_row r.

(** The clock readings of a command are datetimes. *)
Definition command_times_valid (c : Cli.command) : Prop :=
  match c with
  | Cli.Start _ _ _ now_stop now_start =>
      valid_datetime now_stop /\ valid_datetime now_start
  | Cli.Stop now => valid_datetime now
  | _ => True
  end.

(** What an entry adds to a total of hours: its duration_hours when that is
    a number other than zero. *)
Definition entry_hours (e : WorkEntry) : float := cell_hours (duration_hours e).

(** entry.start_time.date() == day *)
Definition starts_on (day : date) (e : WorkEntry) : bool :=
  match start_time e with
  | Some st => date_eqb day (dt_date st)
  | None => false
  end.

(** Insertion into a list kept in order: before the first element that
    [ltb] puts after [x].  The two ORDER BY clauses are instances. *)
Fixpoint insert_sorted {A : Type} (ltb : A -> A -> bool) (x : A) (l : list A)
  : list A :=
  match l with
  | [] => [x]
  | y :: l' => if ltb x y then x :: y :: l' else y :: insert_sorted ltb x l'
  end.

(* ================================================================= *)
(** ** Worked scenarios *)

Definition at_ (y m d hh mm : Z) : datetime := mkdatetime (mkdate y m d) hh mm 0 0.

Definition db_of {A : Type} (r : result (Database * A)) : Database :=
  match r with
  | Ok (db, _) => db
  | Raise _ => empty_db
  end.

Definition project_a : Project :=
  mkProject None "Project A" true (Some (mkDecimal 100)).

(** One project, billed hourly at 100. *)
Definition db_project_a : Database := db_of (create_project empty_db project_a).

(** ... and one task on Monday 2023-05-01, 09:00 to 11:00. *)
Definition db_task : Database :=
  db_of (create_work_entry db_project_a
           (mkWorkEntry None 1 "Task" (Some (at_ 2023 5 1 9 0))
                        (Some (at_ 2023 5 1 11 0)))).

Definition row_task : entry_row :=
  mk_entry_row 1 1 "Task" (at_ 2023 5 1 9 0) (Some (at_ 2023 5 1 11 0)).

(** ... and a second one, 13:30 to 15:00. *)
Definition db_two_tasks : Database :=
  db_of (create_work_entry db_task
           (mkWorkEntry None 1 "Review" (Some (at_ 2023 5 1 13 30))
                        (Some (at_ 2023 5 1 15 0)))).

Definition project_b : Project := mkProject None "Project B" false None.

(** Two projects, and the task for the first one. *)
Definition db_two_projects : Database :=
  db_of (create_work_entry
           (db_of (create_project db_project_a project_b))
           (mkWorkEntry None 1 "Task" (Some (at_ 2023 5 1 9 0))
                        (Some (at_ 2023 5 1 11 0)))).

(** The task, after its project was deleted: Project B is still stored. *)
Definition db_orphan : Database := fst (delete_project db_two_projects 1).

(** A task from Sunday 23:00 to Monday 01:00. *)
Definition db_overnight : Database :=
  db_of (create_work_entry db_project_a
           (mkWorkEntry None 1 "Overnight" (Some (at_ 2023 4 30 23 0))
                        (Some (at_ 2023 5 1 1 0)))).

(** A task from Monday 23:00 to Tuesday 01:00. *)
Definition db_midnight : Database :=
  db_of (create_work_entry db_project_a
           (mkWorkEntry None 1 "Late" (Some (at_ 2023 5 1 23 0))
                        (Some (at_ 2023 5 2 1 0)))).

(** A task started on Monday and still open. *)
Definition db_open : Database :=
  db_of (create_work_entry db_project_a
           (mkWorkEntry None 1 "Task" (Some (at_ 2023 5 1 9 0)) None)).

(** A project whose name reads as a number. *)
Definition db_numeric_name : Database :=
  db_of (create_project empty_db (mkProject None "2023" false None)).

(** A day at the command line: add the project, start a task by name, switch
    to the next one by id, stop. *)
Definition sample_commands : list Cli.command :=
  [Cli.ProjectAdd "Project A" true (Some 100%Q);
   Cli.Start "Project A" "Task" false (at_ 2023 5 1 9 0) (at_ 2023 5 1 9 0);
   Cli.Start "1" "Next" true (at_ 2023 5 1 12 0) (at_ 2023 5 1 12 0);
   Cli.Stop (at_ 2023 5 1 17 0)].

(** A busier day: two projects, three tasks, the first and the last for
    Project A. *)
Definition busy_commands : list Cli.command :=
  [Cli.ProjectAdd "Project A" true (Some 100%Q);
   Cli.ProjectAdd "Project B" false None;
   Cli.Start "Project A" "Task" false (at_ 2023 5 1 9 0) (at_ 2023 5 1 9 0);
   Cli.Start "Project B" "Call" true (at_ 2023 5 1 11 0) (at_ 2023 5 1 11 0);
   Cli.Start "1" "Review" true (at_ 2023 5 1 13 30) (at_ 2023 5 1 13 30);
   Cli.Stop (at_ 2023 5 1 15 0)].

Definition db_busy : Database := Cli.run_all empty_db busy_commands.

(** The third task of that day, as the queries return it. *)
Definition review_pair : WorkEntry * Project :=
  (mkWorkEntry (Some 3) 1 "Review" (Some (at_ 2023 5 1 13 30))
               (Some (at_ 2023 5 1 15 0)),
   mkProject (Some 3) "Project A" true (Some (mkDecimal 100))).

Definition task_9_to_11 : WorkEntry :=
  mkWorkEntry None 1 "Task" (Some (at_ 2023 5 1 9 0)) (Some (at_ 2023 5 1 11 0)).

Definition task_rewritten : WorkEntry :=
  mkWorkEntry (Some 1) 1 "Task, rewritten" (Some (at_ 2023 5 1 9 0))
              (Some (at_ 2023 5 1 10 0)).

Definition row_open : entry_row :=
  mk_entry_row 1 1 "Task" (at_ 2023 5 1 9 0) None.

Ltac by_computation := vm_compute; repeat split; congruence.

(* ################################################################# *)
(** * Properties *)

(* ================================================================= *)
(** ** Python's calendar arithmetic (datetime.py) *)

Example ord_2023_05_01 : toordinal (mkdate 2023 5 1) = 738641.
Proof. reflexivity. Qed.
Example from_738641 : fromordinal 738641 = mkdate 2023 5 1.
Proof. reflexivity. Qed.
Example weekday_2023_05_01 : weekday (mkdate 2023 5 1) = 0.
Proof. reflexivity. Qed.
Example max_ord : toordinal (mkdate 9999 12 31) = _MAXORDINAL.
Proof. reflexivity. Qed.
Example from_max : fromordinal _MAXORDINAL = mkdate 9999 12 31.
Proof. reflexivity. Qed.
Example from_leap : fromordinal (toordinal (mkdate 2024 2 29)) = mkdate 2024 2 29.
Proof. reflexivity. Qed.

(* ================================================================= *)
(** ** ISO-8601 text, as stored in the TEXT columns *)

Example iso1 :
  isoformat (mkdatetime (mkdate 2023 5 1) 9 0 0 0) = "2023-05-01T09:00:00"%string.
Proof. reflexivity. Qed.
Example iso2 :
  isoformat (mkdatetime (mkdate 5 5 1) 9 0 0 5) = "0005-05-01T09:00:00.000005"%string.
Proof. reflexivity. Qed.
Example iso3 :
  isoformat (combine (mkdate 2023 5 7) max_time) = "2023-05-07T23:59:59.999999"%string.
Proof. reflexivity. Qed.

(* ================================================================= *)
(** ** app/cli.py: projects and work sessions *)

Example int_2023 : PyInt.int "2023" = Some 2023.
Proof. reflexivity. Qed.
Example int_blank : PyInt.int " -1_0 " = Some (-10).
Proof. reflexivity. Qed.
Example int_name : PyInt.int "Project A" = None.
Proof. reflexivity. Qed.
Example int_bad : PyInt.int "1__0" = None.
Proof. reflexivity. Qed.

(* ================================================================= *)
(** ** Storage: elementary facts *)

Lemma find_none_iff {A : Type} (f : A -> bool) (l : list A) :
  find f l = None <-> forall x, In x l -> f x = false.
Proof.
  split.
  - apply find_none.
  - induction l as [|a l IH]; simpl; intros H; [reflexivity|].
    rewrite (H a (or_introl eq_refl)). apply IH. intros x Hx. apply H. now right.
Qed.

Lemma is_active_holds (r : entry_row) :
  Sql.holds (Sql.is_null (option_map isoformat (w_end_time r))) = is_active r.
Proof. unfold is_active. destruct (w_end_time r); reflexivity. Qed.

Lemma get_active_work_entry_find (db : Database) :
  get_active_work_entry db =
  option_map entry_of_row (find is_active (work_entries db)).
Proof.
  unfold get_active_work_entry. f_equal.
  induction (work_entries db) as [|r l IH]; simpl; [reflexivity|].
  rewrite is_active_holds, IH. reflexivity.
Qed.

Lemma get_active_none_iff (db : Database) :
  get_active_work_entry db = None <-> active_count db = 0%nat.
Proof.
  rewrite get_active_work_entry_find. unfold active_count.
  induction (work_entries db) as [|r l IH]; simpl; [tauto|].
  destruct (is_active r); simpl; [split; discriminate|exact IH].
Qed.

Lemma name_taken_existsb (db : Database) (nm : string) :
  name_taken db nm ->
  existsb (fun r => String.eqb (r_name r) nm) (projects db) = true.
Proof.
  intros [r [Hin Hr]]. apply existsb_exists. exists r. split; [exact Hin|].
  rewrite Hr. apply String.eqb_refl.
Qed.

Lemma name_taken_get (db : Database) (nm : string) :
  name_taken db nm -> exists p, get_project_by_name db nm = Some p.
Proof.
  intros [r [Hin Hr]]. unfold get_project_by_name.
  destruct (find (fun r0 => String.eqb (r_name r0) nm) (projects db)) eqn:E.
  - eexists; reflexivity.
  - exfalso. apply (find_none _ _ E) in Hin. simpl in Hin.
    rewrite Hr, String.eqb_refl in Hin. discriminate.
Qed.

(** Closing the rows with the id of [e] leaves no more open rows than
    before, and none with that id. *)
Lemma close_rows_active (l : list entry_row) (i : Z) (e : WorkEntry)
    (st t : datetime) :
  let upd (r : entry_row) :=
    if w_id r =? i
    then mk_entry_row (w_id r) (project_id e) (description e) st (Some t)
    else r in
  filter is_active (map upd l) =
  filter (fun r => is_active r && negb (w_id r =? i)) l.
Proof.
  intros upd. induction l as [|r l IH]; simpl; [reflexivity|].
  rewrite IH. unfold upd. destruct (w_id r =? i) eqn:E; simpl.
  - rewrite andb_false_r. reflexivity.
  - rewrite andb_true_r. destruct (is_active r); reflexivity.
Qed.

Lemma filter_length_le_one_head {A : Type} (f g : A -> bool) (l : list A) (a : A) :
  (List.length (filter f l) <= 1)%nat ->
  find f l = Some a -> g a = false ->
  filter (fun x => f x && g x) l = [].
Proof.
  induction l as [|x l IH]; simpl; intros Hlen Hfind Hg; [reflexivity|].
  destruct (f x) eqn:Hf; simpl in *.
  - injection Hfind as ->. rewrite Hg.
    destruct (filter f l) eqn:El; [|simpl in Hlen; lia].
    clear -El. induction l as [|y l IH]; simpl in *; [reflexivity|].
    destruct (f y); simpl; [discriminate|]. now apply IH.
  - now apply IH.
Qed.

(* ================================================================= *)
(** ** The session commands and the single open entry *)

Section Session.

Variable db : Database.

(** Stopping the entry that get_active_work_entry returned. *)
Lemma close_active (a : WorkEntry) (now : datetime) :
  get_active_work_entry db = Some a ->
  exists db',
    update_work_entry db (set_end_time a now) = Ok (db', true) /\
    projects db' = projects db /\
    work_entries_seq db' = work_entries_seq db /\
    map w_id (work_entries db') = map w_id (work_entries db) /\
    ((active_count db <= 1)%nat -> active_count db' = 0%nat).
Proof.
  rewrite get_active_work_entry_find.
  destruct (find is_active (work_entries db)) as [r0|] eqn:Hfind;
    [|discriminate].
  intros [= <-]. unfold update_work_entry. simpl.
  destruct (find_some _ _ Hfind) as [Hin Hact].
  assert (Hex : existsb (fun r => w_id r =? w_id r0) (work_entries db) = true).
  { apply existsb_exists. exists r0. split; [exact Hin|apply Z.eqb_refl]. }
  rewrite Hex. eexists. split; [reflexivity|]. simpl.
  repeat split.
  - rewrite map_map. apply map_ext. intros r.
    destruct (w_id r =? w_id r0); reflexivity.
  - intros Hle. unfold active_count in *. simpl.
    rewrite (close_rows_active (work_entries db) (w_id r0) (entry_of_row r0)).
    rewrite (filter_length_le_one_head is_active
               (fun r => negb (w_id r =? w_id r0)) _ r0 Hle Hfind);
      [reflexivity|].
    now rewrite Z.eqb_refl.
Qed.

(** Finding the project and creating the entry opens at most one entry
    more. *)
Lemma start_work_on_active (project description : string) (now : datetime) :
  (active_count (fst (start_work_on db project description now))
   <= active_count db + 1)%nat.
Proof.
  unfold start_work_on.
  destruct (match PyInt.int project with
            | Some project_id =>
                if sqlite_int project_id then Ok (get_project db project_id)
                else Raise OverflowError
            | None => Ok (get_project_by_name db project)
            end) as [[target|]|]; simpl; try lia.
  destruct (p_id target); simpl; [|lia].
  unfold active_count. simpl. rewrite filter_app, length_app. simpl. lia.
Qed.

End Session.

Lemma start_work_preserves (db : Database) (project description : string)
    (stop_current : bool) (now_stop now_start : datetime) :
  (active_count db <= 1)%nat ->
  (active_count (fst (start_work db project description stop_current
                                 now_stop now_start)) <= 1)%nat.
Proof.
  intros Hle. unfold start_work.
  destruct (get_active_work_entry db) as [a|] eqn:Ha.
  - destruct (get_project db (project_id a)); simpl; [|exact Hle].
    destruct stop_current; simpl; [|exact Hle].
    destruct (close_active db a now_stop Ha) as (db' & Hupd & _ & _ & _ & H0).
    rewrite Hupd.
    pose proof (start_work_on_active db' project description now_start) as H.
    rewrite (H0 Hle) in H. exact H.
  - apply get_active_none_iff in Ha.
    pose proof (start_work_on_active db project description now_start) as H.
    rewrite Ha in H. exact H.
Qed.

Lemma stop_work_preserves (db : Database) (now : datetime) :
  (active_count db <= 1)%nat ->
  (active_count (fst (stop_work db now)) <= 1)%nat.
Proof.
  intros Hle. unfold stop_work.
  destruct (get_active_work_entry db) as [a|] eqn:Ha; [|exact Hle].
  destruct (close_active db a now Ha) as (db' & Hupd & _ & _ & _ & H0).
  rewrite Hupd.
  assert (H : (active_count db' <= 1)%nat) by (rewrite (H0 Hle); lia).
  destruct (get_project db' (project_id (set_end_time a now)));
    [destruct (start_time (set_end_time a now))|]; exact H.
Qed.

(** C2.  In every store reached by start and stop, at most one work entry
    has no end_time. *)
Theorem single_active_entry (db : Database) :
  reachable db -> (active_count db <= 1)%nat.
Proof.
  induction 1 as [db H0 | db p d c n1 n2 _ IH | db now _ IH].
  - rewrite H0. lia.
  - now apply start_work_preserves.
  - now apply stop_work_preserves.
Qed.

(** C7.  With no open entry, stop reports that there is nothing to stop and
    returns the store as it was. *)
Theorem stop_when_idle (db : Database) (now : datetime) :
  (forall r, In r (work_entries db) -> w_end_time r <> None) ->
  stop_work db now = (db, Ok NoActiveWorkToStop).
Proof.
  intros Hidle. unfold stop_work.
  replace (get_active_work_entry db) with (@None WorkEntry); [reflexivity|].
  symmetry. rewrite get_active_work_entry_find.
  replace (find is_active (work_entries db)) with (@None entry_row); [reflexivity|].
  symmetry. apply find_none_iff. intros r Hr. unfold is_active.
  specialize (Hidle r Hr). destruct (w_end_time r); [reflexivity|congruence].
Qed.

(** C9.  When a project of that name is stored, create_project raises the
    UNIQUE violation and project-add reports the name as taken; neither
    yields a changed store. *)
Theorem duplicate_project_name_rejected (db : Database) (project : Project)
    (hourly : bool) (rate : option float) :
  name_taken db (name project) ->
  create_project db project = Raise IntegrityError /\
  add_project db (name project) hourly rate = (db, Ok ProjectAlreadyExists).
Proof.
  intros Htaken. split.
  - unfold create_project. now rewrite (name_taken_existsb _ _ Htaken).
  - unfold add_project. destruct (name_taken_get _ _ Htaken) as [p ->].
    reflexivity.
Qed.

(* ================================================================= *)
(** ** start: which project a reference names *)

Lemma get_project_some (db : Database) (n : Z) (p : Project) :
  get_project db n = Some p ->
  exists row, In row (projects db) /\ r_id row = n /\ p_id p = Some (r_id row).
Proof.
  unfold get_project.
  destruct (find (fun r => r_id r =? n) (projects db)) as [row|] eqn:E;
    [|discriminate].
  intros [= <-]. destruct (find_some _ _ E) as [Hin Hid].
  exists row. repeat split; [exact Hin|now apply Z.eqb_eq].
Qed.

Lemma get_project_none (db : Database) (n : Z) :
  get_project db n = None -> forall row, In row (projects db) -> r_id row <> n.
Proof.
  unfold get_project.
  destruct (find (fun r => r_id r =? n) (projects db)) as [row|] eqn:E;
    [discriminate|].
  intros _ row Hin Heq. apply (find_none _ _ E) in Hin. simpl in Hin.
  apply Z.eqb_neq in Hin. contradiction.
Qed.

Lemma get_project_by_name_some (db : Database) (nm : string) (p : Project) :
  get_project_by_name db nm = Some p ->
  exists row, In row (projects db) /\ r_name row = nm /\ p_id p = Some (r_id row).
Proof.
  unfold get_project_by_name.
  destruct (find (fun r => String.eqb (r_name r) nm) (projects db)) as [row|] eqn:E;
    [|discriminate].
  intros [= <-]. destruct (find_some _ _ E) as [Hin Hid].
  exists row. repeat split; [exact Hin|now apply String.eqb_eq].
Qed.

Lemma get_project_by_name_none (db : Database) (nm : string) :
  get_project_by_name db nm = None ->
  forall row, In row (projects db) -> r_name row <> nm.
Proof.
  unfold get_project_by_name.
  destruct (find (fun r => String.eqb (r_name r) nm) (projects db)) as [row|] eqn:E;
    [discriminate|].
  intros _ row Hin Heq. apply (find_none _ _ E) in Hin. simpl in Hin.
  rewrite Heq, String.eqb_refl in Hin. discriminate.
Qed.

(** The outcome of the second half of start, on any store. *)
Lemma start_work_on_outcome (db : Database) (project description : string)
    (now : datetime) :
  match PyInt.int project with
  | Some n =>
      if sqlite_int n then
        (exists row,
            In row (projects db) /\ r_id row = n /\
            start_work_on db project description now
            = (started db n description now,
               Ok (StartedWork (work_entries_seq db + 1)))) \/
        ((forall row, In row (projects db) -> r_id row <> n) /\
         start_work_on db project description now = (db, Ok ProjectNotFound))
      else start_work_on db project description now = (db, Raise OverflowError)
  | None =>
      (exists row,
          In row (projects db) /\ r_name row = project /\
          start_work_on db project description now
          = (started db (r_id row) description now,
             Ok (StartedWork (work_entries_seq db + 1)))) \/
      ((forall row, In row (projects db) -> r_name row <> project) /\
       start_work_on db project description now = (db, Ok ProjectNotFound))
  end.
Proof.
  unfold start_work_on, started.
  destruct (PyInt.int project) as [n|].
  - destruct (sqlite_int n); [|reflexivity].
    destruct (get_project db n) as [p|] eqn:E.
    + left. destruct (get_project_some _ _ _ E) as (row & Hin & Hid & Hp).
      exists row. rewrite Hp, Hid. simpl. auto.
    + right. split; [|reflexivity]. intros row Hin.
      now apply (get_project_none _ _ E).
  - destruct (get_project_by_name db project) as [p|] eqn:E.
    + left. destruct (get_project_by_name_some _ _ _ E) as (row & Hin & Hid & Hp).
      exists row. rewrite Hp. simpl. auto.
    + right. split; [|reflexivity]. intros row Hin.
      now apply (get_project_by_name_none _ _ E).
Qed.

(** The store in which start looks the project up: the store it was given,
    with the open entry closed when there was one. *)
Lemma stopped_before_lookup (db : Database) (now_stop : datetime) :
  projects (fst (stop_work db now_stop)) = projects db /\
  map w_id (work_entries (fst (stop_work db now_stop)))
  = map w_id (work_entries db) /\
  work_entries_seq (fst (stop_work db now_stop)) = work_entries_seq db /\
  (get_active_work_entry db = None -> fst (stop_work db now_stop) = db) /\
  (forall a, get_active_work_entry db = Some a ->
             update_work_entry db (set_end_time a now_stop)
             = Ok (fst (stop_work db now_stop), true)).
Proof.
  unfold stop_work.
  destruct (get_active_work_entry db) as [a|] eqn:Ha.
  - destruct (close_active db a now_stop Ha) as (db' & Hupd & Hp & Hs & Hw & _).
    rewrite Hupd.
    assert (E : fst (match get_project db' (project_id (set_end_time a now_stop)) with
                     | Some _ =>
                         match start_time (set_end_time a now_stop) with
                         | Some st =>
                             (db', Ok (StoppedWork
                                         (total_seconds (datetime_sub now_stop st)
                                          / 3600)%Q))
                         | None => (db', Raise TypeError)
                         end
                     | None => (db', Raise AttributeError)
                     end) = db').
    { destruct (get_project db' _); [destruct (start_time _)|]; reflexivity. }
    rewrite E. split; [exact Hp|]. split; [exact Hw|]. split; [exact Hs|].
    split; [discriminate|]. intros a' [= <-]. exact Hupd.
  - simpl. repeat split; auto. discriminate.
Qed.

(** C4, as the command behaves.  start ends before any lookup when an
    entry is open and its project is gone (AttributeError) or the prompt is
    declined (cancelled).  Otherwise the project is looked up in the store
    that stop would leave, once: a reference that reads as an integer by id
    only - OverflowError when the integer is no 64-bit one -, any other
    reference by name only.  A stored project that matches gets the new
    open entry; when none matches, the command reports the project as not
    found and creates no entry.  The texts are those on which [PyInt.int]
    is int(). *)
Theorem start_work_project_resolution (db : Database)
    (project description : string) (stop_current : bool)
    (now_stop now_start : datetime) :
  PyInt.plain project = true ->
  let r := start_work db project description stop_current now_stop now_start in
  let before := fst (stop_work db now_stop) in
  (forall a,
      get_active_work_entry db = Some a ->
      get_project db (project_id a) = None ->
      r = (db, Raise AttributeError)) /\
  (forall a p,
      get_active_work_entry db = Some a ->
      get_project db (project_id a) = Some p ->
      stop_current = false ->
      r = (db, Ok OperationCancelled)) /\
  (get_active_work_entry db = None \/
   (stop_current = true /\
    exists a p, get_active_work_entry db = Some a /\
                get_project db (project_id a) = Some p) ->
   projects before = projects db /\
   map w_id (work_entries before) = map w_id (work_entries db) /\
   match PyInt.int project with
   | Some n =>
       if sqlite_int n then
         (exists row,
             In row (projects db) /\ r_id row = n /\
             r = (started before n description now_start,
                  Ok (StartedWork (work_entries_seq db + 1)))) \/
         ((forall row, In row (projects db) -> r_id row <> n) /\
          r = (before, Ok ProjectNotFound))
       else r = (before, Raise OverflowError)
   | None =>
       (exists row,
           In row (projects db) /\ r_name row = project /\
           r = (started before (r_id row) description now_start,
                Ok (StartedWork (work_entries_seq db + 1)))) \/
       ((forall row, In row (projects db) -> r_name row <> project) /\
        r = (before, Ok ProjectNotFound))
   end).
Proof.
  intros _ r before.
  destruct (stopped_before_lookup db now_stop) as (Hp & Hw & Hs & Hidle & Hact).
  fold before in Hp, Hw, Hs, Hidle, Hact.
  split; [|split].
  - intros a Ha Hnone. unfold r, start_work. now rewrite Ha, Hnone.
  - intros a p Ha Hsome ->. unfold r, start_work. now rewrite Ha, Hsome.
  - intros Hreach.
    assert (Hr : r = start_work_on before project description now_start).
    { unfold r, start_work.
      destruct Hreach as [Hnone | (-> & a & p & Ha & Hsome)].
      - rewrite Hnone. now rewrite (Hidle Hnone).
      - rewrite Ha, Hsome. now rewrite (Hact a Ha). }
    split; [exact Hp|]. split; [exact Hw|].
    pose proof (start_work_on_outcome before project description now_start) as H.
    rewrite Hp, Hs, <- Hr in H. exact H.
Qed.

(* ================================================================= *)
(** ** Durations *)

Lemma timedelta_new_microseconds (d s us : Z) :
  td_microseconds (timedelta_new d s us) = (d * 86400 + s) * 10 ^ 6 + us.
Proof.
  unfold td_microseconds, timedelta_new. simpl days. simpl seconds.
  simpl microseconds. change (10 ^ 6) with 1000000.
  pose proof (Z.div_mod us 1000000 ltac:(lia)).
  pose proof (Z.div_mod (s + us / 1000000) 86400 ltac:(lia)).
  lia.
Qed.

Lemma timedelta_bool_microseconds (d s us : Z) :
  timedelta_bool (timedelta_new d s us)
  = negb ((d * 86400 + s) * 10 ^ 6 + us =? 0).
Proof.
  rewrite <- timedelta_new_microseconds.
  unfold td_microseconds, timedelta_bool, timedelta_new.
  simpl days. simpl seconds. simpl microseconds. change (10 ^ 6) with 1000000.
  pose proof (Z.mod_pos_bound us 1000000 ltac:(lia)).
  pose proof (Z.mod_pos_bound (s + us / 1000000) 86400 ltac:(lia)).
  set (D := d + (s + us / 1000000) / 86400) in *.
  set (S := (s + us / 1000000) mod 86400) in *.
  set (U := us mod 1000000) in *.
  destruct (D =? 0) eqn:ED; destruct (S =? 0) eqn:ES;
    destruct (U =? 0) eqn:EU; simpl; symmetry;
    rewrite ?negb_true_iff, ?negb_false_iff, ?Z.eqb_eq, ?Z.eqb_neq in *; lia.
Qed.

Lemma datetime_sub_microseconds (t s : datetime) :
  td_microseconds (datetime_sub t s) = to_microseconds t - to_microseconds s.
Proof.
  unfold datetime_sub. rewrite timedelta_new_microseconds.
  unfold to_microseconds. lia.
Qed.

Lemma datetime_sub_bool (t s : datetime) :
  timedelta_bool (datetime_sub t s)
  = negb (to_microseconds t =? to_microseconds s).
Proof.
  unfold datetime_sub. rewrite timedelta_bool_microseconds.
  unfold to_microseconds. f_equal.
  apply eq_true_iff_eq. rewrite !Z.eqb_eq. lia.
Qed.


(** A completed entry of non-zero length: duration_hours is the seconds
    between start and end, divided by 3600. *)
Lemma duration_hours_completed (e : WorkEntry) (s t : datetime) :
  start_time e = Some s -> end_time e = Some t ->
  to_microseconds t <> to_microseconds s ->
  duration_hours e
  = Some (truediv (to_microseconds t - to_microseconds s) (10 ^ 6) / 3600)%Q.
Proof.
  intros Hs Ht Hne. unfold duration_hours, duration. rewrite Hs, Ht.
  rewrite datetime_sub_bool.
  apply Z.eqb_neq in Hne. rewrite Hne. simpl negb. cbv iota.
  unfold total_seconds.
  change ((days (datetime_sub t s) * 86400 + seconds (datetime_sub t s)) * 10 ^ 6
          + microseconds (datetime_sub t s))
    with (td_microseconds (datetime_sub t s)).
  now rewrite datetime_sub_microseconds.
Qed.



(* ================================================================= *)
(** ** Billing lines of the reports *)

Lemma mapM_In {A B : Type} (f : A -> result B) (l : list A) (bs : list B) :
  mapM f l = Ok bs -> forall b, In b bs -> exists a, In a l /\ f a = Ok b.
Proof.
  revert bs. induction l as [|a l IH]; simpl; intros bs H b Hb.
  - injection H as <-. destruct Hb.
  - destruct (f a) as [b0|] eqn:Ea; simpl in H; [|discriminate].
    destruct (mapM f l) as [bs0|] eqn:El; simpl in H; [|discriminate].
    injection H as <-. destruct Hb as [<- | Hb].
    + exists a. auto.
    + destruct (IH bs0 eq_refl b Hb) as (a' & Hin & Hf). exists a'. auto.
Qed.

Lemma day_report_sections (entries : list (WorkEntry * Project))
    (sections : list day_section) (total : float) :
  day_report_of entries = Ok (DayReport sections total) ->
  forall s, In s sections ->
    ds_billing s = day_billing (ds_project s) (ds_total s).
Proof.
  unfold day_report_of. destruct entries as [|ep entries]; [discriminate|].
  set (es := ep :: entries).
  match goal with
  | |- context [mapM ?f ?l] => destruct (mapM f l) as [ss|] eqn:E
  end; simpl; [|discriminate].
  intros [= <- _] s Hs.
  destruct (mapM_In _ _ _ E s Hs) as (kv & _ & Hkv).
  destruct (dict_get id_eqb (fst kv) (group_projects es)); [|discriminate].
  destruct (dict_get id_eqb (fst kv) _); [|discriminate].
  injection Hkv as <-. reflexivity.
Qed.

Lemma week_table_of_billing (start_of_week end_of_week : date)
    (days_in_week : list date) (entries : list (WorkEntry * Project))
    (table : week_table) :
  week_table_of start_of_week end_of_week days_in_week entries = Ok table ->
  (forall row, In row (wt_rows table) ->
     forall amount,
       week_billing (wr_project row) (wr_total row) = Some amount ->
       In (wr_project row, amount) (wt_billing table)) /\
  (forall p amount, In (p, amount) (wt_billing table) ->
     exists row, In row (wt_rows table) /\ wr_project row = p /\
                 week_billing p (wr_total row) = Some amount).
Proof.
  unfold week_table_of.
  destruct (week_group_entries entries []) as [by_project|]; simpl;
    [|discriminate].
  intros [= <-]. simpl. split.
  - intros row Hrow amount Hbill.
    apply in_map_iff in Hrow. destruct Hrow as (kv & <- & Hkv).
    simpl in *. apply in_flat_map. exists kv. split; [exact Hkv|].
    rewrite Hbill. now left.
  - intros p amount Hin. apply in_flat_map in Hin.
    destruct Hin as (kv & Hkv & Hin).
    destruct (week_billing (snd kv) _) as [a|] eqn:Hbill; [|destruct Hin].
    simpl in Hin. destruct Hin as [Heq | []]. injection Heq as <- <-.
    eexists. split; [apply in_map_iff; exists kv; split; [reflexivity|exact Hkv]|].
    simpl. auto.
Qed.

Lemma show_week_report_table (db : Database) (d : date) (table : week_table) :
  _show_week_report db d = Ok (WeekReport table) ->
  exists days_in_week entries,
    week_table_of (wt_start_of_week table) (wt_end_of_week table)
                  days_in_week entries = Ok table /\
    get_entries_for_week db d = Ok entries /\
    mapM (fun i => date_add_days (wt_start_of_week table) i) [0; 1; 2; 3; 4; 5; 6]
    = Ok days_in_week /\
    week_of d = Ok (wt_start_of_week table, wt_end_of_week table).
Proof.
  unfold _show_week_report, week_of.
  destruct (date_sub_days d (weekday d)) as [mon|]; cbn [bind]; [|discriminate].
  remember (mapM (fun i => date_add_days mon i) [0; 1; 2; 3; 4; 5; 6])
    as days eqn:Edays.
  destruct (date_add_days mon 6) as [sun|] eqn:Esun; cbn [bind]; [|discriminate].
  destruct (get_entries_for_week db d) as [entries|]; cbn [bind];
    [|discriminate].
  destruct entries as [|ep entries]; [discriminate|].
  destruct days as [days_in_week|]; cbn [bind]; [|discriminate].
  destruct (week_table_of mon sun days_in_week (ep :: entries)) as [tb|] eqn:Et;
    [|discriminate].
  cbn [bind]. intros [= <-].
  assert (Hs : wt_start_of_week tb = mon /\ wt_end_of_week tb = sun).
  { unfold week_table_of in Et.
    destruct (week_group_entries (ep :: entries) []); [|discriminate].
    cbn [bind] in Et. injection Et as <-. split; reflexivity. }
  destruct Hs as [-> ->].
  exists days_in_week, (ep :: entries). cbn [fst snd]. auto.
Qed.

(** The billing line of a section of the day report, and of a row of the
    weekly report: printed when the project beside the section is billed
    hourly and has a rate other than zero - in the weekly report only when
    the hours of the row are above zero - and then the hours of that
    section or row times the rate. *)
Lemma report_billing (db : Database) (d : date) :
  (forall sections total s,
      _show_day_report db d = Ok (DayReport sections total) ->
      In s sections ->
      (forall rate,
          is_billed_hourly (ds_project s) = true ->
          hour_rate (ds_project s) = Some rate ->
          Decimal_bool rate = true ->
          ds_billing s
          = Some (Decimal_mul (Decimal_of_float (ds_total s)) rate)) /\
      (is_billed_hourly (ds_project s) = false \/ hour_rate (ds_project s) = None ->
       ds_billing s = None)) /\
  (forall table,
      _show_week_report db d = Ok (WeekReport table) ->
      (forall row rate,
          In row (wt_rows table) ->
          is_billed_hourly (wr_project row) = true ->
          hour_rate (wr_project row) = Some rate ->
          Decimal_bool rate = true ->
          float_pos (wr_total row) = true ->
          In (wr_project row,
              Decimal_mul (Decimal_of_float (wr_total row)) rate)
             (wt_billing table)) /\
      (forall p amount,
          In (p, amount) (wt_billing table) ->
          is_billed_hourly p = true /\
          exists rate row,
            hour_rate p = Some rate /\ In row (wt_rows table) /\
            wr_project row = p /\
            amount = Decimal_mul (Decimal_of_float (wr_total row)) rate)).
Proof.
  split.
  - intros sections total s Hrep Hs.
    rewrite (day_report_sections _ _ _ Hrep s Hs). unfold day_billing. split.
    + intros rate Hh Hr Hb. now rewrite Hr, Hh, Hb.
    + intros [Hh | Hr].
      * rewrite Hh. now destruct (hour_rate (ds_project s)).
      * now rewrite Hr.
  - intros table Hrep.
    destruct (show_week_report_table _ _ _ Hrep) as (days & entries & Ht & _).
    destruct (week_table_of_billing _ _ _ _ _ Ht) as [Hrows Hbill]. split.
    + intros row rate Hin Hh Hr Hb Hpos. apply Hrows; [exact Hin|].
      unfold week_billing. now rewrite Hr, Hh, Hb, Hpos.
    + intros p amount Hin.
      destruct (Hbill p amount Hin) as (row & Hrow & Hp & Hw).
      unfold week_billing in Hw.
      destruct (hour_rate p) as [rate|] eqn:Hr; [|discriminate].
      destruct (is_billed_hourly p); [|discriminate]. split; [reflexivity|].
      destruct (Decimal_bool rate && float_pos (wr_total row)) eqn:E.
      * simpl in Hw. rewrite E in Hw. injection Hw as <-.
        exists rate, row. auto.
      * simpl in Hw. rewrite E in Hw. discriminate.
Qed.

(* ================================================================= *)
(** ** ISO-8601 text sorts like the datetimes it prints *)

Section TextOrder.

Lemma digit_compare (a b : Z) :
  0 <= a < 10 -> 0 <= b < 10 ->
  Ascii.compare (digit a) (digit b) = (a ?= b).
Proof.
  intros Ha Hb. unfold Ascii.compare, digit.
  rewrite !N_ascii_embedding by lia.
  rewrite <- N2Z.inj_compare, !N2Z.inj_add, !Z2N.id by lia.
  apply Z.add_compare_mono_l.
Qed.

Lemma zpad_compare (w : nat) :
  forall (a b : Z) (s t : string),
    0 <= a < 10 ^ Z.of_nat w -> 0 <= b < 10 ^ Z.of_nat w ->
    String.compare (zpad w a ++ s) (zpad w b ++ t)
    = match a ?= b with
      | Eq => String.compare s t
      | c => c
      end.
Proof.
  induction w as [|w IH]; intros a b s t Ha Hb.
  - simpl in *. assert (a = 0) by lia. assert (b = 0) by lia. subst.
    reflexivity.
  - rewrite Nat2Z.inj_succ, Z.pow_succ_r in Ha, Hb by lia.
    set (P := 10 ^ Z.of_nat w) in *.
    assert (HP : 0 < P) by (apply Z.pow_pos_nonneg; lia).
    pose proof (Z.div_mod a P ltac:(lia)) as Da.
    pose proof (Z.div_mod b P ltac:(lia)) as Db.
    pose proof (Z.mod_pos_bound a P HP) as Ra.
    pose proof (Z.mod_pos_bound b P HP) as Rb.
    assert (Qa : 0 <= a / P < 10).
    { split; [apply Z.div_pos; lia|apply Z.div_lt_upper_bound; lia]. }
    assert (Qb : 0 <= b / P < 10).
    { split; [apply Z.div_pos; lia|apply Z.div_lt_upper_bound; lia]. }
    cbn [zpad append String.compare]. fold P.
    rewrite (digit_compare _ _ Qa Qb), (IH _ _ s t Ra Rb).
    destruct (Z.compare_spec (a / P) (b / P)) as [E|L|G].
    + destruct (Z.compare_spec (a mod P) (b mod P)) as [E'|L'|G'].
      * assert (a = b) by congruence. subst. now rewrite Z.compare_refl.
      * assert (Hc : (a ?= b) = Lt)
          by (apply Z.compare_lt_iff; rewrite Da, Db, E; lia).
        now rewrite Hc.
      * assert (Hc : (a ?= b) = Gt)
          by (apply Z.compare_gt_iff; rewrite Da, Db, E; lia).
        now rewrite Hc.
    + assert (Hc : (a ?= b) = Lt) by (apply Z.compare_lt_iff; nia).
      now rewrite Hc.
    + assert (Hc : (a ?= b) = Gt) by (apply Z.compare_gt_iff; nia).
      now rewrite Hc.
Qed.

Lemma zpad_compare_end (w : nat) (a b : Z) :
  0 <= a < 10 ^ Z.of_nat w -> 0 <= b < 10 ^ Z.of_nat w ->
  String.compare (zpad w a) (zpad w b) = (a ?= b).
Proof.
  intros Ha Hb.
  assert (Hnil : forall s : string, (s ++ "")%string = s).
  { induction s as [|c s IHs]; simpl; congruence. }
  rewrite <- (Hnil (zpad w a)), <- (Hnil (zpad w b)).
  rewrite (zpad_compare w a b "" "" Ha Hb). now destruct (a ?= b).
Qed.

(** The optional fraction: nothing for 0, else a dot and six digits. *)
Lemma fraction_compare (a b : Z) :
  0 <= a <= 999999 -> 0 <= b <= 999999 ->
  String.compare (if a =? 0 then EmptyString else String "." (zpad 6 a))
                 (if b =? 0 then EmptyString else String "." (zpad 6 b))
  = (a ?= b).
Proof.
  intros Ha Hb.
  destruct (Z.eqb_spec a 0) as [->|Na]; destruct (Z.eqb_spec b 0) as [->|Nb].
  - reflexivity.
  - cbn [append String.compare]. symmetry. apply Z.compare_lt_iff. lia.
  - cbn [append String.compare]. symmetry. apply Z.compare_gt_iff. lia.
  - cbn [append String.compare]. change (Ascii.compare "." ".") with Eq.
    cbv iota. apply zpad_compare_end; simpl; lia.
Qed.

Lemma isoformat_compare (a b : datetime) :
  valid_datetime a -> valid_datetime b ->
  String.compare (isoformat a) (isoformat b) = datetime_compare a b.
Proof.
  intros ((Hy & Hm & Hd) & Hh & Hmi & Hs & Hus)
         ((Hy' & Hm' & Hd') & Hh' & Hmi' & Hs' & Hus').
  unfold MINYEAR, MAXYEAR in *.
  assert (Dm : forall y m, _days_in_month y m <= 31).
  { intros y m. unfold _days_in_month, _DAYS_IN_MONTH.
    destruct ((m =? 2) && _is_leap y); [lia|].
    destruct m as [|p|p]; try lia.
    do 4 (destruct p as [p|p|]; try lia). }
  pose proof (Dm (year (dt_date a)) (month (dt_date a))).
  pose proof (Dm (year (dt_date b)) (month (dt_date b))).
  unfold isoformat, date_isoformat, time_isoformat, datetime_compare,
    datetime_fields, lex_compare.
  repeat
    (rewrite zpad_compare by (simpl; lia);
     match goal with
     | |- match ?c with _ => _ end = match ?c with _ => _ end =>
         destruct c; [|reflexivity|reflexivity]
     end;
     cbn [append String.compare];
     match goal with
     | |- context [Ascii.compare ?x ?x] =>
         change (Ascii.compare x x) with Eq; cbv iota
     end).
  rewrite zpad_compare by (simpl; lia).
  destruct (second a ?= second b); [|reflexivity|reflexivity].
  rewrite fraction_compare by lia.
  now destruct (microsecond a ?= microsecond b).
Qed.

End TextOrder.

(* ================================================================= *)
(** ** The range queries *)

Lemma lex_compare_antisym (xs ys : list Z) :
  lex_compare xs ys = CompOpp (lex_compare ys xs).
Proof.
  revert ys. induction xs as [|x xs IH]; destruct ys as [|y ys]; simpl;
    try reflexivity.
  rewrite (Z.compare_antisym x y). destruct (x ?= y); simpl; auto.
Qed.

Lemma datetime_compare_antisym (a b : datetime) :
  datetime_compare a b = CompOpp (datetime_compare b a).
Proof. apply lex_compare_antisym. Qed.

Lemma overlap_where_iff (lo hi : datetime) (r : entry_row) :
  valid_datetime lo -> valid_datetime hi -> valid_row r ->
  Sql.holds (overlap_where (isoformat lo) (isoformat hi) r) = true <->
  overlaps_period lo hi (entry_of_row r).
Proof.
  intros Hlo Hhi [Hst Hen].
  unfold overlap_where, overlaps_period, within, datetime_le, datetime_lt.
  unfold Sql.between3, Sql.ge3, Sql.le3, Sql.lt3, Sql.gt3, Sql.cmp3.
  cbn [entry_of_row start_time end_time].
  rewrite !(isoformat_compare (w_start_time r)) by assumption.
  pose proof (datetime_compare_antisym lo (w_start_time r)) as A1.
  destruct (w_end_time r) as [en|]; cbn [option_map Sql.is_null].
  - rewrite !(isoformat_compare en) by assumption.
    pose proof (datetime_compare_antisym lo en) as A3.
    pose proof (datetime_compare_antisym hi en) as A4.
    destruct (datetime_compare (w_start_time r) lo) eqn:E1;
    destruct (datetime_compare (w_start_time r) hi) eqn:E2;
    destruct (datetime_compare en lo) eqn:E3;
    destruct (datetime_compare en hi) eqn:E4;
    simpl in A1, A3, A4; simpl;
    (split;
     [ intros H; try discriminate H;
       first
         [ left; exists (w_start_time r); rewrite A1, E2;
           repeat split; congruence
         | right; left; exists en; rewrite A3, E4; repeat split; congruence
         | right; right; exists (w_start_time r); rewrite E1;
           repeat split; left; exists en; rewrite A4; repeat split ]
     | intros [(s & Hs & Ha & Hb) | [(t & Ht & Ha & Hb) |
               (s & Hs & Ha & [(t & Ht & Hb) | Hb])]];
       try (injection Hs as <-); try (injection Ht as <-);
       try discriminate; try reflexivity; congruence ]).
  - destruct (datetime_compare (w_start_time r) lo) eqn:E1;
    destruct (datetime_compare (w_start_time r) hi) eqn:E2;
    simpl in A1; simpl;
    (split;
     [ intros H; try discriminate H;
       first
         [ left; exists (w_start_time r); rewrite A1, E2;
           repeat split; congruence
         | right; right; exists (w_start_time r); rewrite E1; auto ]
     | intros [(s & Hs & Ha & Hb) | [(t & Ht & Ha & Hb) |
               (s & Hs & Ha & [(t & Ht & Hb) | Hb])]];
       try (injection Hs as <-); try discriminate; try reflexivity;
       congruence ]).
Qed.

Lemma in_insert_by_start (x y : entry_row * project_row)
    (l : list (entry_row * project_row)) :
  In y (insert_by_start x l) <-> y = x \/ In y l.
Proof.
  induction l as [|z l IH]; simpl.
  - intuition.
  - destruct (String.ltb _ _); simpl; rewrite ?IH; intuition.
Qed.

Lemma in_order_by_start_time (y : entry_row * project_row)
    (l : list (entry_row * project_row)) :
  In y (order_by_start_time l) <-> In y l.
Proof.
  unfold order_by_start_time.
  assert (H : forall acc, In y (fold_left (fun acc x => insert_by_start x acc) l acc)
                          <-> In y l \/ In y acc).
  { induction l as [|x l IH]; intros acc; simpl.
    - intuition.
    - rewrite IH, in_insert_by_start. intuition. }
  rewrite H. simpl. intuition.
Qed.

Lemma in_join_entries_projects (db : Database) (e : entry_row) (p : project_row) :
  In (e, p) (join_entries_projects db) <->
  In e (work_entries db) /\ In p (projects db) /\ w_project_id e = r_id p.
Proof.
  unfold join_entries_projects. rewrite in_flat_map. split.
  - intros (e' & He' & Hin). apply in_map_iff in Hin.
    destruct Hin as (p' & [= <- <-] & Hp'). apply filter_In in Hp'.
    destruct Hp' as [Hp' Heq]. apply Z.eqb_eq in Heq. auto.
  - intros (He & Hp & Heq). exists e. split; [exact He|].
    apply in_map_iff. exists p. split; [reflexivity|].
    apply filter_In. split; [exact Hp|]. now apply Z.eqb_eq.
Qed.

Lemma in_select_overlapping (db : Database) (lo hi : string)
    (e : entry_row) (p : project_row) :
  In (e, p) (select_overlapping db lo hi) <->
  (In e (work_entries db) /\ In p (projects db) /\ w_project_id e = r_id p) /\
  Sql.holds (overlap_where lo hi e) = true.
Proof.
  unfold select_overlapping.
  rewrite in_order_by_start_time, filter_In, in_join_entries_projects.
  reflexivity.
Qed.

Lemma entry_of_row_inj (r r' : entry_row) :
  entry_of_row r = entry_of_row r' -> r = r'.
Proof.
  destruct r, r'. unfold entry_of_row. simpl. intros [= -> -> -> -> ->].
  reflexivity.
Qed.

Lemma in_rows_to_results (r : entry_row)
    (rows : list (entry_row * project_row)) :
  In (entry_of_row r) (map fst (rows_to_results rows)) <->
  exists p, In (r, p) rows.
Proof.
  unfold rows_to_results. rewrite map_map. simpl. rewrite in_map_iff. split.
  - intros ([r' p] & Heq & Hin). simpl in Heq.
    apply entry_of_row_inj in Heq. subst. now exists p.
  - intros (p & Hin). now exists (r, p).
Qed.

(** Membership in the result of the SELECT, for a row of the table. *)
Lemma returned_iff (db : Database) (lo hi : datetime) (r : entry_row) :
  In r (work_entries db) -> has_project db r -> valid_row r ->
  valid_datetime lo -> valid_datetime hi ->
  (In (entry_of_row r)
      (map fst (rows_to_results
                  (select_overlapping db (isoformat lo) (isoformat hi)))) <->
   overlaps_period lo hi (entry_of_row r)).
Proof.
  intros Hin (p & Hp & Hid) Hv Hlo Hhi.
  rewrite in_rows_to_results, <- (overlap_where_iff lo hi r Hlo Hhi Hv). split.
  - intros (p' & Hsel). now apply in_select_overlapping in Hsel.
  - intros Hw. exists p. apply in_select_overlapping. auto.
Qed.

(** A row whose project is gone is never returned. *)
Lemma orphan_not_returned (db : Database) (lo hi : string) (r : entry_row) :
  ~ has_project db r ->
  ~ In (entry_of_row r)
       (map fst (rows_to_results (select_overlapping db lo hi))).
Proof.
  intros Hno Hin. apply in_rows_to_results in Hin. destruct Hin as (p & Hsel).
  apply in_select_overlapping in Hsel. destruct Hsel as [(_ & Hp & Hid) _].
  apply Hno. exists p. auto.
Qed.

(* ================================================================= *)
(** ** The calendar: ordinals and dates *)

Section CalendarFacts.

(** A year written as 400*q400 + 100*q100 + 4*q4 + q1 + 1. *)
Lemma year_parts (q400 q100 q4 q1 : Z) :
  0 <= q400 -> 0 <= q100 <= 3 -> 0 <= q4 <= 24 -> 0 <= q1 <= 3 ->
  let y := q400 * 400 + q100 * 100 + q4 * 4 + q1 + 1 in
  _days_before_year y
  = q400 * _DI400Y + q100 * _DI100Y + q4 * _DI4Y + q1 * 365 /\
  _is_leap y = (q1 =? 3) && (negb (q4 =? 24) || (q100 =? 3)).
Proof.
  intros H400 H100 H4 H1 y. subst y.
  unfold _days_before_year, _is_leap, _DI400Y, _DI100Y, _DI4Y. split.
  - Z.div_mod_to_equations. lia.
  - destruct (Z.eqb_spec q1 3) as [E1|E1];
    destruct (Z.eqb_spec q4 24) as [E4|E4];
    destruct (Z.eqb_spec q100 3) as [E100|E100]; simpl;
    repeat match goal with
           | |- context [?a mod ?b =? 0] =>
               destruct (Z.eqb_spec (a mod b) 0)
           end; simpl; try reflexivity; exfalso;
    Z.div_mod_to_equations; lia.
Qed.

Lemma month_day_table :
  forallb (month_day_ok false) (map Z.of_nat (seq 0 365)) &&
  forallb (month_day_ok true) (map Z.of_nat (seq 0 366)) = true.
Proof. vm_compute. reflexivity. Qed.

Lemma month_day_spec (leapyear : bool) (n : Z) :
  0 <= n < 365 + (if leapyear then 1 else 0) ->
  month_day_ok leapyear n = true.
Proof.
  intros Hn. pose proof month_day_table as T.
  apply andb_true_iff in T. destruct T as [T0 T1].
  assert (Hin : forall k, (Z.to_nat n < k)%nat ->
                          In n (map Z.of_nat (seq 0 k))).
  { intros k Hk. apply in_map_iff. exists (Z.to_nat n).
    split; [lia|]. apply in_seq. lia. }
  destruct leapyear.
  - apply (proj1 (forallb_forall _ _) T1). apply Hin. lia.
  - apply (proj1 (forallb_forall _ _) T0). apply Hin. lia.
Qed.

Lemma ord2ymd_spec (n : Z) :
  1 <= n <= _MAXORDINAL ->
  exists y m d,
    _ord2ymd n = (y, m, d) /\
    MINYEAR <= y <= MAXYEAR /\ 1 <= m <= 12 /\
    1 <= d <= _days_in_month y m /\
    _ymd2ord y m d = n.
Proof.
  intros Hn. unfold _MAXORDINAL, MINYEAR, MAXYEAR in *.
  unfold _ord2ymd. cbv zeta. unfold _DI400Y, _DI100Y, _DI4Y.
  set (n0 := n - 1).
  set (q400 := n0 / 146097). set (r1 := n0 mod 146097).
  set (q100 := r1 / 36524). set (r2 := r1 mod 36524).
  set (q4 := r2 / 1461). set (r3 := r2 mod 1461).
  set (q1 := r3 / 365). set (r4 := r3 mod 365).
  pose proof (Z.div_mod n0 146097 ltac:(lia)) as D1.
  pose proof (Z.mod_pos_bound n0 146097 ltac:(lia)) as B1.
  pose proof (Z.div_mod r1 36524 ltac:(lia)) as D2.
  pose proof (Z.mod_pos_bound r1 36524 ltac:(lia)) as B2.
  pose proof (Z.div_mod r2 1461 ltac:(lia)) as D3.
  pose proof (Z.mod_pos_bound r2 1461 ltac:(lia)) as B3.
  pose proof (Z.div_mod r3 365 ltac:(lia)) as D4.
  pose proof (Z.mod_pos_bound r3 365 ltac:(lia)) as B4.
  fold q400 r1 in D1, B1. fold q100 r2 in D2, B2.
  fold q4 r3 in D3, B3. fold q1 r4 in D4, B4.
  assert (R400 : 0 <= q400 <= 24) by (subst n0; lia).
  assert (R100 : 0 <= q100 <= 4) by lia.
  assert (R4 : 0 <= q4 <= 24) by lia.
  assert (R1 : 0 <= q1 <= 4) by lia.
  clearbody q400 r1 q100 r2 q4 r3 q1 r4.
  destruct (Z.eqb_spec q1 4) as [E1|E1];
    [|destruct (Z.eqb_spec q100 4) as [E100|E100]]; cbn [orb].
  - (* the last day of a 4-year cycle *)
    assert (E4 : q4 <= 23) by lia.
    destruct (year_parts q400 q100 q4 3 ltac:(lia) ltac:(lia) ltac:(lia)
                         ltac:(lia)) as [Hd Hl].
    eexists _, _, _. split; [reflexivity|].
    replace (q400 * 400 + 1 + q100 * 100 + q4 * 4 + q1 - 1)
      with (q400 * 400 + q100 * 100 + q4 * 4 + 3 + 1) by lia.
    unfold _ymd2ord, _days_in_month, _days_before_month.
    rewrite Hd, Hl. unfold _DI400Y, _DI100Y, _DI4Y.
    replace (q4 =? 24) with false by (symmetry; apply Z.eqb_neq; lia).
    simpl. subst n0. lia.
  - (* the last day of a 400-year cycle *)
    destruct (year_parts q400 3 24 3 ltac:(lia) ltac:(lia) ltac:(lia)
                         ltac:(lia)) as [Hd Hl].
    eexists _, _, _. split; [reflexivity|].
    replace (q400 * 400 + 1 + q100 * 100 + q4 * 4 + q1 - 1)
      with (q400 * 400 + 3 * 100 + 24 * 4 + 3 + 1) by lia.
    unfold _ymd2ord, _days_in_month, _days_before_month.
    rewrite Hd, Hl. unfold _DI400Y, _DI100Y, _DI4Y.
    simpl. subst n0. lia.
  - destruct (year_parts q400 q100 q4 q1 ltac:(lia) ltac:(lia) ltac:(lia)
                         ltac:(lia)) as [Hd Hl].
    set (leapyear := (q1 =? 3) && (negb (q4 =? 24) || (q100 =? 3))) in *.
    assert (Hr4 : 0 <= r4 < 365 + (if leapyear then 1 else 0))
      by (destruct leapyear; lia).
    pose proof (month_day_spec leapyear r4 Hr4) as Hmd.
    unfold month_day_ok in Hmd.
    destruct (_month_day leapyear r4) as [m d].
    rewrite !andb_true_iff in Hmd.
    destruct Hmd as ((((Hm1 & Hm2) & Hd1) & Hd2) & Hsum).
    apply Z.leb_le in Hm1, Hm2, Hd1, Hd2. apply Z.eqb_eq in Hsum.
    eexists _, _, _. split; [reflexivity|].
    replace (q400 * 400 + 1 + q100 * 100 + q4 * 4 + q1)
      with (q400 * 400 + q100 * 100 + q4 * 4 + q1 + 1) by lia.
    unfold _ymd2ord, _days_in_month, _days_before_month.
    rewrite Hd, Hl. unfold _DI400Y, _DI100Y, _DI4Y.
    repeat split; lia.
Qed.

Lemma fromordinal_spec (n : Z) :
  1 <= n <= _MAXORDINAL ->
  valid_date (fromordinal n) /\ toordinal (fromordinal n) = n.
Proof.
  intros Hn. unfold fromordinal, toordinal, valid_date.
  destruct (ord2ymd_spec n Hn) as (y & m & d & -> & Hy & Hm & Hd & Ho).
  simpl. auto.
Qed.

Lemma toordinal_pos (d : date) : valid_date d -> 1 <= toordinal d.
Proof.
  intros (Hy & Hm & Hd). unfold toordinal, _ymd2ord, MINYEAR in *.
  assert (0 <= _days_before_year (year d)).
  { unfold _days_before_year. Z.div_mod_to_equations. lia. }
  assert (0 <= _days_before_month (year d) (month d)).
  { unfold _days_before_month, _DAYS_BEFORE_MONTH.
    destruct ((2 <? month d) && _is_leap (year d));
      destruct (month d) as [|p|p]; try lia;
      do 4 (destruct p as [p|p|]; try lia). }
  lia.
Qed.

(** The week of a day: its Monday and its Sunday. *)
Lemma week_of_spec (d : date) :
  valid_date d ->
  toordinal d - weekday d + 6 <= _MAXORDINAL ->
  exists mon sun,
    week_of d = Ok (mon, sun) /\
    valid_date mon /\ valid_date sun /\
    toordinal mon = toordinal d - weekday d /\
    toordinal sun = toordinal mon + 6 /\
    weekday mon = 0 /\ weekday sun = 6.
Proof.
  intros Hv Hmax. pose proof (toordinal_pos d Hv) as Hpos.
  unfold week_of, date_sub_days, date_add_days.
  assert (Hw : 0 <= weekday d < 7)
    by (unfold weekday; apply Z.mod_pos_bound; lia).
  assert (Hmon : 1 <= toordinal d - weekday d).
  { unfold weekday in *. Z.div_mod_to_equations. lia. }
  replace (toordinal d + - weekday d) with (toordinal d - weekday d) by lia.
  replace ((0 <? toordinal d - weekday d)
           && (toordinal d - weekday d <=? _MAXORDINAL)) with true
    by (symmetry; apply andb_true_iff; split;
        [apply Z.ltb_lt|apply Z.leb_le]; lia).
  cbn [bind].
  destruct (fromordinal_spec (toordinal d - weekday d) ltac:(lia))
    as [Vmon Omon].
  rewrite Omon.
  replace ((0 <? toordinal d - weekday d + 6)
           && (toordinal d - weekday d + 6 <=? _MAXORDINAL)) with true
    by (symmetry; apply andb_true_iff; split;
        [apply Z.ltb_lt|apply Z.leb_le]; lia).
  cbn [bind].
  destruct (fromordinal_spec (toordinal d - weekday d + 6) ltac:(lia))
    as [Vsun Osun].
  eexists _, _. split; [reflexivity|].
  repeat split; try apply Vmon; try apply Vsun; try assumption.
  - lia.
  - unfold weekday at 1. rewrite Omon. unfold weekday.
    Z.div_mod_to_equations. lia.
  - unfold weekday at 1. rewrite Osun. unfold weekday.
    Z.div_mod_to_equations. lia.
Qed.

(** Past the last Monday of year 9999 the Sunday does not exist. *)
Lemma week_of_overflow (d : date) :
  valid_date d ->
  _MAXORDINAL < toordinal d - weekday d + 6 ->
  week_of d = Raise OverflowError.
Proof.
  intros Hv Hmax. unfold week_of, date_sub_days, date_add_days.
  replace (toordinal d + - weekday d) with (toordinal d - weekday d) by lia.
  destruct ((0 <? toordinal d - weekday d)
            && (toordinal d - weekday d <=? _MAXORDINAL)) eqn:E;
    [|reflexivity].
  apply andb_true_iff in E. destruct E as [E1 E2].
  apply Z.ltb_lt in E1. apply Z.leb_le in E2. cbn [bind].
  destruct (fromordinal_spec (toordinal d - weekday d) ltac:(lia))
    as [_ Omon].
  rewrite Omon.
  replace ((0 <? toordinal d - weekday d + 6)
           && (toordinal d - weekday d + 6 <=? _MAXORDINAL)) with false
    by (symmetry; apply andb_false_iff; right; apply Z.leb_gt; lia).
  reflexivity.
Qed.

End CalendarFacts.

(** *** The ordinal of a date determines the date *)

Section OrdinalInjective.

Lemma days_before_year_step (y : Z) :
  _days_before_year (y + 1)
  = _days_before_year y + 365 + (if _is_leap y then 1 else 0).
Proof.
  unfold _days_before_year, _is_leap.
  replace (y + 1 - 1) with y by lia.
  destruct (Z.eqb_spec (y mod 4) 0); destruct (Z.eqb_spec (y mod 100) 0);
    destruct (Z.eqb_spec (y mod 400) 0); simpl;
    Z.div_mod_to_equations; lia.
Qed.

Lemma days_before_year_mono (y y' : Z) :
  y <= y' -> _days_before_year y <= _days_before_year y'.
Proof. unfold _days_before_year. intros H. Z.div_mod_to_equations. lia. Qed.

Lemma month_cases (m : Z) :
  1 <= m <= 12 ->
  m = 1 \/ m = 2 \/ m = 3 \/ m = 4 \/ m = 5 \/ m = 6 \/
  m = 7 \/ m = 8 \/ m = 9 \/ m = 10 \/ m = 11 \/ m = 12.
Proof. lia. Qed.

Lemma day_of_year_bounds (d : date) :
  valid_date d ->
  1 <= _days_before_month (year d) (month d) + day d
    <= 365 + (if _is_leap (year d) then 1 else 0).
Proof.
  intros (_ & Hm & Hd). unfold _days_before_month, _days_in_month in *.
  destruct (_is_leap (year d));
    destruct (month_cases _ Hm) as
      [E|[E|[E|[E|[E|[E|[E|[E|[E|[E|[E|E]]]]]]]]]]];
    rewrite E in *; cbv [_DAYS_BEFORE_MONTH _DAYS_IN_MONTH Z.ltb Z.eqb Z.compare Pos.compare Pos.compare_cont Pos.eqb andb] in *; lia.
Qed.

Lemma toordinal_year (d1 d2 : date) :
  valid_date d1 -> valid_date d2 -> year d1 < year d2 ->
  toordinal d1 < toordinal d2.
Proof.
  intros V1 V2 Hy. unfold toordinal, _ymd2ord.
  pose proof (day_of_year_bounds d1 V1) as B1.
  pose proof (day_of_year_bounds d2 V2) as B2.
  pose proof (days_before_year_step (year d1)) as S1.
  pose proof (days_before_year_mono (year d1 + 1) (year d2) ltac:(lia)).
  lia.
Qed.

Lemma toordinal_inj (d1 d2 : date) :
  valid_date d1 -> valid_date d2 -> toordinal d1 = toordinal d2 -> d1 = d2.
Proof.
  intros V1 V2 Ho.
  assert (Hy : year d1 = year d2).
  { destruct (Z.lt_trichotomy (year d1) (year d2)) as [L|[E|G]]; [|exact E|].
    - pose proof (toordinal_year d1 d2 V1 V2 L). lia.
    - pose proof (toordinal_year d2 d1 V2 V1 ltac:(lia)). lia. }
  destruct d1 as [y1 m1 dd1], d2 as [y2 m2 dd2]. simpl in Hy. subst y2.
  destruct V1 as (_ & Hm1 & Hd1), V2 as (_ & Hm2 & Hd2).
  unfold toordinal, _ymd2ord, _days_before_month, _days_in_month in *.
  simpl in *.
  assert (m1 = m2 /\ dd1 = dd2) as [-> ->]; [|reflexivity].
  destruct (_is_leap y1);
    destruct (month_cases _ Hm1) as
      [E|[E|[E|[E|[E|[E|[E|[E|[E|[E|[E|E]]]]]]]]]]];
    destruct (month_cases _ Hm2) as
      [F|[F|[F|[F|[F|[F|[F|[F|[F|[F|[F|F]]]]]]]]]]];
    rewrite E, F in *; cbv [_DAYS_BEFORE_MONTH _DAYS_IN_MONTH Z.ltb Z.eqb Z.compare Pos.compare Pos.compare_cont Pos.eqb andb] in *; lia.
Qed.

Lemma to_microseconds_inj (a b : datetime) :
  valid_datetime a -> valid_datetime b ->
  to_microseconds a = to_microseconds b -> a = b.
Proof.
  intros (Va & Ha) (Vb & Hb) H. unfold to_microseconds in H.
  change (10 ^ 6) with 1000000 in H.
  assert (Ho : toordinal (dt_date a) = toordinal (dt_date b)) by lia.
  apply (toordinal_inj _ _ Va Vb) in Ho.
  destruct a as [da ha ma sa ua], b as [db hb mb sb ub]. simpl in *.
  subst db. assert (ha = hb) by lia. assert (ma = mb) by lia.
  assert (sa = sb) by lia. assert (ua = ub) by lia. subst. reflexivity.
Qed.

End OrdinalInjective.

(** A completed entry whose end_time is not its start_time: duration_hours
    is the seconds from start to end, divided by 3600. *)
Lemma duration_hours_of_completed (e : WorkEntry) (s t : datetime) :
  valid_datetime s -> valid_datetime t ->
  start_time e = Some s -> end_time e = Some t -> t <> s ->
  duration_hours e
  = Some (truediv (to_microseconds t - to_microseconds s) (10 ^ 6) / 3600)%Q.
Proof.
  intros Vs Vt Hs Ht Hne. apply duration_hours_completed; auto.
  intros H. apply Hne. now apply to_microseconds_inj.
Qed.

(* ================================================================= *)
(** ** The day and week queries *)

Lemma valid_combine_min (d : date) : valid_date d -> valid_datetime (combine d min_time).
Proof. intros H. unfold valid_datetime, combine. simpl. repeat split; try apply H; lia. Qed.

Lemma valid_combine_max (d : date) : valid_date d -> valid_datetime (combine d max_time).
Proof. intros H. unfold valid_datetime, combine. simpl. repeat split; try apply H; lia. Qed.

Lemma week_of_valid (d mon sun : date) :
  valid_date d -> week_of d = Ok (mon, sun) ->
  valid_date mon /\ valid_date sun /\
  toordinal mon = toordinal d - weekday d /\
  toordinal sun = toordinal mon + 6 /\ weekday mon = 0 /\ weekday sun = 6.
Proof.
  intros Hv Hw.
  destruct (Z_le_gt_dec (toordinal d - weekday d + 6) _MAXORDINAL) as [Hle|Hgt].
  - destruct (week_of_spec d Hv Hle) as (mon' & sun' & Hw' & H).
    rewrite Hw in Hw'. injection Hw' as <- <-. exact H.
  - rewrite (week_of_overflow d Hv) in Hw by lia. discriminate.
Qed.

(** C1, with the JOIN.  A stored entry whose project is stored is returned
    by the day query, and by the week query when that one computes its
    period, exactly when its start_time lies within the bounds, or its
    end_time does, or it starts before the period and ends after it or is
    still open.  A stored entry whose project is not stored is returned by
    neither query, whatever its times. *)
Theorem range_query_membership (db : Database) (r : entry_row) (d : date) :
  In r (work_entries db) -> valid_row r -> valid_date d ->
  (has_project db r ->
   (In (entry_of_row r) (map fst (get_entries_for_day db d)) <->
    overlaps_period (combine d min_time) (combine d max_time)
                    (entry_of_row r)) /\
   (forall mon sun,
       week_of d = Ok (mon, sun) ->
       exists results,
         get_entries_for_week db d = Ok results /\
         (In (entry_of_row r) (map fst results) <->
          overlaps_period (combine mon min_time) (combine sun max_time)
                          (entry_of_row r)))) /\
  (~ has_project db r ->
   ~ In (entry_of_row r) (map fst (get_entries_for_day db d)) /\
   (forall results,
       get_entries_for_week db d = Ok results ->
       ~ In (entry_of_row r) (map fst results))).
Proof.
  intros Hin Hr Hd. split.
  - intros Hp. split.
    + unfold get_entries_for_day.
      apply returned_iff; auto using valid_combine_min, valid_combine_max.
    + intros mon sun Hw.
      destruct (week_of_valid d mon sun Hd Hw) as (Vmon & Vsun & _).
      unfold get_entries_for_week. rewrite Hw. cbn [bind fst snd].
      eexists. split; [reflexivity|].
      apply returned_iff; auto using valid_combine_min, valid_combine_max.
  - intros Hno. split.
    + unfold get_entries_for_day. now apply orphan_not_returned.
    + intros results Hw. unfold get_entries_for_week in Hw.
      destruct (week_of d); [|discriminate]. injection Hw as <-.
      now apply orphan_not_returned.
Qed.

(** C8, for the days whose week ends within the calendar.  The week query
    of a day on or before 9999-12-26 selects with the bounds Monday
    00:00:00 and Sunday 23:59:59.999999 of the week that holds the day:
    weekday 0 for its first day, six days on for its last. *)
Theorem week_query_bounds (db : Database) (d : date) :
  valid_date d ->
  toordinal d <= toordinal (mkdate 9999 12 26) ->
  exists mon sun,
    valid_date mon /\ valid_date sun /\
    weekday mon = 0 /\ weekday sun = 6 /\
    toordinal sun = toordinal mon + 6 /\
    toordinal mon <= toordinal d <= toordinal sun /\
    get_entries_for_week db d
    = Ok (rows_to_results
            (select_overlapping db
               (isoformat (mkdatetime mon 0 0 0 0))
               (isoformat (mkdatetime sun 23 59 59 999999)))).
Proof.
  intros Hv Hmax.
  change (toordinal (mkdate 9999 12 26)) with 3652054 in Hmax.
  assert (Hw : 0 <= weekday d < 7)
    by (unfold weekday; apply Z.mod_pos_bound; lia).
  assert (Hsun : toordinal d - weekday d + 6 <= _MAXORDINAL).
  { unfold _MAXORDINAL, weekday in *. Z.div_mod_to_equations. lia. }
  destruct (week_of_spec d Hv Hsun)
    as (mon & sun & Hweek & Vmon & Vsun & Omon & Osun & Wmon & Wsun).
  exists mon, sun. repeat split; try apply Vmon; try apply Vsun; try lia.
  unfold get_entries_for_week. rewrite Hweek. reflexivity.
Qed.

(* ================================================================= *)
(** ** Totals of the weekly report *)

Section DictFacts.
Context {K : Type} (keq : K -> K -> bool).
Hypothesis keq_spec : forall a b, keq a b = true <-> a = b.

Lemma keq_refl (a : K) : keq a a = true.
Proof. now apply keq_spec. Qed.

Lemma keq_neq (a b : K) : a <> b -> keq a b = false.
Proof.
  intros H. destruct (keq a b) eqn:E; [|reflexivity].
  apply keq_spec in E. contradiction.
Qed.

Lemma dict_get_in {V : Type} (k : K) (d : list (K * V)) :
  In k (keys d) <-> exists v, dict_get keq k d = Some v.
Proof.
  induction d as [|[k' v'] d IH]; simpl.
  - split; [intros []|intros [v Hv]; discriminate].
  - destruct (keq k k') eqn:E.
    + apply keq_spec in E. subst. split; eauto.
    + rewrite <- IH. split; [intros [H|H]; [|exact H]|auto].
      subst. rewrite keq_refl in E. discriminate.
Qed.

Lemma keys_dict_upd {V : Type} (k : K) (f : option V -> V) (d : list (K * V)) :
  keys (dict_upd keq k f d)
  = if dict_mem keq k d then keys d else keys d ++ [k].
Proof.
  unfold dict_mem. induction d as [|[k' v'] d IH]; simpl; [reflexivity|].
  destruct (keq k k') eqn:E; simpl; [reflexivity|].
  rewrite IH. now destruct (dict_get keq k d).
Qed.

Lemma dict_mem_keys {V W : Type} (k : K) (d : list (K * V)) (d' : list (K * W)) :
  keys d = keys d' -> dict_mem keq k d = dict_mem keq k d'.
Proof.
  unfold dict_mem. revert d'.
  induction d as [|[k1 v1] d IH]; intros [|[k2 v2] d'] H; simpl in *;
    try discriminate; [reflexivity|].
  injection H as <- H. destruct (keq k k1); [reflexivity|]. now apply IH.
Qed.

Lemma NoDup_keys_dict_upd {V : Type} (k : K) (f : option V -> V)
    (d : list (K * V)) :
  NoDup (keys d) -> NoDup (keys (dict_upd keq k f d)).
Proof.
  intros H. rewrite keys_dict_upd. unfold dict_mem.
  destruct (dict_get keq k d) eqn:E; [exact H|].
  apply NoDup_app; [exact H|repeat constructor; intros []|].
  intros x Hx [<-|[]]. apply dict_get_in in Hx. destruct Hx as [v Hv].
  congruence.
Qed.

Lemma dict_get_upd_same {V : Type} (k : K) (f : option V -> V)
    (d : list (K * V)) :
  dict_get keq k (dict_upd keq k f d) = Some (f (dict_get keq k d)).
Proof.
  induction d as [|[k' v'] d IH]; simpl.
  - now rewrite keq_refl.
  - destruct (keq k k') eqn:E; simpl; rewrite E; [reflexivity|exact IH].
Qed.

Lemma dict_get_upd_other {V : Type} (k k0 : K) (f : option V -> V)
    (d : list (K * V)) :
  k0 <> k -> dict_get keq k0 (dict_upd keq k f d) = dict_get keq k0 d.
Proof.
  intros Hne. induction d as [|[k' v'] d IH]; simpl.
  - now rewrite (keq_neq k0 k Hne).
  - destruct (keq k k') eqn:E; simpl.
    + apply keq_spec in E. subst. now rewrite (keq_neq k0 k' Hne).
    + now rewrite IH.
Qed.

End DictFacts.

Lemma id_eqb_spec (a b : option Z) : id_eqb a b = true <-> a = b.
Proof.
  destruct a as [x|], b as [y|]; simpl; try (split; congruence).
  rewrite Z.eqb_eq. split; congruence.
Qed.

Lemma date_eqb_spec (a b : date) : date_eqb a b = true <-> a = b.
Proof.
  destruct a, b. unfold date_eqb. simpl.
  rewrite !andb_true_iff, !Z.eqb_eq. split.
  - intros [[-> ->] ->]. reflexivity.
  - intros [= -> -> ->]. auto.
Qed.

Section Totals.

Lemma dict_float_add_same {K : Type} (keq : K -> K -> bool)
    (keq_spec : forall a b, keq a b = true <-> a = b)
    (k : K) (x : float) (d : list (K * float)) :
  dict_float keq k (dict_add keq k x d) = (dict_float keq k d + x)%Q.
Proof.
  unfold dict_float, dict_add. rewrite (dict_get_upd_same keq keq_spec).
  now destruct (dict_get keq k d).
Qed.

Lemma dict_float_add_other {K : Type} (keq : K -> K -> bool)
    (keq_spec : forall a b, keq a b = true <-> a = b)
    (k k0 : K) (x : float) (d : list (K * float)) :
  k0 <> k -> dict_float keq k0 (dict_add keq k x d) = dict_float keq k0 d.
Proof.
  intros Hne. unfold dict_float, dict_add.
  now rewrite (dict_get_upd_other keq keq_spec).
Qed.

(** The inner loop of the totals: the buckets of one project. *)
Lemma fold_buckets (pid : option Z) (by_date : list (date * list WorkEntry)) :
  forall acc,
    let acc' := fold_left (week_totals_step pid) by_date acc in
    (total_hours acc' == total_hours acc + buckets_total by_date)%Q /\
    (dict_float id_eqb pid (project_hours acc')
     == dict_float id_eqb pid (project_hours acc) + buckets_total by_date)%Q /\
    (forall k, k <> pid ->
               dict_float id_eqb k (project_hours acc')
               = dict_float id_eqb k (project_hours acc)).
Proof.
  induction by_date as [|b by_date IH]; intros acc; cbn [fold_left].
  - unfold buckets_total. simpl. split; [ring|split; [ring|reflexivity]].
  - destruct (IH (week_totals_step pid acc b)) as (Ht & Hp & Ho).
    cbv zeta in *. repeat split.
    + rewrite Ht. unfold buckets_total. simpl. ring.
    + rewrite Hp. cbn [week_totals_step project_hours].
      rewrite (dict_float_add_same id_eqb id_eqb_spec).
      unfold buckets_total. simpl. ring.
    + intros k Hk. rewrite (Ho k Hk). cbn [week_totals_step project_hours].
      now apply (dict_float_add_other id_eqb id_eqb_spec).
Qed.

Lemma dict_get_not_in {K V : Type} (keq : K -> K -> bool)
    (keq_spec : forall a b, keq a b = true <-> a = b)
    (k : K) (d : list (K * V)) :
  ~ In k (keys d) -> dict_get keq k d = None.
Proof.
  intros H. destruct (dict_get keq k d) eqn:E; [|reflexivity].
  exfalso. apply H. apply (dict_get_in keq keq_spec). eauto.
Qed.

(** The outer loop: all projects. *)
Lemma fold_projects (l : list (option Z * list (date * list WorkEntry))) :
  NoDup (keys l) ->
  forall acc,
    let acc' :=
      fold_left (fun acc kv => fold_left (week_totals_step (fst kv)) (snd kv) acc)
                l acc in
    (total_hours acc'
     == total_hours acc + Qsum (map (fun kv => buckets_total (snd kv)) l))%Q /\
    (forall k,
        dict_float id_eqb k (project_hours acc')
        == dict_float id_eqb k (project_hours acc)
           + match dict_get id_eqb k l with
             | Some by_date => buckets_total by_date
             | None => 0
             end)%Q.
Proof.
  induction l as [|[pid bd] l IH]; intros Hnd acc; cbn [fold_left fst snd].
  - simpl. split; [ring|intros k; ring].
  - inversion Hnd as [|? ? Hnotin Hnd']; subst.
    destruct (fold_buckets pid bd acc) as (Ht & Hp & Ho).
    destruct (IH Hnd' (fold_left (week_totals_step pid) bd acc)) as (Ht' & Hk').
    cbv zeta in *. split.
    + rewrite Ht', Ht. simpl. ring.
    + intros k. rewrite Hk'. cbn [dict_get].
      destruct (id_eqb k pid) eqn:E.
      * apply id_eqb_spec in E. subst k.
        rewrite (dict_get_not_in id_eqb id_eqb_spec pid l Hnotin), Hp. ring.
      * assert (k <> pid) by (intros ->; rewrite (keq_refl id_eqb id_eqb_spec) in E;
                              discriminate).
        rewrite (Ho k H). reflexivity.
Qed.

End Totals.

Section WeekGrouping.

Lemma Qsum_ext (l l' : list Q) :
  Forall2 Qeq l l' -> (Qsum l == Qsum l')%Q.
Proof.
  induction 1 as [|x y l l' Hxy _ IH]; simpl; [reflexivity|].
  now rewrite Hxy, IH.
Qed.

Lemma NoDup_keys_get {K V : Type} (keq : K -> K -> bool)
    (keq_spec : forall a b, keq a b = true <-> a = b) (l : list (K * V)) :
  NoDup (keys l) ->
  map (fun k => dict_get keq k l) (keys l) = map (fun kv => Some (snd kv)) l.
Proof.
  induction l as [|[k v] l IH]; intros Hnd; simpl; [reflexivity|].
  inversion Hnd as [|? ? Hnotin Hnd']; subst.
  rewrite (keq_refl keq keq_spec). f_equal. rewrite <- (IH Hnd').
  apply map_ext_in. intros k' Hk'.
  rewrite (keq_neq keq keq_spec); [reflexivity|].
  intros ->. contradiction.
Qed.

(** Both grouping dicts of the weekly report see the same keys in the same
    order. *)
Lemma week_group_keys (entries : list (WorkEntry * Project)) :
  forall (p0 : list (option Z * Project))
         (d0 ebp : list (option Z * list (date * list WorkEntry))),
    keys p0 = keys d0 -> NoDup (keys d0) ->
    Forall (fun by_date => NoDup (keys by_date)) (map snd d0) ->
    week_group_entries entries d0 = Ok ebp ->
    keys (fold_left (fun d ep => dict_set id_eqb (p_id (snd ep)) (snd ep) d)
                    entries p0) = keys ebp /\
    NoDup (keys ebp) /\
    Forall (fun by_date => NoDup (keys by_date)) (map snd ebp).
Proof.
  induction entries as [|[entry project] entries IH];
    intros p0 d0 ebp Hk Hnd Hall H; simpl in H.
  - injection H as <-. simpl. auto.
  - destruct (start_time entry) as [st|]; [|discriminate].
    cbn [fold_left snd]. refine (IH _ _ _ _ _ _ H).
    + unfold dict_set, week_group_step. rewrite !keys_dict_upd.
      rewrite (dict_mem_keys id_eqb _ p0 d0 Hk), Hk. reflexivity.
    + now apply NoDup_keys_dict_upd; [apply id_eqb_spec|].
    + unfold week_group_step. clear -Hall.
      induction d0 as [|[k v] d0 IHd]; simpl.
      * repeat constructor. intros [].
      * inversion Hall as [|? ? Hv Hall']; subst.
        destruct (id_eqb (p_id project) k); simpl.
        -- constructor; [|exact Hall'].
           now apply NoDup_keys_dict_upd; [apply date_eqb_spec|].
        -- constructor; [exact Hv|]. now apply IHd.
Qed.

End WeekGrouping.

Section WeekColumns.

Lemma Qsum_cons (x : Q) (l : list Q) : Qsum (x :: l) = (x + Qsum l)%Q.
Proof. reflexivity. Qed.

Let other (k : date) (b : date * list WorkEntry) : bool :=
  negb (date_eqb k (fst b)).

Lemma filter_other_id (k : date) (l : list (date * list WorkEntry)) :
  ~ In k (keys l) -> filter (other k) l = l.
Proof.
  induction l as [|[k' es] l IH]; simpl; intros H; [reflexivity|].
  unfold other at 1. simpl.
  rewrite (keq_neq date_eqb date_eqb_spec k k') by (intros ->; apply H; now left).
  simpl. f_equal. apply IH. intros Hin. apply H. now right.
Qed.

Lemma keys_filter_other (k k0 : date) (l : list (date * list WorkEntry)) :
  In k0 (keys (filter (other k) l)) <-> In k0 (keys l) /\ k0 <> k.
Proof.
  unfold keys. rewrite !in_map_iff. split.
  - intros ([k' es] & <- & Hin). apply filter_In in Hin.
    destruct Hin as [Hin Hne]. split; [exists (k', es); auto|].
    simpl. intros ->. unfold other in Hne. simpl in Hne.
    rewrite (keq_refl date_eqb date_eqb_spec) in Hne. discriminate.
  - intros [([k' es] & <- & Hin) Hne]. exists (k', es). split; [reflexivity|].
    apply filter_In. split; [exact Hin|]. unfold other. simpl in *.
    rewrite (keq_neq date_eqb date_eqb_spec); [reflexivity|congruence].
Qed.

Lemma NoDup_keys_filter (k : date) (l : list (date * list WorkEntry)) :
  NoDup (keys l) -> NoDup (keys (filter (other k) l)).
Proof.
  induction l as [|[k' es] l IH]; simpl; intros H; [constructor|].
  inversion H as [|? ? Hnotin Hnd]; subst.
  destruct (other k (k', es)); simpl; [|auto].
  constructor; [|auto]. intros Hin. apply keys_filter_other in Hin. tauto.
Qed.

Lemma dict_get_filter_other (k k0 : date) (l : list (date * list WorkEntry)) :
  k0 <> k -> dict_get date_eqb k0 (filter (other k) l) = dict_get date_eqb k0 l.
Proof.
  intros Hne. induction l as [|[k' es] l IH]; simpl; [reflexivity|].
  unfold other at 1. simpl. destruct (date_eqb k k') eqn:E; simpl.
  - apply date_eqb_spec in E. subst k'.
    now rewrite (keq_neq date_eqb date_eqb_spec k0 k Hne).
  - now rewrite IH.
Qed.

Lemma buckets_split (k : date) (l : list (date * list WorkEntry)) :
  NoDup (keys l) ->
  (buckets_total l
   == cell_hours (option_map sum_duration_hours (dict_get date_eqb k l))
      + buckets_total (filter (other k) l))%Q.
Proof.
  induction l as [|[k' es] l IH]; intros Hnd.
  - unfold buckets_total. simpl. ring.
  - inversion Hnd as [|? ? Hnotin Hnd']; subst.
    cbn [dict_get filter]. unfold other at 1. cbn [fst].
    destruct (date_eqb k k') eqn:E; cbn [negb].
    + apply date_eqb_spec in E. subst k'.
      rewrite (filter_other_id k l Hnotin). unfold buckets_total. simpl. ring.
    + unfold buckets_total in *. cbn [map snd]. rewrite !Qsum_cons.
      rewrite (IH Hnd'). ring.
Qed.

(** When every bucket of a project is dated within the displayed days, the
    buckets add up to the day cells. *)
Lemma buckets_in_week (days_in_week : list date) :
  NoDup days_in_week ->
  forall by_date,
    NoDup (keys by_date) ->
    (forall k, In k (keys by_date) -> In k days_in_week) ->
    (buckets_total by_date
     == sum_cells (week_day_cells days_in_week by_date))%Q.
Proof.
  induction days_in_week as [|d0 days IH]; intros Hnd by_date Hk Hsub.
  - destruct by_date as [|[k es] l]; [reflexivity|].
    destruct (Hsub k (or_introl eq_refl)).
  - inversion Hnd as [|? ? Hnotin Hnd']; subst.
    rewrite (buckets_split d0 by_date Hk).
    unfold sum_cells, week_day_cells. cbn [map]. rewrite Qsum_cons.
    assert (Hcells :
              map (fun day_date =>
                     match dict_get date_eqb day_date by_date with
                     | Some day_entries => Some (sum_duration_hours day_entries)
                     | None => None
                     end) days
              = week_day_cells days (filter (other d0) by_date)).
    { unfold week_day_cells. apply map_ext_in. intros d Hd.
      rewrite dict_get_filter_other; [reflexivity|]. intros ->. contradiction. }
    rewrite Hcells.
    rewrite (IH Hnd' (filter (other d0) by_date)).
    + unfold sum_cells.
      destruct (dict_get date_eqb d0 by_date); simpl; ring.
    + now apply NoDup_keys_filter.
    + intros k Hin. apply keys_filter_other in Hin. destruct Hin as [Hin Hne].
      destruct (Hsub k Hin); [congruence|assumption].
Qed.

End WeekColumns.

Section WeekTable.

Lemma Qsum_map_ext {A : Type} (f g : A -> Q) (l : list A) :
  (forall a, In a l -> (f a == g a)%Q) ->
  (Qsum (map f l) == Qsum (map g l))%Q.
Proof.
  induction l as [|a l IH]; intros H; simpl; [reflexivity|].
  rewrite (H a (or_introl eq_refl)), IH; [reflexivity|].
  intros b Hb. apply H. now right.
Qed.

Lemma dict_get_some_in {K V : Type} (keq : K -> K -> bool) (k : K) (v : V)
    (d : list (K * V)) :
  dict_get keq k d = Some v -> In v (map snd d).
Proof.
  induction d as [|[k' v'] d IH]; simpl; [discriminate|].
  destruct (keq k k'); [intros [= ->]; now left|auto].
Qed.

(** The totals of the weekly table: the grand total is the sum of the
    project totals, and a project total is the sum of all the start-date
    buckets of the project, shown or not. *)
Lemma week_table_totals (start_of_week end_of_week : date)
    (days_in_week : list date) (entries : list (WorkEntry * Project))
    (table : week_table) :
  week_table_of start_of_week end_of_week days_in_week entries = Ok table ->
  (wt_total_hours table == Qsum (map wr_total (wt_rows table)))%Q /\
  forall row, In row (wt_rows table) ->
    exists by_date,
      wr_days row = week_day_cells days_in_week by_date /\
      NoDup (keys by_date) /\
      (wr_total row == buckets_total by_date)%Q.
Proof.
  unfold week_table_of.
  destruct (week_group_entries entries []) as [ebp|] eqn:Eg; cbn [bind];
    [|discriminate].
  intros [= <-]. cbn [wt_total_hours wt_rows].
  destruct (week_group_keys entries [] [] ebp eq_refl (NoDup_nil _)
              (Forall_nil _) Eg) as (Hkeys & Hnd & Hall).
  fold (group_projects entries) in Hkeys.
  destruct (fold_projects ebp Hnd (mk_week_totals 0 [] [])) as [Htot Hproj].
  fold (week_totals_of ebp) in Htot, Hproj. cbn [total_hours project_hours] in *.
  assert (Hrow : forall k,
             (dict_float id_eqb k (project_hours (week_totals_of ebp))
              == buckets_total match dict_get id_eqb k ebp with
                               | Some by_date => by_date
                               | None => []
                               end)%Q).
  { intros k. rewrite (Hproj k). unfold dict_float at 1. simpl.
    destruct (dict_get id_eqb k ebp); unfold buckets_total; simpl; ring. }
  split.
  - rewrite Htot, map_map. cbn [wr_total].
    rewrite <- (map_map fst (fun k => dict_float id_eqb k
                                       (project_hours (week_totals_of ebp)))).
    fold (keys (group_projects entries)). rewrite Hkeys.
    rewrite (Qsum_map_ext _ _ _ (fun k _ => Hrow k)).
    rewrite <- (map_map (fun k => dict_get id_eqb k ebp)
                        (fun o => buckets_total match o with
                                                | Some by_date => by_date
                                                | None => []
                                                end)).
    rewrite (NoDup_keys_get id_eqb id_eqb_spec ebp Hnd), map_map. simpl.
    ring.
  - intros row Hin. apply in_map_iff in Hin. destruct Hin as (kv & <- & _).
    cbn [wr_days wr_total]. eexists. split; [reflexivity|]. split; [|apply Hrow].
    destruct (dict_get id_eqb (fst kv) ebp) as [bd|] eqn:E; [|constructor].
    apply dict_get_some_in in E.
    exact (proj1 (Forall_forall _ _) Hall bd E).
Qed.

Lemma mapM_Forall2 {A B : Type} (f : A -> result B) (l : list A) (bs : list B) :
  mapM f l = Ok bs -> Forall2 (fun a b => f a = Ok b) l bs.
Proof.
  revert bs. induction l as [|a l IH]; simpl; intros bs H.
  - injection H as <-. constructor.
  - destruct (f a) as [b|] eqn:Ea; simpl in H; [|discriminate].
    destruct (mapM f l) as [bs0|]; simpl in H; [|discriminate].
    injection H as <-. constructor; auto.
Qed.

Lemma date_add_days_ordinal (d d' : date) (i : Z) :
  date_add_days d i = Ok d' -> toordinal d' = toordinal d + i.
Proof.
  unfold date_add_days.
  destruct ((0 <? toordinal d + i) && (toordinal d + i <=? _MAXORDINAL)) eqn:E;
    [|discriminate].
  apply andb_true_iff in E. destruct E as [E1 E2].
  apply Z.ltb_lt in E1. apply Z.leb_le in E2. intros [= <-].
  apply fromordinal_spec. lia.
Qed.

(** The seven days of the table are seven different dates. *)
Lemma days_in_week_NoDup (start_of_week : date) (days_in_week : list date) :
  mapM (fun i => date_add_days start_of_week i) [0; 1; 2; 3; 4; 5; 6]
  = Ok days_in_week ->
  NoDup days_in_week.
Proof.
  intros H. apply mapM_Forall2 in H.
  apply (NoDup_map_inv toordinal).
  repeat match goal with
         | H : Forall2 _ (_ :: _) _ |- _ =>
             inversion H; subst; clear H
         | H : Forall2 _ [] _ |- _ => inversion H; subst; clear H
         | H : date_add_days _ _ = Ok _ |- _ =>
             apply date_add_days_ordinal in H
         end.
  simpl.
  repeat (constructor; [simpl; lia|]). constructor.
Qed.

End WeekTable.

(** The totals of the weekly table: the grand total is the sum of the row
    totals, and the total of a row is the sum of the buckets that its day
    cells are read from. *)
Lemma week_report_totals (db : Database) (d : date) (table : week_table) :
  _show_week_report db d = Ok (WeekReport table) ->
  (wt_total_hours table == Qsum (map wr_total (wt_rows table)))%Q /\
  exists days_in_week,
    mapM (fun i => date_add_days (wt_start_of_week table) i) [0; 1; 2; 3; 4; 5; 6]
    = Ok days_in_week /\
    forall row, In row (wt_rows table) ->
      exists by_date,
        wr_days row = week_day_cells days_in_week by_date /\
        (wr_total row == buckets_total by_date)%Q /\
        ((forall k, In k (keys by_date) -> In k days_in_week) ->
         (wr_total row == sum_cells (wr_days row))%Q).
Proof.
  intros Hrep.
  destruct (show_week_report_table _ _ _ Hrep)
    as (days & entries & Ht & _ & Hdays & _).
  destruct (week_table_totals _ _ _ _ _ Ht) as [Htot Hrows].
  split; [exact Htot|]. exists days. split; [exact Hdays|].
  intros row Hin. destruct (Hrows row Hin) as (by_date & Hcells & Hnd & Hsum).
  exists by_date. split; [exact Hcells|]. split; [exact Hsum|].
  intros Hsub. rewrite Hsum, Hcells.
  apply buckets_in_week; auto. exact (days_in_week_NoDup _ _ Hdays).
Qed.

(* ================================================================= *)
(** ** Worked scenarios *)

Example db_task_rows : work_entries db_task = [row_task].
Proof. reflexivity. Qed.

(** C6 fails for a project with two entries in a report.  Project A, the
    one project of the store, is billed hourly at 100 and has two entries on
    2023-05-01, of 2 h and of 1.5 h: its hours are 3.5, and the amount of
    the claim is 350.  Both reports group by project.id, and the project of
    a returned pair carries the id of the entry: the day report has two
    sections named Project A, billed 200 and 150, and the weekly report two
    rows of that name and the two billing lines 200 and 150. *)
Theorem project_billed_per_entry :
  map r_name (projects db_two_tasks) = ["Project A"%string] /\
  map w_project_id (work_entries db_two_tasks) = [1; 1] /\
  (exists s1 s2 total a1 a2,
      _show_day_report db_two_tasks (mkdate 2023 5 1)
      = Ok (DayReport [s1; s2] total) /\
      name (ds_project s1) = "Project A"%string /\
      name (ds_project s2) = "Project A"%string /\
      (ds_total s1 == 2)%Q /\ (ds_total s2 == 3 # 2)%Q /\
      (total == 7 # 2)%Q /\
      ds_billing s1 = Some a1 /\ (dec_value a1 == 200)%Q /\
      ds_billing s2 = Some a2 /\ (dec_value a2 == 150)%Q) /\
  (exists table r1 r2 p1 p2 a1 a2,
      _show_week_report db_two_tasks (mkdate 2023 5 1) = Ok (WeekReport table) /\
      wt_rows table = [r1; r2] /\
      name (wr_project r1) = "Project A"%string /\
      name (wr_project r2) = "Project A"%string /\
      (wr_total r1 == 2)%Q /\ (wr_total r2 == 3 # 2)%Q /\
      (wt_total_hours table == 7 # 2)%Q /\
      wt_billing table = [(p1, a1); (p2, a2)] /\
      (dec_value a1 == 200)%Q /\ (dec_value a2 == 150)%Q).
Proof.
  split; [reflexivity|]. split; [reflexivity|]. split.
  - eexists _, _, _, _, _. split; [vm_compute; reflexivity|].
    repeat split; reflexivity.
  - eexists _, _, _, _, _, _, _. split; [vm_compute; reflexivity|].
    split; [reflexivity|]. repeat split; reflexivity.
Qed.

(** The scenario of the specification: a task across midnight is returned
    for both days, and not for the day after. *)
Example midnight_task_in_both_days :
  map (fun ep => e_id (fst ep)) (get_entries_for_day db_midnight (mkdate 2023 5 1))
  = [Some 1] /\
  map (fun ep => e_id (fst ep)) (get_entries_for_day db_midnight (mkdate 2023 5 2))
  = [Some 1] /\
  get_entries_for_day db_midnight (mkdate 2023 5 3) = [].
Proof. repeat split. Qed.

(** The scenario of the specification: a task started on Monday and still
    open is in the weekly report, with no hours. *)
Example open_task_in_week :
  exists row table,
    _show_week_report db_open (mkdate 2023 5 4) = Ok (WeekReport table) /\
    wt_rows table = [row] /\
    wr_days row = [Some 0%Q; None; None; None; None; None; None] /\
    (wr_total row == 0)%Q /\ (wt_total_hours table == 0)%Q.
Proof.
  eexists _, _. split; [vm_compute; reflexivity|]. repeat split.
Qed.

(** C1 as stated fails: the entry lies within 2023-05-01, its project was
    deleted, another project is stored, and the day query does not return
    the entry. *)
Lemma orphan_entry_not_returned :
  projects db_orphan = [mk_project_row 2 "Project B" 0 None] /\
  In row_task (work_entries db_orphan) /\
  valid_row row_task /\
  overlaps_period (combine (mkdate 2023 5 1) min_time)
                  (combine (mkdate 2023 5 1) max_time)
                  (entry_of_row row_task) /\
  ~ In (entry_of_row row_task)
       (map fst (get_entries_for_day db_orphan (mkdate 2023 5 1))).
Proof.
  split; [reflexivity|].
  split; [left; reflexivity|]. split; [by_computation|]. split.
  - left. exists (at_ 2023 5 1 9 0). by_computation.
  - apply orphan_not_returned. intros (p & [<- | []] & Hid). discriminate Hid.
Qed.

Lemma range_query_membership_witness :
  (In (entry_of_row row_task)
      (map fst (get_entries_for_day db_two_projects (mkdate 2023 5 1))) <->
   overlaps_period (combine (mkdate 2023 5 1) min_time)
                   (combine (mkdate 2023 5 1) max_time)
                   (entry_of_row row_task)) /\
  ~ In (entry_of_row row_task)
       (map fst (get_entries_for_day db_orphan (mkdate 2023 5 1))) /\
  ~ In (entry_of_row row_task)
       (map fst (rows_to_results
                   (select_overlapping db_orphan "2023-05-01T00:00:00"
                                       "2023-05-07T23:59:59.999999"))).
Proof.
  destruct (range_query_membership db_two_projects row_task (mkdate 2023 5 1))
    as [Hstored _]; [left; reflexivity|by_computation|by_computation|].
  destruct (range_query_membership db_orphan row_task (mkdate 2023 5 1))
    as [_ Horphan]; [left; reflexivity|by_computation|by_computation|].
  assert (H1 : has_project db_two_projects row_task).
  { exists (mk_project_row 1 "Project A" 1 (Some 100%Q)).
    split; [left; reflexivity|reflexivity]. }
  assert (H2 : ~ has_project db_orphan row_task).
  { intros (p & [<- | []] & Hid). discriminate Hid. }
  split; [exact (proj1 (Hstored H1))|].
  destruct (Horphan H2) as [Hday Hweek]. split; [exact Hday|].
  exact (Hweek _ eq_refl).
Defined.

Lemma single_active_entry_witness :
  (active_count
     (fst (stop_work
             (fst (start_work
                     (fst (start_work db_project_a "Project A" "Task" false
                                      (at_ 2023 5 1 9 0) (at_ 2023 5 1 9 0)))
                     "1" "Next" true
                     (at_ 2023 5 1 12 0) (at_ 2023 5 1 12 0)))
             (at_ 2023 5 1 17 0))) <= 1)%nat.
Proof.
  apply single_active_entry.
  apply reach_stop, reach_start, reach_start, reach_idle. reflexivity.
Defined.

Example start_stop_run :
  work_entries
    (fst (stop_work
            (fst (start_work
                    (fst (start_work db_project_a "Project A" "Task" false
                                     (at_ 2023 5 1 9 0) (at_ 2023 5 1 9 0)))
                    "1" "Next" true
                    (at_ 2023 5 1 12 0) (at_ 2023 5 1 12 0)))
            (at_ 2023 5 1 17 0)))
  = [mk_entry_row 1 1 "Task" (at_ 2023 5 1 9 0) (Some (at_ 2023 5 1 12 0));
     mk_entry_row 2 1 "Next" (at_ 2023 5 1 12 0) (Some (at_ 2023 5 1 17 0))].
Proof. reflexivity. Qed.

Lemma stop_when_idle_witness :
  stop_work db_task (at_ 2023 5 1 17 0) = (db_task, Ok NoActiveWorkToStop).
Proof.
  apply stop_when_idle. intros r [<- | []]. discriminate.
Defined.

Lemma duplicate_project_name_rejected_witness :
  name_taken db_project_a "Project A" /\
  create_project db_project_a (mkProject None "Project A" false None)
  = Raise IntegrityError /\
  add_project db_project_a "Project A" false None
  = (db_project_a, Ok ProjectAlreadyExists).
Proof.
  assert (H : name_taken db_project_a "Project A").
  { exists (mk_project_row 1 "Project A" 1 (Some 100%Q)).
    split; [left; reflexivity|reflexivity]. }
  split; [exact H|].
  exact (duplicate_project_name_rejected db_project_a
           (mkProject None "Project A" false None) false None H).
Defined.

(** C4 as stated fails: the project named "2023" would be found by name,
    but the text reads as an integer and only the id 2023 is looked up. *)
Lemma numeric_name_not_resolved :
  find_project_spec db_numeric_name "2023"
  = Some (mkProject (Some 1) "2023" false None) /\
  start_work db_numeric_name "2023" "Task" false
             (at_ 2023 5 1 9 0) (at_ 2023 5 1 9 0)
  = (db_numeric_name, Ok ProjectNotFound).
Proof. split; reflexivity. Qed.

Lemma start_work_project_resolution_witness :
  start_work db_open "1" "Next" true (at_ 2023 5 1 12 0) (at_ 2023 5 1 12 0)
  = (started (fst (stop_work db_open (at_ 2023 5 1 12 0))) 1 "Next"
             (at_ 2023 5 1 12 0),
     Ok (StartedWork 2)).
Proof.
  pose proof (start_work_project_resolution db_open "1" "Next" true
                (at_ 2023 5 1 12 0) (at_ 2023 5 1 12 0) eq_refl) as H.
  cbv zeta in H. destruct H as (_ & _ & H).
  destruct H as (_ & _ & H).
  - right. split; [reflexivity|]. eexists _, _. split; reflexivity.
  - change (PyInt.int "1") with (Some 1) in H.
    change (sqlite_int 1) with true in H. cbv iota in H.
    destruct H as [(row & _ & _ & H) | (Hno & _)]; [exact H|].
    exfalso.
    apply (Hno (mk_project_row 1 "Project A" 1 (Some 100%Q)));
      [left; reflexivity|reflexivity].
Defined.

(** A reference that reads as an integer of more than 64 bits. *)
Example start_with_a_large_number :
  start_work db_project_a "9223372036854775808" "Task" false
             (at_ 2023 5 1 9 0) (at_ 2023 5 1 9 0)
  = (db_project_a, Raise OverflowError).
Proof. reflexivity. Qed.

(** The separator 28 is no blank for int(): the reference is a name. *)
Example start_with_a_separator :
  PyInt.int (String (ascii_of_nat 28) "1") = None /\
  start_work db_project_a (String (ascii_of_nat 28) "1") "Task" false
             (at_ 2023 5 1 9 0) (at_ 2023 5 1 9 0)
  = (db_project_a, Ok ProjectNotFound).
Proof. split; reflexivity. Qed.

Example start_by_id :
  start_work db_numeric_name "1" "Task" false
             (at_ 2023 5 1 9 0) (at_ 2023 5 1 9 0)
  = (mkDatabase (projects db_numeric_name)
                [mk_entry_row 1 1 "Task" (at_ 2023 5 1 9 0) None] 1 1,
     Ok (StartedWork 1)).
Proof. reflexivity. Qed.

(** C5 fails at an entry that ends when it starts: no duration_hours,
    where the quotient is 0.0. *)
Theorem zero_length_entry_has_no_hours :
  let e := mkWorkEntry (Some 1) 1 "Task" (Some (at_ 2023 5 1 9 0))
                       (Some (at_ 2023 5 1 9 0)) in
  duration e = Some (mktimedelta 0 0 0) /\
  (total_seconds (mktimedelta 0 0 0) / 3600 == 0)%Q /\
  duration_hours e = None.
Proof. repeat split. Qed.

Example two_hours :
  exists h,
    duration_hours (mkWorkEntry (Some 1) 1 "Task" (Some (at_ 2023 5 1 9 0))
                                (Some (at_ 2023 5 1 11 0))) = Some h /\
    (h == 2)%Q.
Proof. eexists. split; reflexivity. Qed.

(** C3 fails in the week of 2023-05-01 for the task from Sunday 23:00 to
    Monday 01:00: the week query returns it, its two hours are in the
    project total and in the grand total, and no day column holds them. *)
Theorem week_total_beyond_day_columns :
  exists row table,
    _show_week_report db_overnight (mkdate 2023 5 3) = Ok (WeekReport table) /\
    wt_rows table = [row] /\
    wr_days row = [None; None; None; None; None; None; None] /\
    (sum_cells (wr_days row) == 0)%Q /\
    (wr_total row == 2)%Q /\
    (wt_total_hours table == 2)%Q.
Proof.
  eexists _, _. split; [vm_compute; reflexivity|]. repeat split.
Qed.

(** The project is billed hourly at 100, its only entry of the week is
    still open, and the weekly report prints no billing line for it. *)
Lemma no_billing_line_without_hours :
  exists row table,
    _show_week_report db_open (mkdate 2023 5 1) = Ok (WeekReport table) /\
    wt_rows table = [row] /\
    is_billed_hourly (wr_project row) = true /\
    hour_rate (wr_project row) = Some (mkDecimal 100) /\
    wt_billing table = [].
Proof.
  eexists _, _. split; [vm_compute; reflexivity|]. repeat split.
Qed.

Lemma report_billing_witness :
  exists s sections total,
    _show_day_report db_two_tasks (mkdate 2023 5 1)
    = Ok (DayReport sections total) /\
    In s sections /\
    ds_billing s
    = Some (Decimal_mul (Decimal_of_float (ds_total s)) (mkDecimal 100)).
Proof.
  destruct (report_billing db_two_tasks (mkdate 2023 5 1)) as [Hday _].
  eexists _, _, _. split; [vm_compute; reflexivity|].
  split; [left; reflexivity|].
  eapply Hday; [vm_compute; reflexivity|left; reflexivity| | |];
    reflexivity.
Defined.

(** C8 as stated fails: 9999-12-31 is a day, and the week query raises
    OverflowError for it, the Sunday of its week being past the last
    date. *)
Lemma last_week_overflows :
  valid_date (mkdate 9999 12 31) /\
  weekday (mkdate 9999 12 31) = 4 /\
  get_entries_for_week empty_db (mkdate 9999 12 31) = Raise OverflowError.
Proof. split; [by_computation|]. split; reflexivity. Qed.

Lemma week_query_bounds_witness :
  exists mon sun,
    valid_date mon /\ valid_date sun /\
    weekday mon = 0 /\ weekday sun = 6 /\
    toordinal sun = toordinal mon + 6 /\
    toordinal mon <= toordinal (mkdate 2023 5 3) <= toordinal sun /\
    get_entries_for_week db_task (mkdate 2023 5 3)
    = Ok (rows_to_results
            (select_overlapping db_task
               (isoformat (mkdatetime mon 0 0 0 0))
               (isoformat (mkdatetime sun 23 59 59 999999)))).
Proof.
  apply (week_query_bounds db_task (mkdate 2023 5 3)); by_computation.
Defined.

Example week_of_2023_05_03 :
  week_of (mkdate 2023 5 3) = Ok (mkdate 2023 5 1, mkdate 2023 5 7).
Proof. reflexivity. Qed.

(* ================================================================= *)
(** ** The schema's guarantees are kept *)

Lemma empty_db_wf : db_wf empty_db.
Proof.
  constructor; simpl; try constructor; try lia; intros r [].
Qed.

Lemma find_app_fresh {A : Type} (f : A -> bool) (l : list A) (x : A) :
  (forall y, In y l -> f y = false) -> find f (l ++ [x]) = find f [x].
Proof.
  induction l as [|y l IH]; intros H; [reflexivity|]. simpl.
  rewrite (H y (or_introl eq_refl)). apply IH. intros z Hz. apply H. now right.
Qed.

Lemma existsb_false_forall {A : Type} (f : A -> bool) (l : list A) :
  existsb f l = false -> forall x, In x l -> f x = false.
Proof.
  intros H x Hx. destruct (f x) eqn:E; [|reflexivity].
  assert (existsb f l = true) by (apply existsb_exists; eauto). congruence.
Qed.

Lemma existsb_const_false {A : Type} (l : list A) :
  existsb (fun _ => false) l = false.
Proof. induction l; simpl; auto. Qed.

Lemma NoDup_map_snoc {A B : Type} (f : A -> B) (l : list A) (x : A) :
  NoDup (map f l) -> ~ In (f x) (map f l) -> NoDup (map f (l ++ [x])).
Proof.
  intros Hnd Hx. rewrite map_app. simpl. apply NoDup_app.
  - exact Hnd.
  - repeat constructor. intros [].
  - intros y Hy [<-|[]]. contradiction.
Qed.

(** A WHERE clause keeps the values of a key column apart. *)
Lemma NoDup_map_filter {Row Key : Type} (key : Row -> Key)
    (keep : Row -> bool) (rows : list Row) :
  NoDup (map key rows) -> NoDup (map key (filter keep rows)).
Proof.
  intros Hnd. induction rows as [|x rows IH]; [constructor|].
  cbn [map] in Hnd. inversion Hnd as [|? ? Hx Hrows]; subst. cbn [filter].
  destruct (keep x); [|now apply IH]. cbn [map]. constructor; [|now apply IH].
  rewrite in_map_iff. intros (y & Hy & Hin). apply filter_In in Hin.
  apply Hx. rewrite in_map_iff. exists y. tauto.
Qed.

(** Renaming the one row with id [i] keeps the names apart when no other
    row holds the new name. *)
Lemma NoDup_names_update (i : Z) (nm : string) (b : Z) (rt : option Q)
    (l : list project_row) :
  NoDup (map r_id l) -> NoDup (map r_name l) ->
  (forall r, In r l -> r_id r <> i -> r_name r <> nm) ->
  NoDup (map r_name
           (map (fun r => if r_id r =? i then mk_project_row (r_id r) nm b rt
                          else r) l)).
Proof.
  induction l as [|x l IH]; simpl; intros Hids Hnames Hfree; [constructor|].
  inversion Hids as [|? ? Hxi Hli]; subst.
  inversion Hnames as [|? ? Hxn Hln]; subst.
  assert (IHl := IH Hli Hln (fun r Hr => Hfree r (or_intror Hr))).
  constructor; [|exact IHl].
  rewrite map_map. intros Hin. apply in_map_iff in Hin.
  destruct Hin as (y & Hy & Hin).
  destruct (Z.eqb_spec (r_id x) i) as [Ex|Ex];
    destruct (Z.eqb_spec (r_id y) i) as [Ey|Ey]; simpl in Hy.
  - apply Hxi. apply in_map_iff. exists y. split; [congruence|exact Hin].
  - apply (Hfree y (or_intror Hin) Ey). exact Hy.
  - apply (Hfree x (or_introl eq_refl) Ex). congruence.
  - apply Hxn. apply in_map_iff. exists y. auto.
Qed.

Section Preservation.

Variable db : Database.
Hypothesis Hwf : db_wf db.

Lemma create_project_wf (project : Project) (db' : Database) (i : Z) :
  create_project db project = Ok (db', i) ->
  db_wf db' /\ i = projects_seq db + 1 /\
  projects db' = projects db
                 ++ [mk_project_row i (name project)
                       (if is_billed_hourly project then 1 else 0)
                       (option_map float_of_Decimal (hour_rate project))] /\
  work_entries db' = work_entries db.
Proof.
  unfold create_project.
  destruct (existsb _ (projects db)) eqn:E; [discriminate|].
  intros [= <- <-]. split; [|repeat split; lia].
  destruct Hwf as [Hids Hnames Hseq Hseq0 Heids Heseq Heseq0].
  constructor; simpl; try assumption; try lia.
  - apply NoDup_map_snoc; [assumption|]. simpl. intros Hin.
    apply in_map_iff in Hin. destruct Hin as (r & Hr & Hin).
    specialize (Hseq r Hin). lia.
  - apply NoDup_map_snoc; [assumption|]. simpl. intros Hin.
    apply in_map_iff in Hin. destruct Hin as (r & Hr & Hin).
    apply (existsb_false_forall _ _ E) in Hin. simpl in Hin.
    rewrite Hr, String.eqb_refl in Hin. discriminate.
  - intros r H. apply in_app_or in H. destruct H as [H|[<-|[]]]; simpl; [|lia].
    specialize (Hseq r H). lia.
Qed.

Lemma delete_project_wf (i : Z) : db_wf (fst (delete_project db i)).
Proof.
  destruct Hwf as [Hids Hnames Hseq Hseq0 Heids Heseq Heseq0].
  constructor; simpl; try assumption.
  - now apply NoDup_map_filter.
  - now apply NoDup_map_filter.
  - intros r Hr. apply filter_In in Hr. now apply Hseq.
Qed.

Lemma update_project_wf (project : Project) (db' : Database) (b : bool) :
  update_project db project = Ok (db', b) -> db_wf db'.
Proof.
  unfold update_project.
  destruct (existsb _ (projects db)) eqn:Ehit; [|intros [= <- _]; exact Hwf].
  destruct (existsb (fun r => negb _ && _) (projects db)) eqn:Eclash;
    [discriminate|].
  intros [= <- _].
  destruct (p_id project) as [i|]; [|now rewrite existsb_const_false in Ehit].
  destruct Hwf as [Hids Hnames Hseq Hseq0 Heids Heseq Heseq0].
  constructor; simpl; try assumption.
  - rewrite map_map. erewrite map_ext; [exact Hids|].
    intros r. now destruct (r_id r =? i).
  - apply NoDup_names_update; try assumption.
    intros r Hr Hne Hnm.
    apply (existsb_false_forall _ _ Eclash) in Hr. simpl in Hr.
    apply Z.eqb_neq in Hne. rewrite Hne, Hnm, String.eqb_refl in Hr.
    discriminate.
  - intros r Hr. apply in_map_iff in Hr. destruct Hr as (r0 & <- & Hr0).
    specialize (Hseq r0 Hr0). now destruct (r_id r0 =? i).
Qed.

Lemma create_work_entry_wf (entry : WorkEntry) (db' : Database) (i : Z) :
  create_work_entry db entry = Ok (db', i) ->
  db_wf db' /\ i = work_entries_seq db + 1.
Proof.
  unfold create_work_entry. destruct (start_time entry) as [st|]; [|discriminate].
  intros [= <- <-]. split; [|reflexivity].
  destruct Hwf as [Hids Hnames Hseq Hseq0 Heids Heseq Heseq0].
  constructor; simpl; try assumption; try lia.
  - apply NoDup_map_snoc; [assumption|]. simpl. intros Hin.
    apply in_map_iff in Hin. destruct Hin as (r & Hr & Hin).
    specialize (Heseq r Hin). lia.
  - intros r H. apply in_app_or in H. destruct H as [H|[<-|[]]]; simpl; [|lia].
    specialize (Heseq r H). lia.
Qed.

Lemma update_work_entry_wf (entry : WorkEntry) (db' : Database) (b : bool) :
  update_work_entry db entry = Ok (db', b) -> db_wf db'.
Proof.
  unfold update_work_entry.
  destruct (existsb _ (work_entries db)); [|intros [= <- _]; exact Hwf].
  destruct (start_time entry) as [st|]; [|discriminate].
  intros [= <- _].
  destruct Hwf as [Hids Hnames Hseq Hseq0 Heids Heseq Heseq0].
  constructor; simpl; try assumption.
  - rewrite map_map. erewrite map_ext; [exact Heids|].
    intros r. now destruct (match e_id entry with Some i => w_id r =? i | None => false end).
  - intros r Hr. apply in_map_iff in Hr. destruct Hr as (r0 & <- & Hr0).
    specialize (Heseq r0 Hr0).
    now destruct (match e_id entry with Some i => w_id r0 =? i | None => false end).
Qed.

Lemma delete_work_entry_wf (i : Z) : db_wf (fst (delete_work_entry db i)).
Proof.
  destruct Hwf as [Hids Hnames Hseq Hseq0 Heids Heseq Heseq0].
  constructor; simpl; try assumption.
  - now apply NoDup_map_filter.
  - intros r Hr. apply filter_In in Hr. now apply Heseq.
Qed.

End Preservation.

Section Commands.

Variable db : Database.
Hypothesis Hwf : db_wf db.

Lemma add_project_wf (nm : string) (hourly : bool) (rate : option Q) :
  db_wf (fst (add_project db nm hourly rate)).
Proof.
  unfold add_project. destruct (get_project_by_name db nm); [exact Hwf|].
  destruct (create_project db _) as [[db' i]|] eqn:E; [|exact Hwf].
  exact (proj1 (create_project_wf db Hwf _ _ _ E)).
Qed.

Lemma cli_update_project_wf (id : Z) (nm : option string) (hourly : option bool)
    (rate : option Q) :
  db_wf (fst (Cli.update_project db id nm hourly rate)).
Proof.
  unfold Cli.update_project. destruct (get_project db id); [|exact Hwf].
  destruct (update_project db _) as [[db' b]|] eqn:E; [|exact Hwf].
  pose proof (update_project_wf db Hwf _ _ _ E). now destruct b.
Qed.

Lemma cli_delete_project_wf (id : Z) (force confirm : bool) :
  db_wf (fst (Cli.delete_project db id force confirm)).
Proof.
  unfold Cli.delete_project. destruct (get_project db id); [|exact Hwf].
  destruct (negb force && negb confirm); [exact Hwf|].
  pose proof (delete_project_wf db Hwf id) as H.
  destruct (delete_project db id) as [db' b]. now destruct b.
Qed.

Lemma start_work_on_wf (project description : string) (now : datetime) :
  db_wf (fst (start_work_on db project description now)).
Proof.
  unfold start_work_on.
  destruct (match PyInt.int project with
            | Some project_id =>
                if sqlite_int project_id then Ok (get_project db project_id)
                else Raise OverflowError
            | None => Ok (get_project_by_name db project)
            end) as [[target|]|]; try exact Hwf.
  destruct (p_id target); [|exact Hwf].
  destruct (create_work_entry db _) as [[db' i]|] eqn:E; [|exact Hwf].
  exact (proj1 (create_work_entry_wf db Hwf _ _ _ E)).
Qed.

End Commands.

Lemma start_work_wf (db : Database) (project description : string)
    (stop_current : bool) (now_stop now_start : datetime) :
  db_wf db ->
  db_wf (fst (start_work db project description stop_current now_stop now_start)).
Proof.
  intros Hwf. unfold start_work.
  destruct (get_active_work_entry db) as [a|] eqn:Ha;
    [|now apply start_work_on_wf].
  destruct (get_project db (project_id a)); [|exact Hwf].
  destruct stop_current; [|exact Hwf].
  destruct (close_active db a now_stop Ha) as (db' & Hupd & _).
  rewrite Hupd. apply start_work_on_wf.
  exact (update_work_entry_wf db Hwf _ _ _ Hupd).
Qed.

Lemma stop_work_wf (db : Database) (now : datetime) :
  db_wf db -> db_wf (fst (stop_work db now)).
Proof.
  intros Hwf. unfold stop_work.
  destruct (get_active_work_entry db) as [a|] eqn:Ha; [|exact Hwf].
  destruct (close_active db a now Ha) as (db' & Hupd & _).
  rewrite Hupd. pose proof (update_work_entry_wf db Hwf _ _ _ Hupd) as H.
  destruct (get_project db' (project_id (set_end_time a now)));
    [destruct (start_time (set_end_time a now))|]; exact H.
Qed.

(** The project commands do not touch the work entries. *)
Lemma project_command_entries (db : Database) (c : Cli.command) :
  match c with
  | Cli.Start _ _ _ _ _ | Cli.Stop _ => True
  | _ => work_entries (Cli.run db c) = work_entries db
  end.
Proof.
  destruct c; simpl; try exact I.
  - unfold add_project. destruct (get_project_by_name db nm); [reflexivity|].
    unfold create_project. destruct (existsb _ (projects db)); reflexivity.
  - unfold Cli.update_project. destruct (get_project db id); [|reflexivity].
    unfold update_project. cbn [p_id name].
    destruct (existsb _ (projects db)); [|reflexivity].
    destruct (existsb _ (projects db)); reflexivity.
  - unfold Cli.delete_project. destruct (get_project db id); [|reflexivity].
    destruct (negb force && negb confirm); [reflexivity|].
    unfold delete_project. now destruct (existsb _ (projects db)).
Qed.

Lemma run_invariant (db : Database) (c : Cli.command) :
  db_wf db /\ (active_count db <= 1)%nat ->
  db_wf (Cli.run db c) /\ (active_count (Cli.run db c) <= 1)%nat.
Proof.
  intros [Hwf Hact]. split.
  - destruct c; simpl.
    + now apply add_project_wf.
    + now apply cli_update_project_wf.
    + now apply cli_delete_project_wf.
    + now apply start_work_wf.
    + now apply stop_work_wf.
  - pose proof (project_command_entries db c) as He.
    destruct c; unfold active_count in *; try (rewrite He; exact Hact).
    + now apply start_work_preserves.
    + now apply stop_work_preserves.
Qed.

(** X2.  However the commands follow one another from a new database, ids and
    project names stay unique and at most one work entry is open. *)
Theorem commands_keep_schema_and_single_session (cs : list Cli.command) :
  db_wf (Cli.run_all empty_db cs) /\
  (active_count (Cli.run_all empty_db cs) <= 1)%nat.
Proof.
  unfold Cli.run_all.
  assert (H : forall db, db_wf db /\ (active_count db <= 1)%nat ->
                         db_wf (fold_left Cli.run cs db) /\
                         (active_count (fold_left Cli.run cs db) <= 1)%nat).
  { induction cs as [|c cs IH]; intros db Hdb; [exact Hdb|].
    simpl. apply IH. now apply run_invariant. }
  apply H. split; [exact empty_db_wf|]. unfold active_count. simpl. lia.
Qed.

(* ================================================================= *)
(** ** Storage: writing and reading back *)

Lemma find_app {A : Type} (f : A -> bool) (l l' : list A) :
  find f (l ++ l') = match find f l with Some a => Some a | None => find f l' end.
Proof.
  induction l as [|x l IH]; simpl; [reflexivity|]. now destruct (f x).
Qed.


Lemma find_by_id_unique (l : list project_row) (row : project_row) :
  NoDup (map r_id l) -> In row l ->
  find (fun r => r_id r =? r_id row) l = Some row.
Proof.
  induction l as [|x l IH]; simpl; intros Hnd Hin; [destruct Hin|].
  inversion Hnd as [|? ? Hx Hl]; subst.
  destruct Hin as [->|Hin]; [now rewrite Z.eqb_refl|].
  destruct (Z.eqb_spec (r_id x) (r_id row)) as [E|E]; [|auto].
  exfalso. apply Hx. rewrite E. now apply in_map.
Qed.


(** X4.  A work entry that was created is read back under its new id as it was
    written; when it has no end_time and no entry was open, it is the active
    entry. *)
Theorem create_work_entry_then_get (db db' : Database) (entry : WorkEntry)
    (i : Z) :
  db_wf db ->
  create_work_entry db entry = Ok (db', i) ->
  let stored := mkWorkEntry (Some i) (project_id entry) (description entry)
                            (start_time entry) (end_time entry) in
  get_work_entry db' i = Some stored /\
  get_work_entry db i = None /\
  (forall j, j <> i -> get_work_entry db' j = get_work_entry db j) /\
  (active_count db = 0%nat -> end_time entry = None ->
   get_active_work_entry db' = Some stored) /\
  (end_time entry <> None ->
   get_active_work_entry db' = get_active_work_entry db).
Proof.
  intros Hwf Hc stored. unfold create_work_entry in Hc.
  destruct (start_time entry) as [st|] eqn:Est; [|discriminate].
  injection Hc as <- <-.
  assert (Hfresh : forall r, In r (work_entries db) ->
                             (w_id r =? work_entries_seq db + 1) = false).
  { intros r Hr. apply Z.eqb_neq. pose proof (wf_entry_seq db Hwf r Hr). lia. }
  unfold get_work_entry. rewrite !get_active_work_entry_find. simpl.
  unfold stored. repeat split.
  - rewrite (find_app_fresh _ _ _ Hfresh). simpl. now rewrite Z.eqb_refl.
  - now rewrite (proj2 (find_none_iff _ _) Hfresh).
  - intros j Hj. rewrite find_app. simpl.
    replace (work_entries_seq db + 1 =? j) with false
      by (symmetry; apply Z.eqb_neq; lia).
    now destruct (find _ (work_entries db)).
  - intros Hidle Hopen. rewrite find_app.
    apply get_active_none_iff in Hidle.
    rewrite get_active_work_entry_find in Hidle.
    destruct (find is_active (work_entries db)); [discriminate|].
    simpl. unfold is_active. simpl. rewrite Hopen. reflexivity.
  - intros Hclosed. rewrite find_app.
    destruct (find is_active (work_entries db)); [reflexivity|].
    simpl. unfold is_active. simpl. now destruct (end_time entry).
Qed.

Lemma find_map_same_key {A : Type} (key : A -> Z) (upd : A -> A) (j : Z)
    (l : list A) :
  (forall r, key (upd r) = key r) ->
  find (fun r => key r =? j) (map upd l)
  = option_map upd (find (fun r => key r =? j) l).
Proof.
  intros Hk. induction l as [|x l IH]; simpl; [reflexivity|].
  rewrite Hk. now destruct (key x =? j).
Qed.

Lemma find_filter_other {A : Type} (key : A -> Z) (i j : Z) (l : list A) :
  j <> i ->
  find (fun r => key r =? j) (filter (fun r => negb (key r =? i)) l)
  = find (fun r => key r =? j) l.
Proof.
  intros Hne. induction l as [|x l IH]; simpl; [reflexivity|].
  destruct (Z.eqb_spec (key x) i) as [E|E]; simpl.
  - replace (key x =? j) with false by (symmetry; apply Z.eqb_neq; lia).
    exact IH.
  - now rewrite IH.
Qed.

Lemma find_filter_same {A : Type} (key : A -> Z) (i : Z) (l : list A) :
  find (fun r => key r =? i) (filter (fun r => negb (key r =? i)) l) = None.
Proof.
  apply find_none_iff. intros x Hx. apply filter_In in Hx.
  destruct Hx as [_ Hx]. now apply negb_true_iff in Hx.
Qed.

(** X5.  Updating a stored entry and reading it back gives the entry that was
    written, the other entries read as before; for an id that is not stored
    the update answers False and changes nothing. *)
Theorem update_work_entry_then_get (db : Database) (entry : WorkEntry) (i : Z) :
  e_id entry = Some i ->
  (get_work_entry db i = None -> update_work_entry db entry = Ok (db, false)) /\
  (forall db' b,
      update_work_entry db entry = Ok (db', b) ->
      get_work_entry db i <> None ->
      b = true /\
      get_work_entry db' i = Some entry /\
      (forall j, j <> i -> get_work_entry db' j = get_work_entry db j) /\
      projects db' = projects db).
Proof.
  intros Hid. unfold update_work_entry, get_work_entry. rewrite Hid. split.
  - intros Hnone.
    destruct (find (fun r => w_id r =? i) (work_entries db)) eqn:E;
      [discriminate|].
    replace (existsb (fun r => w_id r =? i) (work_entries db)) with false;
      [reflexivity|].
    symmetry. destruct (existsb _ (work_entries db)) eqn:Ex; [|reflexivity].
    apply existsb_exists in Ex. destruct Ex as (r & Hr & Hri).
    apply (find_none _ _ E) in Hr. simpl in Hr. congruence.
  - intros db' b Hupd Hsome.
    destruct (find (fun r => w_id r =? i) (work_entries db)) as [r0|] eqn:E;
      [|exfalso; apply Hsome; reflexivity].
    destruct (find_some _ _ E) as [Hin Hr0].
    assert (Hex : existsb (fun r => w_id r =? i) (work_entries db) = true)
      by (apply existsb_exists; eauto).
    rewrite Hex in Hupd.
    destruct (start_time entry) as [st|] eqn:Est; [|discriminate].
    injection Hupd as <- <-. simpl. repeat split.
    + rewrite (find_map_same_key w_id) by (intros r; now destruct (w_id r =? i)).
      rewrite E. simpl. rewrite Hr0. apply Z.eqb_eq in Hr0.
      destruct entry; simpl in *. unfold entry_of_row. simpl. congruence.
    + intros j Hj.
      rewrite (find_map_same_key w_id) by (intros r; now destruct (w_id r =? i)).
      destruct (find (fun r => w_id r =? j) (work_entries db)) as [r|] eqn:Ej;
        [|reflexivity].
      simpl. destruct (find_some _ _ Ej) as [_ Hrj]. apply Z.eqb_eq in Hrj.
      replace (w_id r =? i) with false by (symmetry; apply Z.eqb_neq; lia).
      reflexivity.
Qed.

(** X6.  Deleting a work entry: it is no longer read, the others are; the
    answer tells whether a row was there. *)
Theorem delete_work_entry_then_get (db : Database) (i : Z) :
  let r := delete_work_entry db i in
  get_work_entry (fst r) i = None /\
  (snd r = true <-> get_work_entry db i <> None) /\
  (forall j, j <> i -> get_work_entry (fst r) j = get_work_entry db j) /\
  (active_count (fst r) <= active_count db)%nat.
Proof.
  unfold delete_work_entry, get_work_entry. simpl. repeat split.
  - now rewrite (find_filter_same w_id).
  - intros Hex. apply existsb_exists in Hex. destruct Hex as (r & Hr & Hri).
    destruct (find (fun r0 => w_id r0 =? i) (work_entries db)) eqn:E;
      [discriminate|].
    apply (find_none _ _ E) in Hr. simpl in Hr. congruence.
  - intros Hsome.
    destruct (find (fun r0 => w_id r0 =? i) (work_entries db)) as [r|] eqn:E;
      [|exfalso; apply Hsome; reflexivity].
    apply existsb_exists. exists r. exact (find_some _ _ E).
  - intros j Hj. now rewrite (find_filter_other w_id).
  - unfold active_count. simpl.
    induction (work_entries db) as [|x l IH]; simpl; [lia|].
    destruct (negb (w_id x =? i)); simpl; destruct (is_active x); simpl; lia.
Qed.

(** X7.  Deleting a project leaves its work entries stored, and from then on
    no day or week query returns them. *)
Theorem delete_project_hides_entries (db : Database) (i : Z) (d : date) :
  let db' := fst (delete_project db i) in
  get_project db' i = None /\
  (forall j, j <> i -> get_project db' j = get_project db j) /\
  work_entries db' = work_entries db /\
  (forall ep, In ep (get_entries_for_day db' d) -> project_id (fst ep) <> i) /\
  (forall results ep,
      get_entries_for_week db' d = Ok results -> In ep results ->
      project_id (fst ep) <> i).
Proof.
  intros db'.
  assert (Hsel : forall lo hi ep,
             In ep (rows_to_results (select_overlapping db' lo hi)) ->
             project_id (fst ep) <> i).
  { intros lo hi ep Hin. unfold rows_to_results in Hin.
    apply in_map_iff in Hin. destruct Hin as ([e p] & <- & Hin).
    apply in_select_overlapping in Hin. destruct Hin as [(_ & Hp & Hid) _].
    simpl. rewrite Hid. unfold db' in Hp. simpl in Hp.
    apply filter_In in Hp. destruct Hp as [_ Hp].
    apply negb_true_iff, Z.eqb_neq in Hp. exact Hp. }
  unfold get_project. repeat split.
  - unfold db'. simpl. now rewrite (find_filter_same r_id).
  - intros j Hj. unfold db'. simpl. now rewrite (find_filter_other r_id).
  - intros ep. apply Hsel.
  - intros results ep Hw. unfold get_entries_for_week in Hw.
    destruct (week_of d); [|discriminate]. injection Hw as <-. apply Hsel.
Qed.

Lemma selected_pairs_are_joined (db : Database) (lo hi : string)
    (ep : WorkEntry * Project) :
  db_wf db ->
  In ep (rows_to_results (select_overlapping db lo hi)) ->
  (exists i,
      e_id (fst ep) = Some i /\ get_work_entry db i = Some (fst ep) /\
      p_id (snd ep) = Some i) /\
  (exists stored,
      get_project db (project_id (fst ep)) = Some stored /\
      p_id stored = Some (project_id (fst ep)) /\
      name (snd ep) = name stored /\
      is_billed_hourly (snd ep) = is_billed_hourly stored /\
      hour_rate (snd ep) = hour_rate stored) /\
  start_time (fst ep) <> None.
Proof.
  intros Hwf Hin. unfold rows_to_results in Hin. apply in_map_iff in Hin.
  destruct Hin as ([e p] & <- & Hin). apply in_select_overlapping in Hin.
  destruct Hin as [(He & Hp & Hid) _]. cbn [fst snd]. split; [|split].
  - exists (w_id e). split; [reflexivity|]. split; [|reflexivity].
    unfold get_work_entry.
    assert (Hf : find (fun r => w_id r =? w_id e) (work_entries db) = Some e).
    { pose proof (wf_entry_ids db Hwf) as Hnd. clear -Hnd He.
      induction (work_entries db) as [|x l IH]; simpl in *; [destruct He|].
      inversion Hnd as [|? ? Hx Hl]; subst.
      destruct He as [->|He]; [now rewrite Z.eqb_refl|].
      destruct (Z.eqb_spec (w_id x) (w_id e)) as [E|E]; [|auto].
      exfalso. apply Hx. rewrite E. now apply in_map. }
    now rewrite Hf.
  - exists (_create_project_from_row p). unfold get_project.
    cbn [entry_of_row project_id]. rewrite Hid.
    rewrite (find_by_id_unique _ p (wf_project_ids db Hwf) Hp).
    repeat split.
  - discriminate.
Qed.

(** X8.  What a returned pair holds: the entry is a stored row, read back
    with its id and its start_time; the Project beside it has the name, the
    billing flag and the rate of the stored project that the entry's
    project_id names, and as its id the id of the entry. *)
Theorem returned_pairs_are_joined (db : Database) (d : date)
    (ep : WorkEntry * Project) :
  db_wf db ->
  In ep (get_entries_for_day db d) \/
  (exists results, get_entries_for_week db d = Ok results /\ In ep results) ->
  (exists i,
      e_id (fst ep) = Some i /\ get_work_entry db i = Some (fst ep) /\
      p_id (snd ep) = Some i) /\
  (exists stored,
      get_project db (project_id (fst ep)) = Some stored /\
      p_id stored = Some (project_id (fst ep)) /\
      name (snd ep) = name stored /\
      is_billed_hourly (snd ep) = is_billed_hourly stored /\
      hour_rate (snd ep) = hour_rate stored) /\
  start_time (fst ep) <> None.
Proof.
  intros Hwf [Hday | (results & Hw & Hin)].
  - exact (selected_pairs_are_joined db _ _ ep Hwf Hday).
  - unfold get_entries_for_week in Hw.
    destruct (week_of d); [|discriminate]. injection Hw as <-.
    exact (selected_pairs_are_joined db _ _ ep Hwf Hin).
Qed.

(* ================================================================= *)
(** ** ORDER BY *)

Section InsertionSort.

Context {A : Type} (ltb : A -> A -> bool) (le : A -> A -> Prop) (P : A -> Prop).
Hypothesis le_trans : forall x y z, P x -> P y -> P z -> le x y -> le y z -> le x z.
Hypothesis ltb_le : forall x y, P x -> P y -> ltb x y = true -> le x y.
Hypothesis nltb_le : forall x y, P x -> P y -> ltb x y = false -> le y x.

Lemma insert_sorted_perm (x : A) (l : list A) :
  Permutation (insert_sorted ltb x l) (x :: l).
Proof.
  induction l as [|y l IH]; simpl; [reflexivity|].
  destruct (ltb x y); [reflexivity|].
  rewrite IH. apply perm_swap.
Qed.

Lemma insert_sorted_ascending (x : A) (l : list A) :
  P x -> Forall P l -> ascending le l -> ascending le (insert_sorted ltb x l).
Proof.
  intros Px. induction l as [|y l IH]; intros Hall Hasc; simpl.
  - split; [intros ? []|exact I].
  - inversion Hall as [|? ? Py Hl]; subst. destruct Hasc as [Hy Hasc].
    destruct (ltb x y) eqn:E.
    + split; [|split; assumption].
      intros z [<-|Hz]; [now apply ltb_le|].
      apply (le_trans x y z); auto;
        solve [exact (proj1 (Forall_forall _ _) Hl z Hz) | now apply ltb_le].
    + split; [|now apply IH].
      intros z Hz.
      apply (Permutation_in _ (insert_sorted_perm x l)) in Hz.
      destruct Hz as [<-|Hz]; [now apply nltb_le|now apply Hy].
Qed.

Lemma fold_insert_sorted (l acc : list A) :
  Forall P l -> Forall P acc -> ascending le acc ->
  let r := fold_left (fun acc x => insert_sorted ltb x acc) l acc in
  ascending le r /\ Permutation r (l ++ acc) /\ Forall P r.
Proof.
  revert acc. induction l as [|x l IH]; intros acc Hl Hacc Hasc; simpl.
  - repeat split; auto.
  - inversion Hl as [|? ? Px Hl']; subst.
    assert (Hins : Forall P (insert_sorted ltb x acc)).
    { apply Forall_forall. intros z Hz.
      apply (Permutation_in _ (insert_sorted_perm x acc)) in Hz.
      destruct Hz as [<-|Hz]; [exact Px|].
      exact (proj1 (Forall_forall _ _) Hacc z Hz). }
    destruct (IH (insert_sorted ltb x acc) Hl' Hins
                 (insert_sorted_ascending x acc Px Hacc Hasc)) as (Ha & Hp & Hf).
    repeat split; auto.
    rewrite Hp, (insert_sorted_perm x acc). symmetry. apply Permutation_middle.
Qed.

End InsertionSort.

Lemma ascending_map {A B : Type} (f : A -> B) (leA : A -> A -> Prop)
    (leB : B -> B -> Prop) (l : list A) :
  (forall x y, In x l -> In y l -> leA x y -> leB (f x) (f y)) ->
  ascending leA l -> ascending leB (map f l).
Proof.
  induction l as [|x l IH]; simpl; intros H Hasc; [exact I|].
  destruct Hasc as [Hx Hasc]. split.
  - intros y Hy. apply in_map_iff in Hy. destruct Hy as (z & <- & Hz).
    apply H; auto.
  - apply IH; auto.
Qed.

Lemma insert_by_start_sorted (x : entry_row * project_row)
    (l : list (entry_row * project_row)) :
  insert_by_start x l
  = insert_sorted
      (fun a b => String.ltb (isoformat (w_start_time (fst a)))
                             (isoformat (w_start_time (fst b)))) x l.
Proof. induction l as [|y l IH]; simpl; [reflexivity|]. now rewrite IH. Qed.

Lemma insert_by_name_sorted (x : project_row) (l : list project_row) :
  insert_by_name x l
  = insert_sorted (fun a b => String.ltb (r_name a) (r_name b)) x l.
Proof. induction l as [|y l IH]; simpl; [reflexivity|]. now rewrite IH. Qed.

Lemma lex_compare_trans (xs : list Z) :
  forall ys zs,
    lex_compare xs ys <> Gt -> lex_compare ys zs <> Gt ->
    lex_compare xs zs <> Gt.
Proof.
  induction xs as [|x xs IH]; intros [|y ys] [|z zs]; simpl; try congruence.
  destruct (Z.compare_spec x y) as [E1|L1|G1];
    destruct (Z.compare_spec y z) as [E2|L2|G2];
    destruct (Z.compare_spec x z) as [E3|L3|G3]; try congruence; try lia.
  apply IH.
Qed.

Lemma datetime_le_trans (a b c : datetime) :
  datetime_le a b -> datetime_le b c -> datetime_le a c.
Proof. apply lex_compare_trans. Qed.

Lemma string_compare_trans (a : string) :
  forall b c,
    String.compare a b <> Gt -> String.compare b c <> Gt ->
    String.compare a c <> Gt.
Proof.
  induction a as [|x a IH]; intros [|y b] [|z c]; simpl; try congruence.
  unfold Ascii.compare.
  destruct (N.compare_spec (N_of_ascii x) (N_of_ascii y)) as [E1|L1|G1];
    destruct (N.compare_spec (N_of_ascii y) (N_of_ascii z)) as [E2|L2|G2];
    destruct (N.compare_spec (N_of_ascii x) (N_of_ascii z)) as [E3|L3|G3];
    try congruence; try lia.
  apply IH.
Qed.

Lemma fold_left_eq {A B : Type} (f g : A -> B -> A) (l : list B) (a : A) :
  (forall a b, f a b = g a b) -> fold_left f l a = fold_left g l a.
Proof.
  intros H. revert a. induction l as [|b l IH]; intros a; simpl; [reflexivity|].
  now rewrite H, IH.
Qed.

Lemma leb_compare (a b : string) :
  String.leb a b = true <-> String.compare a b <> Gt.
Proof. unfold String.leb. destruct (String.compare a b); split; congruence. Qed.

(** X9.  The projects command lists every project once, in the byte order of
    the names. *)
Theorem get_all_projects_sorted (db : Database) :
  ascending name_le (get_all_projects db) /\
  Permutation (get_all_projects db)
              (map _create_project_from_row (projects db)).
Proof.
  unfold get_all_projects, order_by_name.
  rewrite (fold_left_eq _ (fun acc x =>
             insert_sorted (fun a b => String.ltb (r_name a) (r_name b)) x acc))
    by (intros; apply insert_by_name_sorted).
  destruct (fold_insert_sorted
              (fun a b => String.ltb (r_name a) (r_name b))
              (fun a b => String.leb (r_name a) (r_name b) = true)
              (fun _ => True)) with (l := projects db) (acc := @nil project_row)
    as (Hasc & Hperm & _).
  - intros x y z _ _ _. rewrite !leb_compare. apply string_compare_trans.
  - intros x y _ _. unfold String.ltb. rewrite leb_compare.
    destruct (String.compare (r_name x) (r_name y)); congruence.
  - intros x y _ _. unfold String.ltb. rewrite leb_compare.
    rewrite (String.compare_antisym (r_name y) (r_name x)).
    destruct (String.compare (r_name x) (r_name y)); simpl; congruence.
  - apply Forall_forall. auto.
  - constructor.
  - exact I.
  - split.
    + eapply ascending_map; [|exact Hasc]. intros x y _ _ H. exact H.
    + rewrite app_nil_r in Hperm. now apply Permutation_map.
Qed.

Section QueryOrder.

Variable db : Database.
Hypothesis Hvalid : db_valid db.

Lemma select_overlapping_sorted (lo hi : string) :
  ascending (fun a b => datetime_le (w_start_time (fst a)) (w_start_time (fst b)))
            (select_overlapping db lo hi) /\
  Permutation (select_overlapping db lo hi)
              (filter (fun ep => Sql.holds (overlap_where lo hi (fst ep)))
                      (join_entries_projects db)).
Proof.
  unfold select_overlapping, order_by_start_time.
  set (rows := filter _ (join_entries_projects db)).
  rewrite (fold_left_eq _ (fun acc x =>
             insert_sorted
               (fun a b => String.ltb (isoformat (w_start_time (fst a)))
                                      (isoformat (w_start_time (fst b)))) x acc))
    by (intros; apply insert_by_start_sorted).
  destruct (fold_insert_sorted
              (fun a b => String.ltb (isoformat (w_start_time (fst a)))
                                     (isoformat (w_start_time (fst b))))
              (fun a b => datetime_le (w_start_time (fst a)) (w_start_time (fst b)))
              (fun ep : entry_row * project_row => valid_row (fst ep)))
    with (l := rows) (acc := @nil (entry_row * project_row))
    as (Hasc & Hperm & _).
  - intros x y z _ _ _. apply datetime_le_trans.
  - intros x y [Vx _] [Vy _]. unfold String.ltb, datetime_le.
    rewrite (isoformat_compare _ _ Vx Vy).
    destruct (datetime_compare _ _); congruence.
  - intros x y [Vx _] [Vy _]. unfold String.ltb, datetime_le.
    rewrite (isoformat_compare _ _ Vx Vy).
    rewrite (datetime_compare_antisym (w_start_time (fst y))).
    destruct (datetime_compare _ _); simpl; congruence.
  - apply Forall_forall. intros [e p] Hin. unfold rows in Hin.
    apply filter_In in Hin. destruct Hin as [Hin _].
    apply in_join_entries_projects in Hin. apply Hvalid. tauto.
  - constructor.
  - exact I.
  - split; [exact Hasc|]. now rewrite app_nil_r in Hperm.
Qed.

Lemma results_sorted (lo hi : string) :
  ascending starts_le (rows_to_results (select_overlapping db lo hi)).
Proof.
  unfold rows_to_results.
  eapply ascending_map; [|exact (proj1 (select_overlapping_sorted lo hi))].
  intros x y _ _ H. exact H.
Qed.

End QueryOrder.

(** X10.  ORDER BY e.start_time: the day query and the week query return their
    entries with ascending start_time. *)
Theorem query_results_ascending (db : Database) (d : date) :
  db_valid db ->
  ascending starts_le (get_entries_for_day db d) /\
  (forall results,
      get_entries_for_week db d = Ok results -> ascending starts_le results).
Proof.
  intros Hvalid. split.
  - now apply results_sorted.
  - intros results Hw. unfold get_entries_for_week in Hw.
    destruct (week_of d); [|discriminate]. injection Hw as <-.
    now apply results_sorted.
Qed.

(* ================================================================= *)
(** ** No entry is returned twice *)

Lemma filter_unique_id (k : Z) (l : list project_row) :
  NoDup (map r_id l) ->
  (List.length (filter (fun p => (k =? r_id p)%Z) l) <= 1)%nat.
Proof.
  induction l as [|p l IH]; simpl; intros Hnd; [lia|].
  inversion Hnd as [|? ? Hp Hl]; subst.
  destruct (Z.eqb_spec k (r_id p)) as [E|E]; [|auto]. simpl.
  replace (filter (fun p0 => k =? r_id p0) l) with (@nil project_row);
    [simpl; lia|].
  symmetry. clear -Hp E. induction l as [|q l IH]; simpl in *; [reflexivity|].
  destruct (Z.eqb_spec k (r_id q)) as [E'|E'].
  - exfalso. apply Hp. left. congruence.
  - apply IH. intros H. apply Hp. now right.
Qed.

Lemma join_entry_ids (db : Database) :
  db_wf db -> NoDup (map (fun ep => w_id (fst ep)) (join_entries_projects db)).
Proof.
  intros Hwf. pose proof (wf_entry_ids db Hwf) as Hnd.
  pose proof (wf_project_ids db Hwf) as Hp.
  unfold join_entries_projects.
  induction (work_entries db) as [|e l IH]; simpl in *; [constructor|].
  inversion Hnd as [|? ? He Hl]; subst. rewrite map_app, map_map. cbn [fst].
  pose proof (filter_unique_id (w_project_id e) (projects db) Hp) as Hlen.
  destruct (filter (fun p => w_project_id e =? r_id p) (projects db))
    as [|p [|q ps]]; simpl in *; [now apply IH| |lia].
  constructor; [|now apply IH].
  intros Hin. apply He. apply in_map_iff in Hin.
  destruct Hin as ([e' p'] & Hid & Hin). apply in_flat_map in Hin.
  destruct Hin as (e0 & He0 & Hin). apply in_map_iff in Hin.
  destruct Hin as (p0 & [= <- <-] & _). simpl in Hid. rewrite <- Hid.
  now apply in_map.
Qed.

Lemma order_by_start_time_perm (l : list (entry_row * project_row)) :
  Permutation (order_by_start_time l) l.
Proof.
  unfold order_by_start_time.
  rewrite (fold_left_eq _ (fun acc x =>
             insert_sorted
               (fun a b => String.ltb (isoformat (w_start_time (fst a)))
                                      (isoformat (w_start_time (fst b)))) x acc))
    by (intros; apply insert_by_start_sorted).
  destruct (fold_insert_sorted
              (fun a b => String.ltb (isoformat (w_start_time (fst a)))
                                     (isoformat (w_start_time (fst b))))
              (fun _ _ => True) (fun _ : entry_row * project_row => True))
    with (l := l) (acc := @nil (entry_row * project_row))
    as (_ & Hperm & _); auto.
  - apply Forall_forall. auto.
  - exact I.
  - now rewrite app_nil_r in Hperm.
Qed.

Lemma NoDup_map_Some {A : Type} (l : list A) : NoDup l -> NoDup (map Some l).
Proof.
  induction 1 as [|x l Hx _ IH]; simpl; constructor; [|exact IH].
  intros Hin. apply in_map_iff in Hin. destruct Hin as (y & [= ->] & Hy).
  contradiction.
Qed.

Lemma selected_entry_ids (db : Database) (lo hi : string) :
  db_wf db ->
  NoDup (map (fun ep => e_id (fst ep))
             (rows_to_results (select_overlapping db lo hi))).
Proof.
  intros Hwf. unfold rows_to_results. rewrite map_map. cbn [fst entry_of_row e_id].
  rewrite <- (map_map (fun ep => w_id (fst ep)) Some).
  apply NoDup_map_Some. unfold select_overlapping.
  eapply Permutation_NoDup;
    [apply Permutation_map; symmetry; apply order_by_start_time_perm|].
  apply NoDup_map_filter. now apply join_entry_ids.
Qed.

(** X11.  Under the schema's keys no stored entry appears twice in the result
    of a day or week query, so that no report counts an entry twice. *)
Theorem query_returns_each_entry_once (db : Database) (d : date) :
  db_wf db ->
  NoDup (map (fun ep => e_id (fst ep)) (get_entries_for_day db d)) /\
  (forall results,
      get_entries_for_week db d = Ok results ->
      NoDup (map (fun ep => e_id (fst ep)) results)).
Proof.
  intros Hwf. split.
  - now apply selected_entry_ids.
  - intros results Hw. unfold get_entries_for_week in Hw.
    destruct (week_of d); [|discriminate]. injection Hw as <-.
    now apply selected_entry_ids.
Qed.

(* ================================================================= *)
(** ** Datetimes in microseconds *)

Section TimeLine.

Lemma toordinal_month (d1 d2 : date) :
  valid_date d1 -> valid_date d2 -> year d1 = year d2 -> month d1 < month d2 ->
  toordinal d1 < toordinal d2.
Proof.
  destruct d1 as [y1 m1 dd1], d2 as [y2 m2 dd2]. simpl.
  intros (_ & Hm1 & Hd1) (_ & Hm2 & Hd2) <- Hlt.
  unfold toordinal, _ymd2ord, _days_before_month, _days_in_month in *.
  simpl in *.
  destruct (_is_leap y1);
    destruct (month_cases _ Hm1) as
      [E|[E|[E|[E|[E|[E|[E|[E|[E|[E|[E|E]]]]]]]]]]];
    destruct (month_cases _ Hm2) as
      [F|[F|[F|[F|[F|[F|[F|[F|[F|[F|[F|F]]]]]]]]]]];
    rewrite E, F in *;
    cbv [_DAYS_BEFORE_MONTH _DAYS_IN_MONTH Z.ltb Z.eqb Z.compare Pos.compare
         Pos.compare_cont Pos.eqb andb] in *; lia.
Qed.

(** Dates compare as their ordinals do. *)
Lemma date_compare_ordinal (d1 d2 : date) :
  valid_date d1 -> valid_date d2 ->
  lex_compare [year d1; month d1; day d1] [year d2; month d2; day d2]
  = (toordinal d1 ?= toordinal d2).
Proof.
  intros V1 V2. simpl. symmetry.
  destruct (Z.compare_spec (year d1) (year d2)) as [Ey|Ly|Gy].
  - destruct (Z.compare_spec (month d1) (month d2)) as [Em|Lm|Gm].
    + unfold toordinal, _ymd2ord. rewrite Ey, Em.
      destruct (Z.compare_spec (day d1) (day d2));
        [apply Z.compare_eq_iff|apply Z.compare_lt_iff|apply Z.compare_gt_iff];
        lia.
    + apply Z.compare_lt_iff. now apply toordinal_month.
    + apply Z.compare_gt_iff. apply toordinal_month; auto.
  - apply Z.compare_lt_iff. now apply toordinal_year.
  - apply Z.compare_gt_iff. apply toordinal_year; auto; lia.
Qed.

(** Datetimes compare as their microseconds do. *)
Lemma datetime_compare_microseconds (a b : datetime) :
  valid_datetime a -> valid_datetime b ->
  datetime_compare a b = (to_microseconds a ?= to_microseconds b).
Proof.
  intros (Va & Ha) (Vb & Hb).
  assert (H1 : datetime_compare a b
               = match lex_compare
                         [year (dt_date a); month (dt_date a); day (dt_date a)]
                         [year (dt_date b); month (dt_date b); day (dt_date b)]
                 with
                 | Eq => lex_compare [hour a; minute a; second a; microsecond a]
                                     [hour b; minute b; second b; microsecond b]
                 | c => c
                 end).
  { unfold datetime_compare, datetime_fields. simpl.
    destruct (year (dt_date a) ?= year (dt_date b)); try reflexivity.
    destruct (month (dt_date a) ?= month (dt_date b)); try reflexivity.
    destruct (day (dt_date a) ?= day (dt_date b)); reflexivity. }
  rewrite H1, (date_compare_ordinal _ _ Va Vb).
  unfold to_microseconds. change (10 ^ 6) with 1000000. symmetry.
  destruct (Z.compare_spec (toordinal (dt_date a)) (toordinal (dt_date b)))
    as [Eo|Lo|Go].
  - rewrite Eo. simpl.
    destruct (Z.compare_spec (hour a) (hour b));
      [destruct (Z.compare_spec (minute a) (minute b));
       [destruct (Z.compare_spec (second a) (second b));
        [destruct (Z.compare_spec (microsecond a) (microsecond b))|..]|..]|..];
      first [apply Z.compare_eq_iff; lia|apply Z.compare_lt_iff; lia
            |apply Z.compare_gt_iff; lia].
  - apply Z.compare_lt_iff. lia.
  - apply Z.compare_gt_iff. lia.
Qed.

Lemma datetime_le_microseconds (a b : datetime) :
  valid_datetime a -> valid_datetime b ->
  (datetime_le a b <-> to_microseconds a <= to_microseconds b).
Proof.
  intros Va Vb. unfold datetime_le.
  rewrite (datetime_compare_microseconds a b Va Vb). reflexivity.
Qed.

Lemma datetime_lt_microseconds (a b : datetime) :
  valid_datetime a -> valid_datetime b ->
  (datetime_lt a b <-> to_microseconds a < to_microseconds b).
Proof.
  intros Va Vb. unfold datetime_lt.
  rewrite (datetime_compare_microseconds a b Va Vb). reflexivity.
Qed.

End TimeLine.

(* ================================================================= *)
(** ** Days and weeks *)

(** A wider period holds every entry of a narrower one. *)
Lemma overlaps_period_widen (lo hi lo' hi' : datetime) (r : entry_row) :
  valid_datetime lo -> valid_datetime hi ->
  valid_datetime lo' -> valid_datetime hi' -> valid_row r ->
  datetime_le lo' lo -> datetime_le lo hi -> datetime_le hi hi' ->
  overlaps_period lo hi (entry_of_row r) ->
  overlaps_period lo' hi' (entry_of_row r).
Proof.
  intros Vlo Vhi Vlo' Vhi' [Vs Ve] H1 H2 H3.
  apply datetime_le_microseconds in H1, H2, H3; auto.
  unfold overlaps_period, within. cbn [entry_of_row start_time end_time].
  set (s := w_start_time r) in *.
  assert (Hle : forall a b, valid_datetime a -> valid_datetime b ->
                            to_microseconds a <= to_microseconds b ->
                            datetime_le a b)
    by (intros a b Va Vb; now apply datetime_le_microseconds).
  assert (Hlt : forall a b, valid_datetime a -> valid_datetime b ->
                            to_microseconds a < to_microseconds b ->
                            datetime_lt a b)
    by (intros a b Va Vb; now apply datetime_lt_microseconds).
  assert (Hstart : to_microseconds lo' <= to_microseconds s <= to_microseconds hi'
                   -> exists s0, Some s = Some s0 /\
                                 datetime_le lo' s0 /\ datetime_le s0 hi').
  { intros [A B]. exists s. auto. }
  intros [(s0 & [= <-] & A & B) | [(t & Ht & A & B) | (s0 & [= <-] & A & C)]].
  - apply datetime_le_microseconds in A, B; auto. left. apply Hstart. lia.
  - rewrite Ht in Ve. apply datetime_le_microseconds in A, B; auto.
    right. left. exists t. split; [exact Ht|]. split; apply Hle; auto; lia.
  - apply datetime_lt_microseconds in A; auto.
    destruct (Z_le_gt_dec (to_microseconds lo') (to_microseconds s)) as [L|G].
    + left. apply Hstart. lia.
    + destruct C as [(t & Ht & C) | Hopen].
      * rewrite Ht in Ve. apply datetime_lt_microseconds in C; auto.
        destruct (Z_le_gt_dec (to_microseconds t) (to_microseconds hi'))
          as [L'|G'].
        -- right. left. exists t. split; [exact Ht|].
           split; apply Hle; auto; lia.
        -- right. right. exists s. split; [reflexivity|].
           split; [apply Hlt; auto; lia|]. left. exists t.
           split; [exact Ht|]. apply Hlt; auto; lia.
      * right. right. exists s. split; [reflexivity|].
        split; [apply Hlt; auto; lia|]. now right.
Qed.

Lemma combine_microseconds (d : date) (t : time) :
  to_microseconds (combine d t)
  = (toordinal d * 86400
     + (t_second t + t_minute t * 60 + t_hour t * 3600)) * 10 ^ 6
    + t_microsecond t.
Proof. reflexivity. Qed.

(** X12.  What the day query returns, the week query of that day returns too.
    *)
Theorem day_entries_in_week (db : Database) (d : date)
    (results : list (WorkEntry * Project)) (ep : WorkEntry * Project) :
  db_valid db -> valid_date d ->
  get_entries_for_week db d = Ok results ->
  In ep (get_entries_for_day db d) -> In ep results.
Proof.
  intros Hvalid Vd Hw Hday. unfold get_entries_for_week in Hw.
  destruct (week_of d) as [[mon sun]|] eqn:Eweek; [|discriminate].
  cbn [bind fst snd] in Hw. injection Hw as <-.
  destruct (week_of_valid d mon sun Vd Eweek)
    as (Vmon & Vsun & Omon & Osun & Wmon & Wsun).
  assert (Hwd : 0 <= weekday d < 7)
    by (unfold weekday; apply Z.mod_pos_bound; lia).
  unfold get_entries_for_day, rows_to_results in *.
  apply in_map_iff in Hday. destruct Hday as ([e p] & <- & Hin).
  apply in_map_iff. exists (e, p). split; [reflexivity|].
  apply in_select_overlapping in Hin. destruct Hin as [Hjoin Hwhere].
  apply in_select_overlapping. split; [exact Hjoin|].
  assert (Ve : valid_row e) by (apply Hvalid; tauto).
  apply overlap_where_iff; auto using valid_combine_min, valid_combine_max.
  apply overlap_where_iff in Hwhere;
    auto using valid_combine_min, valid_combine_max.
  revert Hwhere. apply overlaps_period_widen;
    auto using valid_combine_min, valid_combine_max;
    apply datetime_le_microseconds;
    auto using valid_combine_min, valid_combine_max;
    rewrite !combine_microseconds; simpl; lia.
Qed.

(** X13.  The week of a day is the week of every day from its Monday to its
    Sunday: the week query and the weekly report do not depend on the day that
    names the week. *)
Theorem week_named_by_any_of_its_days (db : Database) (d d' mon sun : date) :
  valid_date d -> valid_date d' ->
  week_of d = Ok (mon, sun) ->
  toordinal mon <= toordinal d' <= toordinal sun ->
  week_of d' = Ok (mon, sun) /\
  get_entries_for_week db d' = get_entries_for_week db d /\
  _show_week_report db d' = _show_week_report db d.
Proof.
  intros Vd Vd' Hw Hin.
  destruct (week_of_valid d mon sun Vd Hw)
    as (Vmon & Vsun & Omon & Osun & Wmon & Wsun).
  assert (Hsame : toordinal d' + - weekday d' = toordinal d + - weekday d).
  { unfold weekday in *. Z.div_mod_to_equations. lia. }
  assert (Hsub : date_sub_days d' (weekday d') = date_sub_days d (weekday d)).
  { unfold date_sub_days, date_add_days. now rewrite Hsame. }
  assert (Hweek : week_of d' = week_of d)
    by (unfold week_of; now rewrite Hsub).
  repeat split.
  - now rewrite Hweek.
  - unfold get_entries_for_week. now rewrite Hweek.
  - unfold _show_week_report, get_entries_for_week. now rewrite Hsub, Hweek.
Qed.

(** X14.  The sign of the hours of a completed entry is the order of its two
    times: above zero when it ends after it starts, below zero when it ends
    before. *)
Theorem duration_hours_sign (e : WorkEntry) (s t : datetime) :
  valid_datetime s -> valid_datetime t ->
  start_time e = Some s -> end_time e = Some t ->
  (datetime_lt s t -> exists h, duration_hours e = Some h /\ (0 < h)%Q) /\
  (datetime_lt t s -> exists h, duration_hours e = Some h /\ (h < 0)%Q).
Proof.
  intros Vs Vt Hs Ht.
  assert (Hsign : forall n : Z,
             (n > 0 -> (0 < truediv n (10 ^ 6) / 3600)%Q) /\
             (n < 0 -> (truediv n (10 ^ 6) / 3600 < 0)%Q)).
  { intros n. unfold truediv, Qdiv, Qlt. simpl. split; lia. }
  split; intros Hlt; apply datetime_lt_microseconds in Hlt; auto;
    (rewrite (duration_hours_completed e s t Hs Ht) by lia);
    eexists; (split; [reflexivity|]); apply Hsign; lia.
Qed.

(* ================================================================= *)
(** ** Stopping and starting *)

Lemma total_seconds_sub (t s : datetime) :
  total_seconds (datetime_sub t s)
  = truediv (to_microseconds t - to_microseconds s) (10 ^ 6).
Proof.
  unfold total_seconds.
  change ((days (datetime_sub t s) * 86400 + seconds (datetime_sub t s)) * 10 ^ 6
          + microseconds (datetime_sub t s))
    with (td_microseconds (datetime_sub t s)).
  now rewrite datetime_sub_microseconds.
Qed.

(** What update_work_entry does with the entry that get_active_work_entry
    returned, once its end_time is set. *)
Lemma close_active_rows (db : Database) (a : WorkEntry) (now : datetime) :
  get_active_work_entry db = Some a ->
  exists r0,
    In r0 (work_entries db) /\ a = entry_of_row r0 /\ w_end_time r0 = None /\
    update_work_entry db (set_end_time a now)
    = Ok (mkDatabase (projects db)
            (map (fun r => if w_id r =? w_id r0
                           then mk_entry_row (w_id r) (w_project_id r0)
                                  (w_description r0) (w_start_time r0) (Some now)
                           else r)
                 (work_entries db))
            (projects_seq db) (work_entries_seq db), true).
Proof.
  rewrite get_active_work_entry_find.
  destruct (find is_active (work_entries db)) as [r0|] eqn:Hfind;
    [|discriminate].
  intros [= <-]. destruct (find_some _ _ Hfind) as [Hin Hact].
  exists r0. split; [exact Hin|]. split; [reflexivity|].
  split; [unfold is_active in Hact; now destruct (w_end_time r0)|].
  unfold update_work_entry. simpl.
  replace (existsb (fun r => w_id r =? w_id r0) (work_entries db)) with true;
    [reflexivity|].
  symmetry. apply existsb_exists. exists r0. split; [exact Hin|apply Z.eqb_refl].
Qed.

(** X15.  stop with an entry open: the entry gets the end_time, the hours
    reported are the time since its start, no entry is open afterwards, and
    nothing else in the store is changed. *)
Theorem stop_closes_active_entry (db : Database) (now : datetime)
    (a : WorkEntry) (p : Project) :
  (active_count db <= 1)%nat ->
  get_active_work_entry db = Some a ->
  get_project db (project_id a) = Some p ->
  exists db' i st,
    e_id a = Some i /\ start_time a = Some st /\
    stop_work db now
    = (db', Ok (StoppedWork
                  (truediv (to_microseconds now - to_microseconds st) (10 ^ 6)
                   / 3600)%Q)) /\
    get_active_work_entry db' = None /\
    get_work_entry db' i = Some (set_end_time a now) /\
    (forall j, j <> i -> get_work_entry db' j = get_work_entry db j) /\
    projects db' = projects db.
Proof.
  intros Hle Ha Hp.
  destruct (close_active db a now Ha) as (db1 & Hupd1 & Hprojects & _ & _ & H0).
  destruct (close_active_rows db a now Ha) as (r0 & Hin & -> & Hopen & Hupd).
  rewrite Hupd1 in Hupd. injection Hupd as Hdb1.
  exists db1, (w_id r0), (w_start_time r0).
  split; [reflexivity|]. split; [reflexivity|].
  unfold stop_work. rewrite Ha, Hupd1.
  unfold get_project in *. rewrite Hprojects.
  change (project_id (set_end_time (entry_of_row r0) now))
    with (project_id (entry_of_row r0)).
  rewrite Hp.
  change (start_time (set_end_time (entry_of_row r0) now))
    with (Some (w_start_time r0)).
  cbv beta iota zeta. rewrite total_seconds_sub.
  split; [reflexivity|]. split; [|split; [|split; [|reflexivity]]].
  - apply get_active_none_iff. exact (H0 Hle).
  - assert (Hf : exists r1, find (fun r => w_id r =? w_id r0) (work_entries db)
                            = Some r1 /\ w_id r1 = w_id r0).
    { destruct (find (fun r => w_id r =? w_id r0) (work_entries db)) as [r1|] eqn:E.
      - exists r1. split; [reflexivity|].
        apply Z.eqb_eq. exact (proj2 (find_some _ _ E)).
      - apply (find_none _ _ E) in Hin. simpl in Hin.
        rewrite Z.eqb_refl in Hin. discriminate. }
    destruct Hf as (r1 & Hf & Hid).
    unfold get_work_entry. rewrite Hdb1. cbn [work_entries].
    rewrite (find_map_same_key w_id)
      by (intros r; now destruct (w_id r =? w_id r0)).
    rewrite Hf. cbn [option_map]. rewrite Hid, Z.eqb_refl.
    reflexivity.
  - intros j Hj. unfold get_work_entry. rewrite Hdb1. cbn [work_entries].
    rewrite (find_map_same_key w_id)
      by (intros r; now destruct (w_id r =? w_id r0)).
    destruct (find (fun r => w_id r =? j) (work_entries db)) as [r|] eqn:Ej;
      [|reflexivity].
    simpl. destruct (find_some _ _ Ej) as [_ Hrj]. apply Z.eqb_eq in Hrj.
    replace (w_id r =? w_id r0) with false by (symmetry; apply Z.eqb_neq; lia).
    reflexivity.
Qed.

(** X16.  start while an entry is open, with the prompt confirmed, is stop
    followed by start: the open entry is closed first - also when the new
    project is then not found, so that no entry is open afterwards. *)
Theorem start_confirmed_stops_first (db : Database)
    (project description : string) (now_stop now_start : datetime)
    (a : WorkEntry) (p : Project) (again : bool) :
  (active_count db <= 1)%nat ->
  get_active_work_entry db = Some a ->
  get_project db (project_id a) = Some p ->
  let stopped := fst (stop_work db now_stop) in
  start_work db project description true now_stop now_start
  = start_work stopped project description again now_stop now_start /\
  (snd (start_work db project description true now_stop now_start)
   = Ok ProjectNotFound ->
   fst (start_work db project description true now_stop now_start) = stopped /\
   get_active_work_entry stopped = None).
Proof.
  intros Hle Ha Hp stopped.
  destruct (close_active db a now_stop Ha) as (db1 & Hupd & Hprojects & _ & _ & H0).
  assert (Hstopped : stopped = db1).
  { unfold stopped, stop_work. rewrite Ha, Hupd.
    unfold get_project in *. rewrite Hprojects.
    cbn [project_id set_end_time]. rewrite Hp.
    rewrite get_active_work_entry_find in Ha.
    destruct (find is_active (work_entries db)); [|discriminate].
    injection Ha as <-. reflexivity. }
  assert (Hidle : get_active_work_entry db1 = None)
    by (apply get_active_none_iff; exact (H0 Hle)).
  assert (Hstart : start_work db project description true now_stop now_start
                   = start_work_on db1 project description now_start).
  { unfold start_work at 1. now rewrite Ha, Hp, Hupd. }
  rewrite Hstopped, Hstart. split.
  - unfold start_work. now rewrite Hidle.
  - intros Hnone. split; [|exact Hidle].
    unfold start_work_on in *.
    destruct (match PyInt.int project with
              | Some project_id =>
                  if sqlite_int project_id then Ok (get_project db1 project_id)
                  else Raise OverflowError
              | None => Ok (get_project_by_name db1 project)
              end) as [[target|]|]; try reflexivity.
    destruct (p_id target); [|discriminate].
    unfold create_work_entry in *. cbn [start_time] in *. discriminate.
Qed.

(** X17.  After a start that reports a new entry, from a store with no entry
    open: the new entry is stored under the reported id with the description
    and the start time given and no end_time, it is the active entry, its
    project is stored, and status shows it with the time since its start. *)
Theorem start_then_status (db db' : Database) (project description : string)
    (stop_current : bool) (now_stop now_start now : datetime) (i : Z) :
  db_wf db ->
  get_active_work_entry db = None ->
  start_work db project description stop_current now_stop now_start
  = (db', Ok (StartedWork i)) ->
  exists p pid,
    let entry := mkWorkEntry (Some i) pid description (Some now_start) None in
    p_id p = Some pid /\
    get_project db' pid = Some p /\
    get_work_entry db' i = Some entry /\
    get_active_work_entry db' = Some entry /\
    Cli.status db' now
    = Ok (Cli.CurrentlyWorkingOn entry p
            (truediv (to_microseconds now - to_microseconds now_start) (10 ^ 6)
             / 3600)%Q).
Proof.
  intros Hwf Hidle Hs. unfold start_work in Hs. rewrite Hidle in Hs.
  unfold start_work_on in Hs.
  set (target_project := match PyInt.int project with
                         | Some project_id =>
                             if sqlite_int project_id
                             then Ok (get_project db project_id)
                             else Raise OverflowError
                         | None => Ok (get_project_by_name db project)
                         end) in Hs.
  destruct target_project as [[target|]|] eqn:Etarget; try discriminate.
  assert (Hrow : exists r, In r (projects db) /\ target = _create_project_from_row r).
  { unfold target_project in Etarget.
    unfold get_project, get_project_by_name in Etarget.
    destruct (PyInt.int project) as [n|];
      [destruct (sqlite_int n); [|discriminate]|];
      (destruct (find _ (projects db)) as [r|] eqn:E; [|discriminate]);
      injection Etarget as <-; exists r;
      (split; [exact (proj1 (find_some _ _ E))|reflexivity]). }
  destruct Hrow as (r & Hr & ->). cbn [p_id _create_project_from_row] in Hs.
  unfold create_work_entry in Hs. cbn [start_time project_id end_time] in Hs.
  injection Hs as <- <-.
  exists (_create_project_from_row r), (r_id r). cbn zeta.
  assert (Hfresh : forall x, In x (work_entries db) ->
                             (w_id x =? work_entries_seq db + 1) = false).
  { intros x Hx. apply Z.eqb_neq. pose proof (wf_entry_seq db Hwf x Hx). lia. }
  assert (Hp : get_project db (r_id r) = Some (_create_project_from_row r)).
  { unfold get_project.
    now rewrite (find_by_id_unique _ r (wf_project_ids db Hwf) Hr). }
  assert (Hget : get_work_entry
                   (mkDatabase (projects db)
                      (work_entries db ++
                       [mk_entry_row (work_entries_seq db + 1) (r_id r)
                                     description now_start None])
                      (projects_seq db) (work_entries_seq db + 1))
                   (work_entries_seq db + 1)
                 = Some (mkWorkEntry (Some (work_entries_seq db + 1)) (r_id r)
                                     description (Some now_start) None)).
  { unfold get_work_entry. cbn [work_entries].
    rewrite (find_app_fresh _ _ _ Hfresh). simpl. now rewrite Z.eqb_refl. }
  assert (Hact : get_active_work_entry
                   (mkDatabase (projects db)
                      (work_entries db ++
                       [mk_entry_row (work_entries_seq db + 1) (r_id r)
                                     description now_start None])
                      (projects_seq db) (work_entries_seq db + 1))
                 = Some (mkWorkEntry (Some (work_entries_seq db + 1)) (r_id r)
                                     description (Some now_start) None)).
  { rewrite get_active_work_entry_find in *. cbn [work_entries].
    rewrite find_app.
    destruct (find is_active (work_entries db)); [discriminate|]. reflexivity. }
  split; [reflexivity|]. split; [exact Hp|]. split; [exact Hget|].
  split; [exact Hact|].
  unfold Cli.status. rewrite Hact. cbn [project_id start_time].
  change (get_project (mkDatabase (projects db) _ _ _) (r_id r))
    with (get_project db (r_id r)).
  rewrite Hp. now rewrite total_seconds_sub.
Qed.

(* ================================================================= *)
(** ** The stored timestamps *)

Lemma close_active_valid (db db' : Database) (a : WorkEntry) (now : datetime)
    (b : bool) :
  db_valid db -> valid_datetime now ->
  get_active_work_entry db = Some a ->
  update_work_entry db (set_end_time a now) = Ok (db', b) ->
  db_valid db'.
Proof.
  intros Hvalid Vnow Ha Hupd.
  destruct (close_active_rows db a now Ha) as (r0 & Hin & _ & _ & Hupd').
  rewrite Hupd' in Hupd. injection Hupd as <- _.
  intros r Hr. cbn [work_entries] in Hr. apply in_map_iff in Hr.
  destruct Hr as (x & <- & Hx). destruct (w_id x =? w_id r0); [|now apply Hvalid].
  split; [exact (proj1 (Hvalid r0 Hin))|exact Vnow].
Qed.

Lemma start_work_on_valid (db : Database) (project description : string)
    (now : datetime) :
  db_valid db -> valid_datetime now ->
  db_valid (fst (start_work_on db project description now)).
Proof.
  intros Hvalid Vnow. unfold start_work_on.
  destruct (match PyInt.int project with
            | Some project_id =>
                if sqlite_int project_id then Ok (get_project db project_id)
                else Raise OverflowError
            | None => Ok (get_project_by_name db project)
            end) as [[target|]|]; try exact Hvalid.
  destruct (p_id target); [|exact Hvalid].
  intros r Hr. cbn [create_work_entry start_time fst work_entries] in Hr.
  apply in_app_iff in Hr. destruct Hr as [Hr | [<- | []]];
    [now apply Hvalid|]. split; [exact Vnow|exact I].
Qed.

Lemma run_valid (db : Database) (c : Cli.command) :
  db_valid db -> command_times_valid c -> db_valid (Cli.run db c).
Proof.
  intros Hvalid Hc. pose proof (project_command_entries db c) as He.
  destruct c; cbn [Cli.run command_times_valid] in *;
    try (unfold db_valid; rewrite He; exact Hvalid).
  - destruct Hc as [Vstop Vstart]. unfold start_work.
    destruct (get_active_work_entry db) as [a|] eqn:Ha;
      [|now apply start_work_on_valid].
    destruct (get_project db (project_id a)); [|exact Hvalid].
    destruct stop_current; [|exact Hvalid].
    destruct (update_work_entry db (set_end_time a now_stop)) as [[db' b]|] eqn:Hupd;
      [|exact Hvalid].
    apply start_work_on_valid; [|exact Vstart].
    exact (close_active_valid db db' a now_stop b Hvalid Vstop Ha Hupd).
  - unfold stop_work.
    destruct (get_active_work_entry db) as [a|] eqn:Ha; [|exact Hvalid].
    destruct (update_work_entry db (set_end_time a now)) as [[db' b]|] eqn:Hupd;
      [|exact Hvalid].
    pose proof (close_active_valid db db' a now b Hvalid Hc Ha Hupd) as H.
    destruct (get_project db' (project_id (set_end_time a now)));
      [destruct (start_time (set_end_time a now))|]; exact H.
Qed.

(** X18.  Every timestamp in a store that the commands built is a datetime,
    when the clock readings were. *)
Theorem commands_store_datetimes (cs : list Cli.command) :
  Forall command_times_valid cs -> db_valid (Cli.run_all empty_db cs).
Proof.
  unfold Cli.run_all.
  assert (H : forall db, db_valid db -> Forall command_times_valid cs ->
                         db_valid (fold_left Cli.run cs db)).
  { induction cs as [|c cs IH]; intros db Hdb Hcs; [exact Hdb|].
    inversion Hcs as [|? ? Hc Hcs']; subst. simpl. apply IH; [|exact Hcs'].
    now apply run_valid. }
  apply H. intros r [].
Qed.

(* ================================================================= *)
(** ** The totals of the day report *)

Lemma fold_sum_duration_hours (l : list WorkEntry) (acc : float) :
  (fold_left
     (fun total entry =>
        match duration_hours entry with
        | Some h => if float_bool h then (total + h)%Q else total
        | None => total
        end) l acc
   == acc + Qsum (map entry_hours l))%Q.
Proof.
  revert acc. induction l as [|e l IH]; intros acc; cbn [fold_left map].
  - unfold Qsum. simpl. ring.
  - rewrite IH, Qsum_cons. unfold entry_hours at 2, cell_hours.
    destruct (duration_hours e) as [h|]; [|ring].
    unfold float_bool. destruct (Qeq_bool h 0) eqn:E; cbn [negb]; [|ring].
    apply Qeq_bool_eq in E. rewrite E. ring.
Qed.

Lemma sum_duration_hours_Qsum (l : list WorkEntry) :
  (sum_duration_hours l == Qsum (map entry_hours l))%Q.
Proof.
  unfold sum_duration_hours. rewrite fold_sum_duration_hours. ring.
Qed.

Lemma Qsum_app (l l' : list Q) : (Qsum (l ++ l') == Qsum l + Qsum l')%Q.
Proof.
  induction l as [|x l IH]; cbn [app].
  - change (Qsum []) with 0%Q. ring.
  - rewrite !Qsum_cons, IH. ring.
Qed.

(** The hours held in a dict of entry lists. *)
Lemma dict_append_hours (k : option Z) (e : WorkEntry)
    (d : list (option Z * list WorkEntry)) :
  (Qsum (map (fun kv => sum_duration_hours (snd kv)) (dict_append id_eqb k e d))
   == Qsum (map (fun kv => sum_duration_hours (snd kv)) d) + entry_hours e)%Q.
Proof.
  unfold dict_append. induction d as [|[k' l] d IH]; cbn [dict_upd map snd].
  - rewrite !Qsum_cons. cbn [map snd]. rewrite sum_duration_hours_Qsum.
    cbn [map]. rewrite Qsum_cons. change (Qsum []) with 0%Q. ring.
  - destruct (id_eqb k k'); cbn [map snd]; rewrite !Qsum_cons.
    + rewrite !sum_duration_hours_Qsum, map_app, Qsum_app. cbn [map].
      rewrite Qsum_cons. change (Qsum []) with 0%Q. ring.
    + rewrite IH. ring.
Qed.

Lemma keys_dict_upd_incl {V : Type} (k k0 : option Z) (f : option V -> V)
    (d : list (option Z * V)) :
  In k0 (keys d) \/ k0 = k -> In k0 (keys (dict_upd id_eqb k f d)).
Proof.
  rewrite (keys_dict_upd id_eqb). unfold dict_mem.
  destruct (dict_get id_eqb k d) eqn:E.
  - intros [H | ->]; [exact H|].
    apply (dict_get_in id_eqb id_eqb_spec). eauto.
  - rewrite in_app_iff. simpl. intuition.
Qed.

(** The two grouping dicts of the first loop: the same keys in the same
    order, each project under its own id, every entry's hours kept. *)
Lemma group_dicts (entries : list (WorkEntry * Project)) :
  forall (p0 : list (option Z * Project)) (d0 : list (option Z * list WorkEntry)),
    keys p0 = keys d0 -> NoDup (keys d0) ->
    (forall k p, dict_get id_eqb k p0 = Some p -> p_id p = k) ->
    let ps := fold_left (fun d ep => dict_set id_eqb (p_id (snd ep)) (snd ep) d)
                        entries p0 in
    let es := fold_left (fun d ep => dict_append id_eqb (p_id (snd ep)) (fst ep) d)
                        entries d0 in
    keys ps = keys es /\ NoDup (keys es) /\
    (forall k p, dict_get id_eqb k ps = Some p -> p_id p = k) /\
    (forall k, In k (keys d0) -> In k (keys es)) /\
    (forall ep, In ep entries -> In (p_id (snd ep)) (keys es)) /\
    (Qsum (map (fun kv => sum_duration_hours (snd kv)) es)
     == Qsum (map (fun kv => sum_duration_hours (snd kv)) d0)
        + Qsum (map (fun ep => entry_hours (fst ep)) entries))%Q.
Proof.
  induction entries as [|[e p] entries IH]; intros p0 d0 Hk Hnd Hid;
    cbn [fold_left map fst snd].
  - repeat split; auto; [intros ep []|]. change (Qsum []) with 0%Q. ring.
  - specialize (IH (dict_set id_eqb (p_id p) p p0)
                   (dict_append id_eqb (p_id p) e d0)).
    destruct IH as (H1 & H2 & H3 & H4 & H5 & H6).
    + unfold dict_set, dict_append.
      rewrite !(keys_dict_upd id_eqb).
      rewrite (dict_mem_keys id_eqb (p_id p) p0 d0 Hk), Hk. reflexivity.
    + now apply (NoDup_keys_dict_upd id_eqb id_eqb_spec).
    + intros k q. unfold dict_set.
      destruct (id_eqb k (p_id p)) eqn:E.
      * apply id_eqb_spec in E. subst k.
        rewrite (dict_get_upd_same id_eqb id_eqb_spec). now intros [= <-].
      * rewrite (dict_get_upd_other id_eqb id_eqb_spec); [apply Hid|].
        intros ->. rewrite (keq_refl id_eqb id_eqb_spec) in E. discriminate.
    + repeat split; auto.
      * intros k Hin. apply H4. apply keys_dict_upd_incl. now left.
      * intros ep [<- | Hin]; [|now apply H5].
        apply H4. apply keys_dict_upd_incl. now right.
      * rewrite H6, dict_append_hours, Qsum_cons. ring.
Qed.

(** project_hours[project_id] = sum(...) for every key of a dict. *)
Lemma fold_dict_set_other {V W : Type} (g : V -> W) (k : option Z)
    (l : list (option Z * V)) :
  ~ In k (keys l) ->
  forall d0,
    dict_get id_eqb k
      (fold_left (fun d kv => dict_set id_eqb (fst kv) (g (snd kv)) d) l d0)
    = dict_get id_eqb k d0.
Proof.
  induction l as [|[k' v] l IH]; intros Hk d0; cbn [fold_left]; [reflexivity|].
  rewrite IH by (intros H; apply Hk; now right).
  apply (dict_get_upd_other id_eqb id_eqb_spec). intros ->. apply Hk. now left.
Qed.

Lemma fold_dict_set_get {V W : Type} (g : V -> W) (l : list (option Z * V)) :
  NoDup (keys l) ->
  forall d0 kv, In kv l ->
    dict_get id_eqb (fst kv)
      (fold_left (fun d kv => dict_set id_eqb (fst kv) (g (snd kv)) d) l d0)
    = Some (g (snd kv)).
Proof.
  induction l as [|[k v] l IH]; intros Hnd d0 kv Hin; [destruct Hin|].
  inversion Hnd as [|? ? Hnotin Hnd']; subst. cbn [fold_left fst snd].
  destruct Hin as [<- | Hin]; [|now apply IH].
  cbn [fst snd]. rewrite (fold_dict_set_other g k l Hnotin).
  apply (dict_get_upd_same id_eqb id_eqb_spec).
Qed.

Lemma fold_total_hours {A : Type} (g : A -> float) (l : list A) (acc : float) :
  (fold_left (fun t a => (t + g a)%Q) l acc == acc + Qsum (map g l))%Q.
Proof.
  revert acc. induction l as [|a l IH]; intros acc; cbn [fold_left map].
  - unfold Qsum. simpl. ring.
  - rewrite IH, Qsum_cons. ring.
Qed.

Lemma mapM_ok {A B : Type} (f : A -> result B) (l : list A) :
  (forall a, In a l -> exists b, f a = Ok b) -> exists bs, mapM f l = Ok bs.
Proof.
  induction l as [|a l IH]; intros H; simpl; [eauto|].
  destruct (H a (or_introl eq_refl)) as [b ->].
  destruct IH as [bs ->]; [intros x Hx; apply H; now right|].
  simpl. eauto.
Qed.

Lemma mapM_Forall2_In {A B : Type} (f : A -> result B) (P : A -> B -> Prop)
    (l : list A) (bs : list B) :
  mapM f l = Ok bs ->
  (forall a b, In a l -> f a = Ok b -> P a b) -> Forall2 P l bs.
Proof.
  revert bs. induction l as [|a l IH]; simpl; intros bs H HP.
  - injection H as <-. constructor.
  - destruct (f a) as [b|] eqn:Ea; simpl in H; [|discriminate].
    destruct (mapM f l) as [bs0|]; simpl in H; [|discriminate].
    injection H as <-. constructor; auto.
Qed.

Lemma day_report_of_totals (entries : list (WorkEntry * Project)) :
  entries <> [] ->
  exists sections total,
    day_report_of entries = Ok (DayReport sections total) /\
    (total == Qsum (map ds_total sections))%Q /\
    (total == Qsum (map (fun ep => entry_hours (fst ep)) entries))%Q /\
    NoDup (map (fun s => p_id (ds_project s)) sections) /\
    (forall ep, In ep entries ->
       exists s, In s sections /\ p_id (ds_project s) = p_id (snd ep)).
Proof.
  intros Hne. unfold day_report_of.
  destruct entries as [|ep0 entries0]; [contradiction|].
  set (entries := ep0 :: entries0). clearbody entries. clear Hne ep0 entries0.
  destruct (group_dicts entries [] [] eq_refl (NoDup_nil _))
    as (Hkeys & Hnd & Hid & _ & Hin & Hsum); [discriminate|].
  fold (group_projects entries) in Hkeys, Hid.
  fold (group_entries entries) in Hkeys, Hnd, Hin, Hsum.
  set (ps := group_projects entries) in *.
  set (es := group_entries entries) in *.
  set (ph := fold_left
               (fun d kv => dict_set id_eqb (fst kv) (sum_duration_hours (snd kv)) d)
               es []).
  set (f := fun kv : option Z * list WorkEntry =>
              match dict_get id_eqb (fst kv) ps, dict_get id_eqb (fst kv) ph with
              | Some project, Some hours =>
                  Ok (mk_day_section project (map day_row (snd kv)) hours
                                     (day_billing project hours))
              | _, _ => Raise KeyError
              end).
  assert (Hf : forall kv, In kv es ->
               exists s, f kv = Ok s /\ ds_total s = sum_duration_hours (snd kv)
                         /\ p_id (ds_project s) = fst kv).
  { intros kv Hkv. unfold f.
    assert (Hk : In (fst kv) (keys ps))
      by (rewrite Hkeys; now apply in_map).
    apply (dict_get_in id_eqb id_eqb_spec) in Hk. destruct Hk as [p Hp].
    rewrite Hp. unfold ph. rewrite (fold_dict_set_get sum_duration_hours es Hnd [] kv Hkv).
    eexists. split; [reflexivity|]. split; [reflexivity|]. simpl. now apply Hid. }
  destruct (mapM_ok f es) as [sections Hsections].
  { intros kv Hkv. destruct (Hf kv Hkv) as (s & Hs & _). eauto. }
  rewrite Hsections. cbn [bind]. eexists _, _. split; [reflexivity|].
  assert (Hrel : Forall2 (fun kv s => ds_total s = sum_duration_hours (snd kv) /\
                                      p_id (ds_project s) = fst kv) es sections).
  { apply (mapM_Forall2_In f); [exact Hsections|].
    intros kv s Hkv Hs. destruct (Hf kv Hkv) as (s' & Hs' & H1 & H2).
    rewrite Hs in Hs'. injection Hs' as <-. auto. }
  assert (Htot : map ds_total sections
                 = map (fun kv => sum_duration_hours (snd kv)) es).
  { clear -Hrel. induction Hrel as [|kv s l l' [H _] _ IH]; simpl; [reflexivity|].
    now rewrite H, IH. }
  assert (Hids : map (fun s => p_id (ds_project s)) sections = keys es).
  { clear -Hrel. induction Hrel as [|kv s l l' [_ H] _ IH]; simpl; [reflexivity|].
    now rewrite H, IH. }
  assert (Htotal : (fold_left (fun t kv => (t + sum_duration_hours (snd kv))%Q) es 0
                    == Qsum (map (fun kv => sum_duration_hours (snd kv)) es))%Q).
  { rewrite (fold_total_hours (fun kv => sum_duration_hours (snd kv))). ring. }
  split; [now rewrite Htot|]. split.
  - rewrite Htotal, Hsum. change (Qsum (map _ [])) with 0%Q. ring.
  - split; [now rewrite Hids|].
    intros ep Hep. specialize (Hin ep Hep). rewrite <- Hids in Hin.
    apply in_map_iff in Hin. destruct Hin as (s & Hs & Hin). eauto.
Qed.

(* ================================================================= *)
(** ** The weekly report: when it is made, and what its total counts *)

Lemma dict_upd_sum {K V : Type} (keq : K -> K -> bool) (g : V -> Q)
    (k : K) (f : option V -> V) (x : Q) (d : list (K * V)) :
  (forall o, g (f o) == match o with Some v => g v | None => 0 end + x)%Q ->
  (Qsum (map (fun kv => g (snd kv)) (dict_upd keq k f d))
   == Qsum (map (fun kv => g (snd kv)) d) + x)%Q.
Proof.
  intros Hf. induction d as [|[k' v] d IH]; cbn [dict_upd map snd].
  - rewrite Qsum_cons. cbn [snd]. rewrite (Hf None).
    change (Qsum []) with 0%Q. ring.
  - destruct (keq k k'); cbn [map snd]; rewrite !Qsum_cons.
    + rewrite (Hf (Some v)). ring.
    + rewrite IH. ring.
Qed.

Lemma week_group_step_hours
    (d : list (option Z * list (date * list WorkEntry)))
    (pid : option Z) (entry_date : date) (entry : WorkEntry) :
  (Qsum (map (fun kv => buckets_total (snd kv))
             (week_group_step d pid entry_date entry))
   == Qsum (map (fun kv => buckets_total (snd kv)) d) + entry_hours entry)%Q.
Proof.
  unfold week_group_step. apply dict_upd_sum. intros o.
  assert (H : forall by_date,
             (buckets_total (dict_append date_eqb entry_date entry by_date)
              == buckets_total by_date + entry_hours entry)%Q).
  { intros by_date. unfold buckets_total, dict_append. apply dict_upd_sum.
    intros [l|].
    - rewrite !sum_duration_hours_Qsum, map_app, Qsum_app. cbn [map].
      rewrite Qsum_cons. change (Qsum []) with 0%Q. ring.
    - rewrite sum_duration_hours_Qsum. cbn [map]. rewrite Qsum_cons.
      change (Qsum []) with 0%Q. ring. }
  destruct o as [by_date|]; rewrite H; [reflexivity|].
  unfold buckets_total. cbn [map]. change (Qsum []) with 0%Q. ring.
Qed.

Lemma week_group_hours (entries : list (WorkEntry * Project)) :
  forall d0 ebp,
    week_group_entries entries d0 = Ok ebp ->
    (Qsum (map (fun kv => buckets_total (snd kv)) ebp)
     == Qsum (map (fun kv => buckets_total (snd kv)) d0)
        + Qsum (map (fun ep => entry_hours (fst ep)) entries))%Q.
Proof.
  induction entries as [|[e p] entries IH]; intros d0 ebp H; simpl in H.
  - injection H as <-. cbn [map]. change (Qsum []) with 0%Q. ring.
  - destruct (start_time e) as [st|]; [|discriminate].
    rewrite (IH _ _ H), week_group_step_hours. cbn [map fst].
    rewrite Qsum_cons. ring.
Qed.

Lemma week_group_entries_ok (entries : list (WorkEntry * Project)) :
  (forall ep, In ep entries -> start_time (fst ep) <> None) ->
  forall d0, exists ebp, week_group_entries entries d0 = Ok ebp.
Proof.
  induction entries as [|[e p] entries IH]; intros Hst d0; simpl; [eauto|].
  destruct (start_time e) as [st|] eqn:E.
  - apply IH. intros ep Hep. apply Hst. now right.
  - exfalso. apply (Hst (e, p)); [now left|exact E].
Qed.

Lemma results_have_start_time (rows : list (entry_row * project_row)) :
  forall ep, In ep (rows_to_results rows) -> start_time (fst ep) <> None.
Proof.
  intros ep Hin. unfold rows_to_results in Hin. apply in_map_iff in Hin.
  destruct Hin as (x & <- & _). discriminate.
Qed.

Lemma show_week_report_overflow (db : Database) (d : date) (e : exn) :
  week_of d = Raise e -> _show_week_report db d = Raise e.
Proof.
  unfold week_of, _show_week_report.
  destruct (date_sub_days d (weekday d)) as [mon|]; cbn [bind];
    [|now intros [= ->]].
  destruct (date_add_days mon 6) as [sun|]; cbn [bind];
    [discriminate|now intros [= ->]].
Qed.

(** X20.  For a day whose week ends after 9999-12-31 the week query and the
    weekly report raise OverflowError, before anything is read or shown. *)
Theorem week_report_overflows_past_the_calendar (db : Database) (d : date) :
  valid_date d ->
  _MAXORDINAL < toordinal d - weekday d + 6 ->
  get_entries_for_week db d = Raise OverflowError /\
  _show_week_report db d = Raise OverflowError.
Proof.
  intros Vd Hmax. pose proof (week_of_overflow d Vd Hmax) as Hweek. split.
  - unfold get_entries_for_week. now rewrite Hweek.
  - now apply show_week_report_overflow.
Qed.

(** X25.  For a day whose week ends within the calendar the week query
    answers, and the grouping loop of the weekly report, which reads
    entry.start_time.date(), goes through its answer. *)
Theorem week_query_answers_within_the_calendar (db : Database) (d : date) :
  valid_date d ->
  toordinal d - weekday d + 6 <= _MAXORDINAL ->
  exists entries by_project,
    get_entries_for_week db d = Ok entries /\
    week_group_entries entries [] = Ok by_project.
Proof.
  intros Vd Hmax.
  destruct (week_of_spec d Vd Hmax) as (mon & sun & Hweek & _).
  unfold get_entries_for_week. rewrite Hweek. cbn [bind fst snd].
  destruct (week_group_entries_ok
              (rows_to_results
                 (select_overlapping db (isoformat (combine mon min_time))
                                     (isoformat (combine sun max_time))))
              (results_have_start_time _) []) as [ebp Hebp].
  eauto.
Qed.

(** X21.  The total at the foot of the weekly report is the sum of the hours
    of all entries the week query returned - those that started before the
    Monday included. *)
Theorem week_total_counts_every_entry (db : Database) (d : date)
    (table : week_table) :
  _show_week_report db d = Ok (WeekReport table) ->
  exists entries,
    get_entries_for_week db d = Ok entries /\
    (wt_total_hours table
     == Qsum (map (fun ep => entry_hours (fst ep)) entries))%Q.
Proof.
  intros Hrep.
  destruct (show_week_report_table _ _ _ Hrep)
    as (days & entries & Ht & Hentries & _ & _).
  exists entries. split; [exact Hentries|].
  unfold week_table_of in Ht.
  destruct (week_group_entries entries []) as [ebp|] eqn:Eg; cbn [bind] in Ht;
    [|discriminate].
  injection Ht as <-. cbn [wt_total_hours].
  destruct (week_group_keys entries [] [] ebp eq_refl (NoDup_nil _)
              (Forall_nil _) Eg) as (_ & Hnd & _).
  destruct (fold_projects ebp Hnd (mk_week_totals 0 [] [])) as [Htot _].
  fold (week_totals_of ebp) in Htot. cbn [total_hours] in Htot.
  rewrite Htot, (week_group_hours entries [] ebp Eg). cbn [map].
  change (Qsum []) with 0%Q. ring.
Qed.

(* ================================================================= *)
(** ** The reports under the schema's keys: one group for each entry *)

Section FreshKeys.

Context {K V : Type} (keq : K -> K -> bool).
Hypothesis keq_spec : forall a b, keq a b = true <-> a = b.

(** d[k] = ... for a key that the dict does not hold yet. *)
Lemma dict_upd_fresh (k : K) (f : option V -> V) (d : list (K * V)) :
  ~ In k (keys d) -> dict_upd keq k f d = d ++ [(k, f None)].
Proof.
  induction d as [|[k' v] d IH]; cbn [dict_upd app]; intros Hk; [reflexivity|].
  rewrite (keq_neq keq keq_spec k k') by (intros ->; apply Hk; now left).
  rewrite IH; [reflexivity|]. intros Hin. apply Hk. now right.
Qed.

Lemma fold_dict_upd_fresh {A : Type} (key : A -> K) (g : A -> option V -> V)
    (l : list A) :
  forall d0,
    NoDup (keys d0 ++ map key l) ->
    fold_left (fun d a => dict_upd keq (key a) (g a) d) l d0
    = d0 ++ map (fun a => (key a, g a None)) l.
Proof.
  induction l as [|a l IH]; intros d0 Hnd; cbn [fold_left map].
  - now rewrite app_nil_r.
  - cbn [map] in Hnd. rewrite dict_upd_fresh.
    + rewrite IH; [now rewrite <- app_assoc|].
      unfold keys in *. rewrite map_app, <- app_assoc. exact Hnd.
    + intros Hin. apply (NoDup_remove_2 _ _ _ Hnd). apply in_or_app. now left.
Qed.

Lemma dict_get_map {A : Type} (key : A -> K) (val : A -> V) (l : list A)
    (a : A) :
  NoDup (map key l) -> In a l ->
  dict_get keq (key a) (map (fun x => (key x, val x)) l) = Some (val a).
Proof.
  induction l as [|x l IH]; intros Hnd Hin; [destruct Hin|].
  cbn [map dict_get] in *. inversion Hnd as [|? ? Hx Hl]; subst.
  destruct Hin as [-> | Hin]; [now rewrite (keq_refl keq keq_spec)|].
  rewrite (keq_neq keq keq_spec); [now apply IH|].
  intros E. apply Hx. rewrite <- E. now apply in_map.
Qed.

End FreshKeys.

Lemma mapM_map {A B C : Type} (f : B -> result C) (h : A -> B) (g : A -> C)
    (l : list A) :
  (forall a, In a l -> f (h a) = Ok (g a)) -> mapM f (map h l) = Ok (map g l).
Proof.
  induction l as [|a l IH]; intros H; cbn [map mapM]; [reflexivity|].
  rewrite (H a (or_introl eq_refl)), IH by (intros x Hx; apply H; now right).
  reflexivity.
Qed.

Lemma Forall2_map_left {A B : Type} (R : B -> A -> Prop) (f : A -> B)
    (l : list A) :
  (forall a, In a l -> R (f a) a) -> Forall2 R (map f l) l.
Proof.
  induction l as [|a l IH]; intros H; cbn [map]; constructor.
  - apply H. now left.
  - apply IH. intros x Hx. apply H. now right.
Qed.

(** Under distinct project ids among the pairs, each pair is a group of
    its own. *)
Lemma group_projects_distinct (entries : list (WorkEntry * Project)) :
  NoDup (map (fun ep => p_id (snd ep)) entries) ->
  group_projects entries = map (fun ep => (p_id (snd ep), snd ep)) entries.
Proof.
  intros Hnd.
  exact (fold_dict_upd_fresh id_eqb id_eqb_spec (fun ep => p_id (snd ep))
           (fun ep _ => snd ep) entries [] Hnd).
Qed.

Lemma group_entries_distinct (entries : list (WorkEntry * Project)) :
  NoDup (map (fun ep => p_id (snd ep)) entries) ->
  group_entries entries = map (fun ep => (p_id (snd ep), [fst ep])) entries.
Proof.
  intros Hnd.
  exact (fold_dict_upd_fresh id_eqb id_eqb_spec (fun ep => p_id (snd ep))
           (fun ep o => match o with
                        | Some l => l ++ [fst ep]
                        | None => [fst ep]
                        end) entries [] Hnd).
Qed.

Lemma day_report_of_distinct (entries : list (WorkEntry * Project))
    (sections : list day_section) (total : float) :
  NoDup (map (fun ep => p_id (snd ep)) entries) ->
  day_report_of entries = Ok (DayReport sections total) ->
  sections
  = map (fun ep =>
           mk_day_section (snd ep) [day_row (fst ep)]
                          (sum_duration_hours [fst ep])
                          (day_billing (snd ep) (sum_duration_hours [fst ep])))
        entries.
Proof.
  intros Hnd. unfold day_report_of.
  destruct entries as [|ep0 rest]; [discriminate|].
  set (es := ep0 :: rest) in *. clearbody es.
  rewrite (group_projects_distinct es Hnd), (group_entries_distinct es Hnd).
  set (ebp := map (fun ep => (p_id (snd ep), [fst ep])) es).
  assert (Hhours :
            fold_left
              (fun d kv => dict_set id_eqb (fst kv) (sum_duration_hours (snd kv)) d)
              ebp []
            = map (fun ep => (p_id (snd ep), sum_duration_hours [fst ep])) es).
  { unfold dict_set.
    rewrite (fold_dict_upd_fresh id_eqb id_eqb_spec
               (fun kv : option Z * list WorkEntry => fst kv)
               (fun kv _ => sum_duration_hours (snd kv)) ebp []).
    - unfold ebp. now rewrite map_map.
    - unfold ebp. cbn [keys app]. now rewrite map_map. }
  rewrite Hhours. unfold ebp.
  rewrite (mapM_map _ _
             (fun ep =>
                mk_day_section (snd ep) [day_row (fst ep)]
                               (sum_duration_hours [fst ep])
                               (day_billing (snd ep)
                                            (sum_duration_hours [fst ep])))).
  - cbn [bind]. now intros [= <- _].
  - intros ep Hep. cbn [fst snd].
    rewrite (dict_get_map id_eqb id_eqb_spec (fun ep => p_id (snd ep))
               (fun ep => snd ep) es ep Hnd Hep).
    rewrite (dict_get_map id_eqb id_eqb_spec (fun ep => p_id (snd ep))
               (fun ep => sum_duration_hours [fst ep]) es ep Hnd Hep).
    reflexivity.
Qed.

Lemma selected_row_ids (db : Database) (lo hi : string) :
  db_wf db ->
  NoDup (map (fun row => w_id (fst row)) (select_overlapping db lo hi)).
Proof.
  intros Hwf. unfold select_overlapping.
  eapply Permutation_NoDup;
    [apply Permutation_map; symmetry; apply order_by_start_time_perm|].
  apply NoDup_map_filter. now apply join_entry_ids.
Qed.

Lemma results_project_ids (rows : list (entry_row * project_row)) :
  map (fun ep => p_id (snd ep)) (rows_to_results rows)
  = map (fun row => Some (w_id (fst row))) rows.
Proof. unfold rows_to_results. now rewrite map_map. Qed.

Lemma results_distinct (db : Database) (lo hi : string) :
  db_wf db ->
  NoDup (map (fun ep => p_id (snd ep))
             (rows_to_results (select_overlapping db lo hi))).
Proof.
  intros Hwf. rewrite results_project_ids.
  rewrite <- (map_map (fun row => w_id (fst row)) Some).
  apply NoDup_map_Some. now apply selected_row_ids.
Qed.

(** X19.  The day report of a store that satisfies the schema's keys has
    one section for each entry that the day query returned, in the order of
    the query: its heading is the project that came with the entry, its one
    table row is the entry, its total the hours of the entry, its billing
    line is computed from those hours.  Two entries of one project are two
    sections.  The total at the foot is the sum of the section totals, the
    sum of the hours of all returned entries. *)
Theorem day_report_sections_are_entries (db : Database) (d : date)
    (sections : list day_section) (total : float) :
  db_wf db ->
  _show_day_report db d = Ok (DayReport sections total) ->
  sections
  = map (fun ep =>
           mk_day_section (snd ep) [day_row (fst ep)]
                          (sum_duration_hours [fst ep])
                          (day_billing (snd ep) (sum_duration_hours [fst ep])))
        (get_entries_for_day db d) /\
  (total == Qsum (map ds_total sections))%Q /\
  (total == Qsum (map (fun ep => entry_hours (fst ep))
                      (get_entries_for_day db d)))%Q.
Proof.
  intros Hwf Hrep. unfold _show_day_report in Hrep. split.
  - apply (day_report_of_distinct _ sections total); [|exact Hrep].
    now apply results_distinct.
  - destruct (get_entries_for_day db d) as [|ep rest] eqn:E; [discriminate|].
    destruct (day_report_of_totals (ep :: rest)) as
      (sections' & total' & Hrep' & Hsum & Hall & _); [discriminate|].
    rewrite Hrep in Hrep'. injection Hrep' as <- <-. split; assumption.
Qed.

(* ================================================================= *)
(** ** The weekly table under the schema's keys *)

Lemma week_group_rows (rows : list (entry_row * project_row)) :
  forall d0,
    NoDup (keys d0 ++ map (fun row => Some (w_id (fst row))) rows) ->
    week_group_entries (rows_to_results rows) d0
    = Ok (d0 ++
          map (fun row =>
                 (Some (w_id (fst row)),
                  [(dt_date (w_start_time (fst row)), [entry_of_row (fst row)])]))
              rows).
Proof.
  induction rows as [|[e p] rows IH]; intros d0 Hnd.
  - cbn. now rewrite app_nil_r.
  - cbn [rows_to_results map week_group_entries fst snd entry_of_row start_time
         _create_project_from_join_row p_id] in *.
    fold (rows_to_results rows). unfold week_group_step.
    rewrite (dict_upd_fresh id_eqb id_eqb_spec).
    + rewrite IH; [now rewrite <- app_assoc|].
      unfold keys in *. rewrite map_app, <- app_assoc. exact Hnd.
    + intros Hin. apply (NoDup_remove_2 _ _ _ Hnd). apply in_or_app. now left.
Qed.

Lemma week_table_of_rows (start_of_week end_of_week : date)
    (days_in_week : list date) (rows : list (entry_row * project_row))
    (table : week_table) :
  NoDup (map (fun row => w_id (fst row)) rows) ->
  week_table_of start_of_week end_of_week days_in_week (rows_to_results rows)
  = Ok table ->
  Forall2 (fun row ep =>
             wr_project row = snd ep /\
             wr_days row
             = map (fun day =>
                      if starts_on day (fst ep)
                      then Some (sum_duration_hours [fst ep]) else None)
                   days_in_week /\
             (wr_total row == entry_hours (fst ep))%Q)
          (wt_rows table) (rows_to_results rows).
Proof.
  intros Hnd0.
  assert (Hnd : NoDup (map (fun row => Some (w_id (fst row))) rows)).
  { rewrite <- (map_map (fun row => w_id (fst row)) Some).
    now apply NoDup_map_Some. }
  unfold week_table_of. rewrite (week_group_rows rows [] Hnd). cbn [bind app].
  set (ebp := map (fun row =>
                     (Some (w_id (fst row)),
                      [(dt_date (w_start_time (fst row)),
                        [entry_of_row (fst row)])])) rows).
  intros [= <-]. cbn [wt_rows].
  rewrite group_projects_distinct by (now rewrite results_project_ids).
  rewrite map_map. apply Forall2_map_left. intros ep Hep. cbn [fst snd].
  unfold rows_to_results in Hep. apply in_map_iff in Hep.
  destruct Hep as (row & <- & Hrow). cbn [fst snd wr_project wr_days wr_total].
  assert (Hget : dict_get id_eqb (Some (w_id (fst row))) ebp
                 = Some [(dt_date (w_start_time (fst row)),
                          [entry_of_row (fst row)])]).
  { exact (dict_get_map id_eqb id_eqb_spec
             (fun row : entry_row * project_row => Some (w_id (fst row)))
             (fun row => [(dt_date (w_start_time (fst row)),
                           [entry_of_row (fst row)])]) rows row Hnd Hrow). }
  cbn [_create_project_from_join_row p_id]. rewrite Hget.
  split; [reflexivity|]. split.
  - unfold week_day_cells. apply map_ext. intros day.
    cbn [dict_get]. unfold starts_on. cbn [entry_of_row start_time].
    now destruct (date_eqb day (dt_date (w_start_time (fst row)))).
  - assert (Hkeys : NoDup (keys ebp)).
    { unfold keys, ebp. now rewrite map_map. }
    destruct (fold_projects ebp Hkeys (mk_week_totals 0 [] [])) as [_ Hproj].
    fold (week_totals_of ebp) in Hproj. rewrite (Hproj (Some (w_id (fst row)))).
    rewrite Hget. unfold buckets_total, dict_float. cbn [dict_get map snd].
    rewrite !Qsum_cons, sum_duration_hours_Qsum. cbn [map].
    rewrite Qsum_cons. change (Qsum []) with 0%Q.
    cbn [project_hours dict_get]. ring.
Qed.

(** X1.  The weekly table of a store that satisfies the schema's keys has
    one row for each entry that the week query returned, in the order of
    the query: the row is headed by the project that came with the entry,
    it holds the hours of the entry in the cell of the day on which the
    entry starts, when that is a day of the week, and "-" in the other
    cells, and its total is the hours of the entry.  Two entries of one
    project are two rows.  The total at the foot is the sum of the row
    totals. *)
Theorem week_report_rows_are_entries (db : Database) (d : date)
    (table : week_table) :
  db_wf db ->
  _show_week_report db d = Ok (WeekReport table) ->
  exists entries days_in_week,
    get_entries_for_week db d = Ok entries /\
    mapM (fun i => date_add_days (wt_start_of_week table) i) [0; 1; 2; 3; 4; 5; 6]
    = Ok days_in_week /\
    Forall2 (fun row ep =>
               wr_project row = snd ep /\
               wr_days row
               = map (fun day =>
                        if starts_on day (fst ep)
                        then Some (sum_duration_hours [fst ep]) else None)
                     days_in_week /\
               (wr_total row == entry_hours (fst ep))%Q)
            (wt_rows table) entries /\
    (wt_total_hours table == Qsum (map wr_total (wt_rows table)))%Q.
Proof.
  intros Hwf Hrep.
  destruct (show_week_report_table _ _ _ Hrep)
    as (days & entries & Ht & Hentries & Hdays & _).
  exists entries, days. split; [exact Hentries|]. split; [exact Hdays|].
  split; [|exact (proj1 (week_table_totals _ _ _ _ _ Ht))].
  unfold get_entries_for_week in Hentries.
  destruct (week_of d) as [w|]; [|discriminate].
  cbn [bind] in Hentries. injection Hentries as <-.
  apply (week_table_of_rows _ _ _ _ _ (selected_row_ids db _ _ Hwf) Ht).
Qed.

(* ================================================================= *)
(** ** project-update, project-delete, yesterday *)



(** X23.  project-delete removes the project exactly when it is stored and the
    deletion is forced or confirmed; otherwise the store is left as it was. It
    never reports a failed deletion. *)
Theorem project_delete_outcomes (db : Database) (id : Z) (force confirm : bool) :
  let r := Cli.delete_project db id force confirm in
  snd r <> Ok Cli.FailedToDeleteProject /\
  (snd r = Ok Cli.ProjectDeleted <->
   get_project db id <> None /\ (force || confirm = true)) /\
  (snd r = Ok Cli.ProjectDeleted ->
   get_project (fst r) id = None /\ work_entries (fst r) = work_entries db) /\
  (snd r <> Ok Cli.ProjectDeleted -> fst r = db).
Proof.
  unfold Cli.delete_project, get_project.
  destruct (find (fun r => r_id r =? id) (projects db)) as [row|] eqn:Hfind;
    cbn [option_map].
  - assert (Hhit : existsb (fun r => r_id r =? id) (projects db) = true).
    { apply existsb_exists. exists row. exact (find_some _ _ Hfind). }
    unfold delete_project. rewrite Hhit.
    destruct (force || confirm) eqn:E.
    + replace (negb force && negb confirm) with false
        by (now destruct force, confirm).
      cbn [fst snd projects work_entries].
      split; [discriminate|]. split; [|split].
      * split; [intros _; split; [discriminate|reflexivity]|reflexivity].
      * intros _. now rewrite (find_filter_same r_id).
      * intros H. now elim H.
    + replace (negb force && negb confirm) with true
        by (now destruct force, confirm).
      cbn [fst snd].
      split; [discriminate|]. split; [|split].
      * split; [discriminate|intros [_ H]; discriminate].
      * discriminate.
      * reflexivity.
  - cbn [fst snd]. split; [discriminate|]. split; [|split].
    + split; [discriminate|intros [H _]; now elim H].
    + discriminate.
    + reflexivity.
Qed.

Lemma toordinal_max (d : date) : valid_date d -> toordinal d <= _MAXORDINAL.
Proof.
  intros V. pose proof (day_of_year_bounds d V) as B.
  pose proof (days_before_year_step (year d)) as S.
  destruct V as ((_ & Hy) & _). unfold MAXYEAR in Hy.
  pose proof (days_before_year_mono (year d + 1) 10000 ltac:(lia)) as M.
  change (_days_before_year 10000) with 3652059 in M.
  unfold toordinal, _ymd2ord, _MAXORDINAL. lia.
Qed.

(** X24.  yesterday shows the day report of the day before; on the first day
    of the calendar it fails with OverflowError. *)
Theorem yesterday_is_the_day_before (db : Database) (today : date) :
  valid_date today ->
  (toordinal today = 1 -> Cli.yesterday_report db today = Raise OverflowError) /\
  (1 < toordinal today ->
   exists yesterday,
     valid_date yesterday /\ toordinal yesterday = toordinal today - 1 /\
     Cli.yesterday_report db today = _show_day_report db yesterday).
Proof.
  intros Vd. pose proof (toordinal_max today Vd) as Hmax.
  unfold Cli.yesterday_report, date_sub_days, date_add_days. split.
  - intros ->. reflexivity.
  - intros Hgt.
    replace ((0 <? toordinal today + - (1))
             && (toordinal today + - (1) <=? _MAXORDINAL)) with true
      by (symmetry; apply andb_true_iff;
          split; [apply Z.ltb_lt|apply Z.leb_le]; lia).
    cbn [bind]. exists (fromordinal (toordinal today + - (1))).
    destruct (fromordinal_spec (toordinal today + - (1)) ltac:(lia)) as [V O].
    split; [exact V|]. split; [lia|reflexivity].
Qed.

(* ================================================================= *)
(** ** Worked scenarios: storage, queries and commands *)

Example sample_commands_run :
  work_entries (Cli.run_all empty_db sample_commands)
  = [mk_entry_row 1 1 "Task" (at_ 2023 5 1 9 0) (Some (at_ 2023 5 1 12 0));
     mk_entry_row 2 1 "Next" (at_ 2023 5 1 12 0) (Some (at_ 2023 5 1 17 0))].
Proof. reflexivity. Qed.

Lemma db_project_a_wf : db_wf db_project_a.
Proof.
  exact (proj1 (create_project_wf empty_db empty_db_wf project_a db_project_a 1
                                  eq_refl)).
Qed.

Lemma db_task_wf : db_wf db_task.
Proof.
  exact (proj1 (create_work_entry_wf db_project_a db_project_a_wf task_9_to_11
                                     db_task 1 eq_refl)).
Qed.

Lemma db_task_valid : db_valid db_task.
Proof. intros r [<- | []]. by_computation. Qed.

Lemma run_all_invariant (cs : list Cli.command) :
  forall db,
    db_wf db /\ (active_count db <= 1)%nat ->
    db_wf (Cli.run_all db cs) /\ (active_count (Cli.run_all db cs) <= 1)%nat.
Proof.
  unfold Cli.run_all. induction cs as [|c cs IH]; intros db Hdb; [exact Hdb|].
  cbn [fold_left]. apply IH. now apply run_invariant.
Qed.

Lemma run_all_valid (cs : list Cli.command) :
  forall db,
    db_valid db -> Forall command_times_valid cs ->
    db_valid (Cli.run_all db cs).
Proof.
  unfold Cli.run_all. induction cs as [|c cs IH]; intros db Hdb Hcs;
    [exact Hdb|].
  inversion Hcs as [|? ? Hc Hcs']; subst. cbn [fold_left].
  apply IH; [|exact Hcs']. now apply run_valid.
Qed.

Example db_busy_rows :
  map r_name (projects db_busy) = ["Project A"; "Project B"]%string /\
  work_entries db_busy
  = [mk_entry_row 1 1 "Task" (at_ 2023 5 1 9 0) (Some (at_ 2023 5 1 11 0));
     mk_entry_row 2 2 "Call" (at_ 2023 5 1 11 0) (Some (at_ 2023 5 1 13 30));
     mk_entry_row 3 1 "Review" (at_ 2023 5 1 13 30) (Some (at_ 2023 5 1 15 0))].
Proof. split; reflexivity. Qed.

Lemma db_busy_wf : db_wf db_busy.
Proof.
  apply (run_all_invariant busy_commands empty_db).
  split; [exact empty_db_wf|]. unfold active_count. simpl. lia.
Qed.

Lemma db_busy_valid : db_valid db_busy.
Proof.
  apply (run_all_valid busy_commands empty_db); [intros r []|].
  repeat (apply Forall_cons; [by_computation|]). apply Forall_nil.
Qed.

Example db_busy_day :
  get_entries_for_day db_busy (mkdate 2023 5 1)
  = [(mkWorkEntry (Some 1) 1 "Task" (Some (at_ 2023 5 1 9 0))
                  (Some (at_ 2023 5 1 11 0)),
      mkProject (Some 1) "Project A" true (Some (mkDecimal 100)));
     (mkWorkEntry (Some 2) 2 "Call" (Some (at_ 2023 5 1 11 0))
                  (Some (at_ 2023 5 1 13 30)),
      mkProject (Some 2) "Project B" false None);
     review_pair].
Proof. reflexivity. Qed.

Lemma commands_store_datetimes_witness :
  db_valid (Cli.run_all empty_db sample_commands).
Proof.
  apply commands_store_datetimes.
  repeat (apply Forall_cons; [by_computation|]). apply Forall_nil.
Defined.


Lemma create_work_entry_then_get_witness :
  get_work_entry db_task 1
  = Some (mkWorkEntry (Some 1) 1 "Task" (Some (at_ 2023 5 1 9 0))
                      (Some (at_ 2023 5 1 11 0))) /\
  get_active_work_entry db_task = get_active_work_entry db_project_a.
Proof.
  destruct (create_work_entry_then_get db_project_a db_task task_9_to_11 1
              db_project_a_wf eq_refl) as (Hget & _ & _ & _ & Hactive).
  split; [exact Hget|]. apply Hactive. discriminate.
Defined.

Lemma update_work_entry_then_get_witness :
  get_work_entry (db_of (update_work_entry db_task task_rewritten)) 1
  = Some task_rewritten.
Proof.
  destruct (update_work_entry_then_get db_task task_rewritten 1 eq_refl)
    as [_ H].
  destruct (H (db_of (update_work_entry db_task task_rewritten)) true eq_refl)
    as (_ & Hget & _); [by_computation|exact Hget].
Defined.


Lemma returned_pairs_are_joined_witness :
  In review_pair (get_entries_for_day db_busy (mkdate 2023 5 1)) /\
  get_work_entry db_busy 3 = Some (fst review_pair) /\
  exists stored,
    get_project db_busy 1 = Some stored /\ p_id stored = Some 1 /\
    name stored = "Project A"%string.
Proof.
  assert (Hin : In review_pair (get_entries_for_day db_busy (mkdate 2023 5 1)))
    by (right; right; left; reflexivity).
  destruct (returned_pairs_are_joined db_busy (mkdate 2023 5 1) review_pair
              db_busy_wf (or_introl Hin))
    as ((i & Hi & He & _) & (stored & Hp & Hid & Hname & _) & _).
  injection Hi as <-. split; [exact Hin|]. split; [exact He|].
  exists stored. split; [exact Hp|]. split; [exact Hid|]. now rewrite <- Hname.
Defined.

Lemma query_returns_each_entry_once_witness :
  NoDup (map (fun ep => e_id (fst ep))
             (get_entries_for_day db_busy (mkdate 2023 5 1))) /\
  List.length (get_entries_for_day db_busy (mkdate 2023 5 1)) = 3%nat.
Proof.
  split; [|reflexivity].
  exact (proj1 (query_returns_each_entry_once db_busy (mkdate 2023 5 1)
                  db_busy_wf)).
Defined.

Lemma query_results_ascending_witness :
  ascending starts_le (get_entries_for_day db_busy (mkdate 2023 5 1)) /\
  List.length (get_entries_for_day db_busy (mkdate 2023 5 1)) = 3%nat.
Proof.
  split; [|reflexivity].
  exact (proj1 (query_results_ascending db_busy (mkdate 2023 5 1)
                  db_busy_valid)).
Defined.

Lemma day_entries_in_week_witness :
  In (entry_of_row row_task,
      mkProject (Some 1) "Project A" true (Some (mkDecimal 100)))
     (rows_to_results
        (select_overlapping db_task "2023-05-01T00:00:00"
                            "2023-05-07T23:59:59.999999")).
Proof.
  apply (day_entries_in_week db_task (mkdate 2023 5 1)).
  - exact db_task_valid.
  - by_computation.
  - reflexivity.
  - left. reflexivity.
Defined.

Lemma week_named_by_any_of_its_days_witness :
  week_of (mkdate 2023 5 7) = Ok (mkdate 2023 5 1, mkdate 2023 5 7) /\
  get_entries_for_week db_task (mkdate 2023 5 7)
  = get_entries_for_week db_task (mkdate 2023 5 3) /\
  _show_week_report db_task (mkdate 2023 5 7)
  = _show_week_report db_task (mkdate 2023 5 3).
Proof.
  apply (week_named_by_any_of_its_days db_task (mkdate 2023 5 3)
           (mkdate 2023 5 7) (mkdate 2023 5 1) (mkdate 2023 5 7));
    by_computation.
Defined.

Lemma duration_hours_sign_witness :
  exists h,
    duration_hours (entry_of_row row_task) = Some h /\ (0 < h)%Q.
Proof.
  apply (duration_hours_sign (entry_of_row row_task) (at_ 2023 5 1 9 0)
           (at_ 2023 5 1 11 0)); by_computation.
Defined.

Lemma stop_closes_active_entry_witness :
  exists db' i st,
    e_id (entry_of_row row_open) = Some i /\
    start_time (entry_of_row row_open) = Some st /\
    stop_work db_open (at_ 2023 5 1 17 0)
    = (db', Ok (StoppedWork
                  (truediv (to_microseconds (at_ 2023 5 1 17 0)
                            - to_microseconds st) (10 ^ 6) / 3600)%Q)) /\
    get_active_work_entry db' = None /\
    get_work_entry db' i
    = Some (set_end_time (entry_of_row row_open) (at_ 2023 5 1 17 0)) /\
    (forall j, j <> i -> get_work_entry db' j = get_work_entry db_open j) /\
    projects db' = projects db_open.
Proof.
  apply (stop_closes_active_entry db_open (at_ 2023 5 1 17 0)
           (entry_of_row row_open)
           (mkProject (Some 1) "Project A" true (Some (mkDecimal 100))));
    [vm_compute; lia|reflexivity|reflexivity].
Defined.

Lemma start_confirmed_stops_first_witness :
  start_work db_open "Project B" "Next" true
             (at_ 2023 5 1 12 0) (at_ 2023 5 1 12 0)
  = start_work (fst (stop_work db_open (at_ 2023 5 1 12 0)))
               "Project B" "Next" false
               (at_ 2023 5 1 12 0) (at_ 2023 5 1 12 0) /\
  get_active_work_entry (fst (stop_work db_open (at_ 2023 5 1 12 0))) = None.
Proof.
  destruct (start_confirmed_stops_first db_open "Project B" "Next"
              (at_ 2023 5 1 12 0) (at_ 2023 5 1 12 0) (entry_of_row row_open)
              (mkProject (Some 1) "Project A" true (Some (mkDecimal 100)))
              false)
    as [Hsame Hnone]; [vm_compute; lia|reflexivity|reflexivity|].
  split; [exact Hsame|]. exact (proj2 (Hnone eq_refl)).
Defined.

Lemma start_then_status_witness :
  exists p pid,
    p_id p = Some pid /\
    get_project db_open pid = Some p /\
    get_work_entry db_open 1
    = Some (mkWorkEntry (Some 1) pid "Task" (Some (at_ 2023 5 1 9 0)) None) /\
    get_active_work_entry db_open
    = Some (mkWorkEntry (Some 1) pid "Task" (Some (at_ 2023 5 1 9 0)) None) /\
    Cli.status db_open (at_ 2023 5 1 10 30)
    = Ok (Cli.CurrentlyWorkingOn
            (mkWorkEntry (Some 1) pid "Task" (Some (at_ 2023 5 1 9 0)) None) p
            (truediv (to_microseconds (at_ 2023 5 1 10 30)
                      - to_microseconds (at_ 2023 5 1 9 0)) (10 ^ 6) / 3600)%Q).
Proof.
  apply (start_then_status db_project_a db_open "Project A" "Task" false
           (at_ 2023 5 1 9 0) (at_ 2023 5 1 9 0) (at_ 2023 5 1 10 30) 1
           db_project_a_wf); reflexivity.
Defined.

Lemma week_report_rows_are_entries_witness :
  exists table entries days_in_week,
    _show_week_report db_busy (mkdate 2023 5 3) = Ok (WeekReport table) /\
    get_entries_for_week db_busy (mkdate 2023 5 3) = Ok entries /\
    List.length entries = 3%nat /\
    Forall2 (fun row ep =>
               wr_project row = snd ep /\
               wr_days row
               = map (fun day =>
                        if starts_on day (fst ep)
                        then Some (sum_duration_hours [fst ep]) else None)
                     days_in_week /\
               (wr_total row == entry_hours (fst ep))%Q)
            (wt_rows table) entries.
Proof.
  assert (H : exists table,
             _show_week_report db_busy (mkdate 2023 5 3) = Ok (WeekReport table))
    by (eexists; vm_compute; reflexivity).
  destruct H as [table H].
  destruct (week_report_rows_are_entries db_busy (mkdate 2023 5 3) table
              db_busy_wf H) as (entries & days & Hentries & _ & Hrows & _).
  exists table, entries, days. split; [exact H|]. split; [exact Hentries|].
  split; [|exact Hrows].
  assert (E : Ok entries
              = get_entries_for_week db_busy (mkdate 2023 5 3))
    by (symmetry; exact Hentries).
  vm_compute in E. injection E as ->. reflexivity.
Defined.

Example busy_week_rows :
  exists table,
    _show_week_report db_busy (mkdate 2023 5 3) = Ok (WeekReport table) /\
    map (fun row => name (wr_project row)) (wt_rows table)
    = ["Project A"; "Project B"; "Project A"]%string /\
    map (fun row => map (fun c => match c with Some _ => true | None => false end)
                        (wr_days row)) (wt_rows table)
    = [[true; false; false; false; false; false; false];
       [true; false; false; false; false; false; false];
       [true; false; false; false; false; false; false]].
Proof. eexists. split; [vm_compute; reflexivity|]. split; reflexivity. Qed.

Lemma day_report_sections_are_entries_witness :
  exists sections total,
    _show_day_report db_busy (mkdate 2023 5 1) = Ok (DayReport sections total) /\
    map (fun s => name (ds_project s)) sections
    = ["Project A"; "Project B"; "Project A"]%string /\
    sections
    = map (fun ep =>
             mk_day_section (snd ep) [day_row (fst ep)]
                            (sum_duration_hours [fst ep])
                            (day_billing (snd ep) (sum_duration_hours [fst ep])))
          (get_entries_for_day db_busy (mkdate 2023 5 1)).
Proof.
  assert (H : exists sections total,
             _show_day_report db_busy (mkdate 2023 5 1)
             = Ok (DayReport sections total))
    by (eexists _, _; vm_compute; reflexivity).
  destruct H as (sections & total & H).
  destruct (day_report_sections_are_entries db_busy (mkdate 2023 5 1)
              sections total db_busy_wf H) as (Hsections & _).
  exists sections, total. split; [exact H|]. split; [|exact Hsections].
  rewrite Hsections. reflexivity.
Defined.

Lemma week_total_counts_every_entry_witness :
  exists table entries,
    _show_week_report db_overnight (mkdate 2023 5 3) = Ok (WeekReport table) /\
    get_entries_for_week db_overnight (mkdate 2023 5 3) = Ok entries /\
    (wt_total_hours table
     == Qsum (map (fun ep => entry_hours (fst ep)) entries))%Q.
Proof.
  assert (H : exists table,
             _show_week_report db_overnight (mkdate 2023 5 3)
             = Ok (WeekReport table))
    by (eexists; vm_compute; reflexivity).
  destruct H as [table H].
  destruct (week_total_counts_every_entry db_overnight (mkdate 2023 5 3) table H)
    as (entries & Hentries & Htotal).
  exists table, entries. auto.
Defined.

Lemma week_report_overflows_past_the_calendar_witness :
  get_entries_for_week db_task (mkdate 9999 12 31) = Raise OverflowError /\
  _show_week_report db_task (mkdate 9999 12 31) = Raise OverflowError.
Proof.
  apply (week_report_overflows_past_the_calendar db_task (mkdate 9999 12 31));
    by_computation.
Defined.

Lemma week_query_answers_within_the_calendar_witness :
  exists entries by_project,
    get_entries_for_week db_busy (mkdate 2023 5 3) = Ok entries /\
    week_group_entries entries [] = Ok by_project.
Proof.
  apply (week_query_answers_within_the_calendar db_busy (mkdate 2023 5 3));
    by_computation.
Defined.

Lemma yesterday_is_the_day_before_witness :
  Cli.yesterday_report db_task (mkdate 1 1 1) = Raise OverflowError /\
  exists yesterday,
    valid_date yesterday /\
    toordinal yesterday = toordinal (mkdate 2023 5 2) - 1 /\
    Cli.yesterday_report db_task (mkdate 2023 5 2)
    = _show_day_report db_task yesterday.
Proof.
  split.
  - apply (yesterday_is_the_day_before db_task (mkdate 1 1 1)); by_computation.
  - apply (yesterday_is_the_day_before db_task (mkdate 2023 5 2));
      by_computation.
Defined.

Example yesterday_of_2023_05_02 :
  Cli.yesterday_report db_task (mkdate 2023 5 2)
  = _show_day_report db_task (mkdate 2023 5 1).
Proof. reflexivity. Qed.

Example projects_listed_by_name :
  map name
      (get_all_projects
         (Cli.run_all empty_db
            [Cli.ProjectAdd "beta" false None; Cli.ProjectAdd "Zeta" false None;
             Cli.ProjectAdd "alpha" true (Some 50%Q)]))
  = ["Zeta"; "alpha"; "beta"]%string.
Proof. reflexivity. Qed.

Example update_to_taken_name :
  Cli.update_project
    (Cli.run_all empty_db
       [Cli.ProjectAdd "alpha" false None; Cli.ProjectAdd "beta" false None])
    2 (Some "alpha"%string) None None
  = (Cli.run_all empty_db
       [Cli.ProjectAdd "alpha" false None; Cli.ProjectAdd "beta" false None],
     Raise IntegrityError).
Proof. reflexivity. Qed.
